(** * The NFS block driver (block/nfs.c): model and verified properties

    The driver bridges a foreign protocol engine (libnfs) and the cooperative
    coroutine scheduler.  Every function of block/nfs.c that the properties
    below talk about is transcribed here as a computation over an explicit
    [World]: the [NFSClient] of the block device, the [NFSRPC] task of the
    request in flight, and the chronological trace of the calls made to the
    collaborators (reactor, engine, allocator, error reporting).

    What the foreign engine and the reactor decide (return codes, completion
    statuses, payloads, the readiness mask the engine asks for) is an input of
    the model, never chosen by it. *)

From Stdlib Require Import ZArith List String Ascii Bool Lia.
From Stdlib.Strings Require Import Byte.
Import ListNotations.
Local Open Scope Z_scope.

(* ================================================================== *)
(** ** C integer types (LP64) *)

Definition wrap_unsigned (w x : Z) : Z := x mod 2 ^ w.
Definition wrap_signed (w x : Z) : Z := (x + 2 ^ (w - 1)) mod 2 ^ w - 2 ^ (w - 1).

(** [int], [int64_t] (also [long], [off_t]) and [unsigned long long]
    (also [size_t]). *)
Definition to_int : Z -> Z := wrap_signed 32.
Definition to_int64 : Z -> Z := wrap_signed 64.
Definition to_uint64 : Z -> Z := wrap_unsigned 64.

Definition INT_MIN : Z := - 2 ^ 31.
Definition INT_MAX : Z := 2 ^ 31 - 1.
Definition is_int (x : Z) : Prop := INT_MIN <= x <= INT_MAX.

(* ================================================================== *)
(** ** Constants of the headers the driver includes

    None of these is declared in block/nfs.c; the values are those of the
    Linux headers and of QEMU's block.h. *)

Definition EIO : Z := 5.
Definition ENOMEM : Z := 12.
Definition EINVAL : Z := 22.
Definition POLLIN : Z := 1.
Definition POLLOUT : Z := 4.
Definition O_RDONLY : Z := 0.
Definition O_RDWR : Z := 2.
Definition O_CREAT : Z := 64.
Definition S_IFMT : Z := 61440.
Definition S_IFREG : Z := 32768.
Definition BDRV_O_RDWR : Z := 2.

(** Modelled from the spec: the fixed sector size of sector addressing.  The
    macro is declared in QEMU's block.h (not in block/nfs.c) as
    [1ULL << BDRV_SECTOR_BITS] with [BDRV_SECTOR_BITS = 9]: an
    [unsigned long long], so every product with it is computed modulo 2^64. *)
Definition BDRV_SECTOR_BITS : Z := 9.
Definition BDRV_SECTOR_SIZE : Z := Z.shiftl 1 BDRV_SECTOR_BITS.

(** [DIV_ROUND_UP(n, d)] is [(n + d - 1) / d]; with [d = BDRV_SECTOR_SIZE] the
    arithmetic is unsigned 64-bit. *)
Definition DIV_ROUND_UP (n d : Z) : Z :=
  to_uint64 (to_uint64 n + d - 1) / d.

(** [S_ISREG(m)] *)
Definition S_ISREG (m : Z) : bool := Z.land m S_IFMT =? S_IFREG.

(* ================================================================== *)
(** ** C strings *)

Definition char_code (c : ascii) : Z := Z.of_nat (nat_of_ascii c).

(** [strncmp(s1, s2, n)]: compares at most [n] characters. *)
Fixpoint strncmp (s1 s2 : string) (n : nat) {struct n} : Z :=
  match n with
  | O => 0
  | S n' =>
      match s1, s2 with
      | EmptyString, EmptyString => 0
      | EmptyString, String b _ => - char_code b
      | String a _, EmptyString => char_code a
      | String a r1, String b r2 =>
          if Ascii.eqb a b then strncmp r1 r2 n' else char_code a - char_code b
      end
  end.

(** [strcmp(s1, s2)] *)
Fixpoint strcmp (s1 s2 : string) : Z :=
  match s1, s2 with
  | EmptyString, EmptyString => 0
  | EmptyString, String b _ => - char_code b
  | String a _, EmptyString => char_code a
  | String a r1, String b r2 =>
      if Ascii.eqb a b then strcmp r1 r2 else char_code a - char_code b
  end.

(** [strrchr(s, c)]: the last occurrence of [c] splits [s] into what is before
    it and the suffix that starts at it; [None] is the NULL result. *)
Fixpoint strrchr (s : string) (c : ascii) : option (string * string) :=
  match s with
  | EmptyString => None
  | String a r =>
      match strrchr r c with
      | Some (before, from) => Some (String a before, from)
      | None => if Ascii.eqb a c then Some (EmptyString, s) else None
      end
  end.

Definition is_space (c : ascii) : bool :=
  let n := nat_of_ascii c in
  (Nat.eqb n 32 || (Nat.leb 9 n && Nat.leb n 13))%bool.

Definition is_digit (c : ascii) : bool :=
  let n := nat_of_ascii c in (Nat.leb 48 n && Nat.leb n 57)%bool.

Fixpoint skip_space (s : string) : string :=
  match s with
  | String c r => if is_space c then skip_space r else s
  | EmptyString => s
  end.

Fixpoint atoi_digits (s : string) (acc : Z) : Z :=
  match s with
  | String c r =>
      if is_digit c then atoi_digits r (acc * 10 + (char_code c - 48)) else acc
  | EmptyString => acc
  end.

(** [atoi] of the C library: blanks, an optional sign, decimal digits. *)
Definition atoi (s : string) : Z :=
  to_int
    match skip_space s with
    | String "-"%char r => - atoi_digits r 0
    | String "+"%char r => atoi_digits r 0
    | r => atoi_digits r 0
    end.

(* ================================================================== *)
(** ** Data model *)

(** The fields of [struct stat] the driver reads. *)
Record stat := mkstat {
  st_mode : Z;
  st_size : Z;
  st_blksize : Z;
  st_blocks : Z
}.

(** A [QEMUIOVector], flattened: the bytes of its segments in order.  Its
    [size] member is the total number of bytes. *)
Record QEMUIOVector := mkqiov { qiov_bytes : list byte }.

Definition size (q : QEMUIOVector) : Z := Z.of_nat (List.length (qiov_bytes q)).

(** Modelled from the spec: [qemu_iovec_from_buf(qiov, offset, buf, bytes)] of
    util/iov.c (not under block/): copies [bytes] bytes of [buf] into the
    vector from [offset] on, stopping at the end of the vector. *)
Definition qemu_iovec_from_buf (q : QEMUIOVector) (offset : Z) (buf : list byte)
    (bytes : Z) : QEMUIOVector :=
  let old := qiov_bytes q in
  let room := Z.to_nat (size q - offset) in
  let src := firstn room (firstn (Z.to_nat bytes) buf) in
  mkqiov (firstn (Z.to_nat offset) old ++ src
          ++ skipn (Z.to_nat offset + List.length src) old).

(** Modelled from the spec: [qemu_iovec_memset(qiov, offset, fillc, bytes)] of
    util/iov.c: fills [bytes] bytes from [offset] on with [fillc], stopping at
    the end of the vector. *)
Definition qemu_iovec_memset (q : QEMUIOVector) (offset : Z) (fillc : byte)
    (bytes : Z) : QEMUIOVector :=
  let old := qiov_bytes q in
  let n := Nat.min (Z.to_nat bytes) (Z.to_nat (size q - offset)) in
  mkqiov (firstn (Z.to_nat offset) old ++ repeat fillc n
          ++ skipn (Z.to_nat offset + n) old).

(** Modelled from the spec: [qemu_iovec_to_buf(qiov, offset, buf, bytes)] of
    util/iov.c: the bytes gathered into the contiguous buffer. *)
Definition qemu_iovec_to_buf (q : QEMUIOVector) (offset bytes : Z) : list byte :=
  firstn (Z.to_nat bytes) (skipn (Z.to_nat offset) (qiov_bytes q)).

(** The engine's context, as far as the driver can observe it: the socket,
    the readiness mask it currently asks for ([nfs_which_events]) and what
    the driver has configured on it. *)
Record nfs_context := mkctx {
  ctx_fd : Z;
  ctx_events : Z;
  ctx_uid : option Z;
  ctx_gid : option Z;
  ctx_tcp_syncnt : option Z;
  ctx_mounted : option (string * string)
}.

Definition nfs_which_events (c : nfs_context) : Z := ctx_events c.
Definition nfs_get_fd (c : nfs_context) : Z := ctx_fd c.

Inductive nfsfh := NfsFh (id : Z).
Inductive Coroutine := Co (id : Z).

(** The functions of the driver that are handed out as callbacks. *)
Inductive callback :=
| fn_nfs_process_read
| fn_nfs_process_write
| fn_nfs_co_generic_cb
| fn_nfs_co_generic_bh_cb.

(** A bottom half of the reactor. *)
Record QEMUBH := mkbh {
  bh_cb : callback;
  bh_scheduled : bool;
  bh_deleted : bool
}.

(** A pointer member is modelled by the object it points to, [None] being
    NULL.  The engine context and the file handle are owned by the client;
    the vector and the [struct stat] a task points to are owned by the caller
    of the operation and are reached only through the task while the request
    is in flight. *)
Record NFSClient := mkclient {
  context : option nfs_context;
  fh : option nfsfh;
  events : Z;
  has_zero_init : bool
}.

Record NFSRPC := mkrpc {
  status : Z;
  complete : Z;
  iov : option QEMUIOVector;
  st : option stat;
  co : option Coroutine;
  bh : option QEMUBH
}.

(** [memset(client, 0, sizeof(NFSClient))] and [(NFSRPC){0}]. *)
Definition NFSClient_zero : NFSClient := mkclient None None 0 false.
Definition NFSRPC_zero : NFSRPC := mkrpc 0 0 None None None None.

(** What the engine hands to a completion callback through [void *data]. *)
Inductive cb_data :=
| DataNull
| DataBuf (buf : list byte)
| DataStat (s : stat).

Definition data_buf (d : cb_data) : list byte :=
  match d with DataBuf b => b | _ => [] end.

(** Stores into the task of the request in flight, and into the objects it
    points to. *)
Inductive task_write :=
| W_init (self : option Coroutine)   (* *task = (NFSRPC){ .co = self } *)
| W_iov_ptr (q : QEMUIOVector)       (* task.iov = iov *)
| W_st_ptr (s : stat)                (* task.st = &st *)
| W_complete (v : Z)                 (* task->complete = v *)
| W_status (v : Z)                   (* task->status = v *)
| W_iov_from_buf (data : cb_data) (bytes : Z)
| W_iov_memset (offset : Z) (fillc : byte) (bytes : Z)
| W_st_memcpy (data : cb_data)
| W_bh (b : option QEMUBH).          (* task->bh = b, or an update of *task->bh *)

Definition apply_write (tw : task_write) (t : NFSRPC) : NFSRPC :=
  match tw with
  | W_init self => mkrpc 0 0 None None self None
  | W_iov_ptr q => mkrpc (status t) (complete t) (Some q) (st t) (co t) (bh t)
  | W_st_ptr s => mkrpc (status t) (complete t) (iov t) (Some s) (co t) (bh t)
  | W_complete v => mkrpc (status t) v (iov t) (st t) (co t) (bh t)
  | W_status v => mkrpc v (complete t) (iov t) (st t) (co t) (bh t)
  | W_iov_from_buf d n =>
      mkrpc (status t) (complete t)
        (option_map (fun q => qemu_iovec_from_buf q 0 (data_buf d) n) (iov t))
        (st t) (co t) (bh t)
  | W_iov_memset off c n =>
      mkrpc (status t) (complete t)
        (option_map (fun q => qemu_iovec_memset q off c n) (iov t))
        (st t) (co t) (bh t)
  | W_st_memcpy d =>
      mkrpc (status t) (complete t) (iov t)
        (match d with DataStat s => Some s | _ => st t end) (co t) (bh t)
  | W_bh b => mkrpc (status t) (complete t) (iov t) (st t) (co t) b
  end.

(** Error messages of [error_setg]: the format and its [%s] argument. *)
Record message := mkmsg { msg_fmt : string; msg_arg : option string }.

(** The trace: stores into the task and calls to the collaborators. *)
Inductive event :=
| E_task (tw : task_write)
| E_qemu_aio_set_fd_handler (fd : Z) (io_read io_write : option callback)
    (opaque : bool)
| E_nfs_service (revents : Z)
| E_error_report
| E_qemu_bh_new (cb : callback)
| E_qemu_bh_schedule
| E_qemu_bh_delete
| E_qemu_coroutine_enter (c : option Coroutine)
| E_nfs_pread_async (offset count : Z)
| E_nfs_pwrite_async (offset count : Z) (buf : list byte)
| E_nfs_fsync_async
| E_nfs_fstat_async
| E_g_malloc (n : Z)
| E_g_free
| E_nfs_init_context
| E_nfs_set_uid (n : Z)
| E_nfs_set_gid (n : Z)
| E_nfs_set_tcp_syncnt (n : Z)
| E_nfs_mount (server exportname : string)
| E_nfs_creat (file : string) (mode : Z)
| E_nfs_open (file : string) (flags : Z)
| E_nfs_fstat
| E_nfs_ftruncate (length : Z)
| E_nfs_close (f : nfsfh)
| E_nfs_destroy_context
| E_error_setg (m : message)
| E_query_params_free
| E_uri_free
| E_qerror_report_err.

(* ================================================================== *)
(** ** The world and the monad of driver computations *)

Record World := mkworld {
  w_client : NFSClient;      (* bs->opaque *)
  w_total_sectors : Z;       (* bs->total_sectors *)
  w_task : NFSRPC;           (* the task of the request in flight *)
  w_trace : list event       (* oldest first *)
}.

Inductive result (A : Type) : Type :=
| Ret (a : A) (w : World)   (* the call returns *)
| Blocked                   (* suspended, and the reactor never wakes it *)
| OutOfFuel                 (* the model's loop bound was too small *)
| Fault.                    (* NULL dereference *)
Arguments Ret {A} a w.
Arguments Blocked {A}.
Arguments OutOfFuel {A}.
Arguments Fault {A}.

Definition M (A : Type) : Type := World -> result A.

Definition ret {A} (a : A) : M A := fun w => Ret a w.

Definition bind {A B} (m : M A) (k : A -> M B) : M B :=
  fun w =>
    match m w with
    | Ret a w' => k a w'
    | Blocked => Blocked
    | OutOfFuel => OutOfFuel
    | Fault => Fault
    end.

Notation "x <- m ;; k" := (bind m (fun x => k))
  (at level 61, m at next level, right associativity).
Notation "m ;; k" := (bind m (fun _ => k))
  (at level 61, right associativity).

Definition fault {A} : M A := fun _ => Fault.
Definition blocked {A} : M A := fun _ => Blocked.
Definition out_of_fuel {A} : M A := fun _ => OutOfFuel.

Definition get_client : M NFSClient := fun w => Ret (w_client w) w.
Definition put_client (c : NFSClient) : M unit :=
  fun w => Ret tt (mkworld c (w_total_sectors w) (w_task w) (w_trace w)).
Definition get_task : M NFSRPC := fun w => Ret (w_task w) w.
Definition put_total_sectors (n : Z) : M unit :=
  fun w => Ret tt (mkworld (w_client w) n (w_task w) (w_trace w)).

(** Record a call in the trace. *)
Definition emit (e : event) : M unit :=
  fun w =>
    Ret tt (mkworld (w_client w) (w_total_sectors w) (w_task w) (w_trace w ++ [e])).

(** A store into the task: applied and recorded. *)
Definition task_store (tw : task_write) : M unit :=
  fun w =>
    Ret tt (mkworld (w_client w) (w_total_sectors w) (apply_write tw (w_task w))
              (w_trace w ++ [E_task tw])).

(** Dereference of a pointer. *)
Definition deref {A} (p : option A) : M A :=
  match p with Some a => ret a | None => fault end.

Definition when (b : bool) (m : M unit) : M unit := if b then m else ret tt.

Definition is_null {A} (p : option A) : bool :=
  match p with Some _ => false | None => true end.

(** Stores into the members of the client. *)
Definition set_context (c : option nfs_context) : M unit :=
  cl <- get_client ;;
  put_client (mkclient c (fh cl) (events cl) (has_zero_init cl)).
Definition set_fh (f : option nfsfh) : M unit :=
  cl <- get_client ;;
  put_client (mkclient (context cl) f (events cl) (has_zero_init cl)).
Definition set_events (ev : Z) : M unit :=
  cl <- get_client ;;
  put_client (mkclient (context cl) (fh cl) ev (has_zero_init cl)).
Definition set_has_zero_init (b : bool) : M unit :=
  cl <- get_client ;;
  put_client (mkclient (context cl) (fh cl) (events cl) b).

(** The engine changes the readiness mask it asks for. *)
Definition engine_wants (ev : Z) : M unit :=
  cl <- get_client ;;
  c <- deref (context cl) ;;
  set_context (Some (mkctx (ctx_fd c) ev (ctx_uid c) (ctx_gid c)
                       (ctx_tcp_syncnt c) (ctx_mounted c))).

(* ================================================================== *)
(** ** Event bridge *)

(** [nfs_set_events] *)
Definition nfs_set_events : M unit :=
  client <- get_client ;;
  c <- deref (context client) ;;
  let ev := nfs_which_events c in
  when (negb (ev =? events client))
    (emit (E_qemu_aio_set_fd_handler (nfs_get_fd c)
             (if Z.land ev POLLIN =? 0 then None else Some fn_nfs_process_read)
             (if Z.land ev POLLOUT =? 0 then None else Some fn_nfs_process_write)
             true)) ;;
  set_events ev.

(* ================================================================== *)
(** ** Completion task protocol *)

(** [nfs_co_init_task]; [self] is what [qemu_coroutine_self()] returns. *)
Definition nfs_co_init_task (self : Coroutine) : M unit :=
  task_store (W_init (Some self)).

(** [nfs_co_generic_bh_cb] *)
Definition nfs_co_generic_bh_cb : M unit :=
  task <- get_task ;;
  b <- deref (bh task) ;;
  emit E_qemu_bh_delete ;;
  task_store (W_bh (Some (mkbh (bh_cb b) false true))) ;;
  emit (E_qemu_coroutine_enter (co task)).

(** [nfs_co_generic_cb].  The test before [error_report] reads a member [ret]
    that [NFSRPC] does not declare; it is read as the status member, the only
    integer result of the task. *)
Definition nfs_co_generic_cb (status_arg : Z) (data : cb_data) : M unit :=
  task_store (W_complete 1) ;;
  task_store (W_status status_arg) ;;
  task <- get_task ;;
  when ((0 <? status task) && negb (is_null (iov task)))
    (q <- deref (iov task) ;;
     if to_uint64 (status task) <=? size q
     then task_store (W_iov_from_buf data (status task))
     else task_store (W_status (- EIO))) ;;
  task <- get_task ;;
  when ((status task =? 0) && negb (is_null (st task)))
    (task_store (W_st_memcpy data)) ;;
  task <- get_task ;;
  when (status task <? 0) (emit E_error_report) ;;
  when (negb (is_null (co task)))
    (emit (E_qemu_bh_new fn_nfs_co_generic_bh_cb) ;;
     task_store (W_bh (Some (mkbh fn_nfs_co_generic_bh_cb false false))) ;;
     emit E_qemu_bh_schedule ;;
     task_store (W_bh (Some (mkbh fn_nfs_co_generic_bh_cb true false)))).

(* ================================================================== *)
(** ** The engine and the reactor, as the driver sees them *)

Inductive readiness := Readable | Writable.

(** One dispatch of the reactor on the client's file descriptor: which handler
    it calls, the completion the engine delivers to the task's callback from
    inside its service routine (if any), and the readiness mask the engine
    asks for when the service routine returns. *)
Record dispatch := mkdispatch {
  d_ready : readiness;
  d_completion : option (Z * cb_data);
  d_events : Z
}.

(** What the engine does with one request: the return code of the submission,
    the mask it asks for afterwards, and the dispatches that follow. *)
Record engine_run := mkrun {
  run_submit_rc : Z;
  run_submit_events : Z;
  run_script : list dispatch
}.

(** Modelled from the spec: [nfs_service(context, revents)] of the engine
    (libnfs), the service routine from inside which the completion callback
    bound to the task is invoked. *)
Definition nfs_service (revents : Z) (d : dispatch) : M unit :=
  client <- get_client ;;
  _ <- deref (context client) ;;
  emit (E_nfs_service revents) ;;
  match d_completion d with
  | Some (s, data) => nfs_co_generic_cb s data
  | None => ret tt
  end ;;
  engine_wants (d_events d).

(** [nfs_process_read] *)
Definition nfs_process_read (d : dispatch) : M unit :=
  nfs_service POLLIN d ;;
  nfs_set_events.

(** [nfs_process_write] *)
Definition nfs_process_write (d : dispatch) : M unit :=
  nfs_service POLLOUT d ;;
  nfs_set_events.

Definition run_handler (d : dispatch) : M unit :=
  match d_ready d with
  | Readable => nfs_process_read d
  | Writable => nfs_process_write d
  end.

Definition bh_pending (t : NFSRPC) : bool :=
  match bh t with
  | Some b => bh_scheduled b && negb (bh_deleted b)
  | None => false
  end.

(** Modelled from the spec: [qemu_coroutine_yield()].  Control goes to the
    reactor, which dispatches until a bottom half is pending and then runs
    it; the bottom half re-enters the coroutine.  The result is what is left
    of the script.  With nothing left to dispatch the coroutine is never
    re-entered. *)
Fixpoint qemu_coroutine_yield (script : list dispatch) : M (list dispatch) :=
  match script with
  | [] => blocked
  | d :: rest =>
      run_handler d ;;
      task <- get_task ;;
      if bh_pending task
      then nfs_co_generic_bh_cb ;; ret rest
      else qemu_coroutine_yield rest
  end.

(** Modelled from the spec: [qemu_aio_wait()], the blocking wait outside
    coroutine context: one dispatch of the reactor. *)
Definition qemu_aio_wait (script : list dispatch) : M (list dispatch) :=
  match script with
  | [] => blocked
  | d :: rest => run_handler d ;; ret rest
  end.

(** The wait loop,
    [while (!task.complete) { nfs_set_events(client); suspend(); }]. *)
Fixpoint wait_loop (suspend : list dispatch -> M (list dispatch)) (fuel : nat)
    (script : list dispatch) : M unit :=
  task <- get_task ;;
  if complete task =? 0 then
    match fuel with
    | O => out_of_fuel
    | S fuel' =>
        nfs_set_events ;;
        rest <- suspend script ;;
        wait_loop suspend fuel' rest
    end
  else ret tt.

(** Every suspension consumes a dispatch, so this bound is never reached. *)
Definition loop_bound (script : list dispatch) : nat := S (List.length script).

(** Modelled from the spec: the submission entry points of the engine
    ([nfs_pread_async], [nfs_pwrite_async], [nfs_fsync_async],
    [nfs_fstat_async]): the request is queued on the context for the file
    handle, nothing completes before the service routine runs. *)
Definition nfs_submit (e : event) (eng : engine_run) : M Z :=
  client <- get_client ;;
  _ <- deref (context client) ;;
  _ <- deref (fh client) ;;
  emit e ;;
  engine_wants (run_submit_events eng) ;;
  ret (run_submit_rc eng).

(* ================================================================== *)
(** ** Coroutine I/O operations *)

(** [nfs_co_readv].  [iov] and [task.iov] are the same pointer: the vector read
    after the wait loop is the one the task points to. *)
Definition nfs_co_readv (self : Coroutine) (eng : engine_run)
    (sector_num nb_sectors : Z) (qiov : QEMUIOVector) : M Z :=
  nfs_co_init_task self ;;
  task_store (W_iov_ptr qiov) ;;
  rc <- nfs_submit
          (E_nfs_pread_async (to_uint64 (sector_num * BDRV_SECTOR_SIZE))
             (to_uint64 (nb_sectors * BDRV_SECTOR_SIZE))) eng ;;
  if negb (rc =? 0) then ret (- ENOMEM) else
  wait_loop qemu_coroutine_yield (loop_bound (run_script eng)) (run_script eng) ;;
  task <- get_task ;;
  if status task <? 0 then ret (status task) else
  q <- deref (iov task) ;;
  (* zero pad short reads *)
  when (to_uint64 (status task) <? size q)
    (task_store (W_iov_memset (to_uint64 (status task)) x00
                   (to_uint64 (size q - to_uint64 (status task))))) ;;
  ret 0.

(** [nfs_co_writev] *)
Definition nfs_co_writev (self : Coroutine) (eng : engine_run)
    (sector_num nb_sectors : Z) (qiov : QEMUIOVector) : M Z :=
  nfs_co_init_task self ;;
  let n := to_uint64 (nb_sectors * BDRV_SECTOR_SIZE) in
  emit (E_g_malloc n) ;;
  let buf := qemu_iovec_to_buf qiov 0 n in
  rc <- nfs_submit
          (E_nfs_pwrite_async (to_uint64 (sector_num * BDRV_SECTOR_SIZE)) n buf)
          eng ;;
  if negb (rc =? 0) then emit E_g_free ;; ret (- ENOMEM) else
  wait_loop qemu_coroutine_yield (loop_bound (run_script eng)) (run_script eng) ;;
  emit E_g_free ;;
  task <- get_task ;;
  if negb (to_uint64 (status task) =? n)
  then ret (if status task <? 0 then status task else - EIO)
  else ret 0.

(** [nfs_co_flush] *)
Definition nfs_co_flush (self : Coroutine) (eng : engine_run) : M Z :=
  nfs_co_init_task self ;;
  rc <- nfs_submit E_nfs_fsync_async eng ;;
  if negb (rc =? 0) then ret (- ENOMEM) else
  wait_loop qemu_coroutine_yield (loop_bound (run_script eng)) (run_script eng) ;;
  task <- get_task ;;
  ret (status task).

(** [nfs_get_allocated_file_size].  [st0] is what the uninitialised local
    [struct stat] happens to hold. *)
Definition nfs_get_allocated_file_size (st0 : stat) (eng : engine_run) : M Z :=
  task_store (W_init None) ;;
  task_store (W_st_ptr st0) ;;
  rc <- nfs_submit E_nfs_fstat_async eng ;;
  if negb (rc =? 0) then ret (- ENOMEM) else
  wait_loop qemu_aio_wait (loop_bound (run_script eng)) (run_script eng) ;;
  task <- get_task ;;
  s <- deref (st task) ;;
  ret (if status task <? 0 then status task
       else to_int64 (st_blocks s * st_blksize s)).

(* ================================================================== *)
(** ** Connection manager *)

(** [nfs_client_close] *)
Definition nfs_client_close : M unit :=
  client <- get_client ;;
  match context client with
  | Some c =>
      match fh client with
      | Some f => emit (E_nfs_close f)
      | None => ret tt
      end ;;
      emit (E_qemu_aio_set_fd_handler (nfs_get_fd c) None None false) ;;
      emit E_nfs_destroy_context
  | None => ret tt
  end ;;
  put_client NFSClient_zero.

(** [nfs_file_close] *)
Definition nfs_file_close : M unit := nfs_client_close.

(** A parsed URL and its query parameters (qemu/uri.h). *)
Record URI := mkuri {
  server : string;
  path : option string;
  query : option string
}.

Record QueryParam := mkqp {
  name : string;
  value : option string
}.

(** What the collaborators answer during one open: the URL parser, the
    query-string parser and the engine.  For [nfs_creat] and [nfs_open] the
    answer is the return code and the handle stored through the out pointer
    ([None]: nothing stored). *)
Record open_env := mkopen {
  env_uri_parse : string -> option URI;
  env_query_params_parse : option string -> list QueryParam;
  env_nfs_init_context : option nfs_context;
  env_nfs_get_error : string;
  env_nfs_mount : Z;
  env_nfs_creat : Z * option nfsfh;
  env_nfs_open : Z * option nfsfh;
  env_nfs_fstat : Z * stat;
  env_nfs_ftruncate : Z
}.

(** Setters of the engine, recorded and applied to the context. *)
Definition nfs_set_uid (n : Z) : M unit :=
  client <- get_client ;;
  c <- deref (context client) ;;
  emit (E_nfs_set_uid n) ;;
  set_context (Some (mkctx (ctx_fd c) (ctx_events c) (Some n) (ctx_gid c)
                       (ctx_tcp_syncnt c) (ctx_mounted c))).

Definition nfs_set_gid (n : Z) : M unit :=
  client <- get_client ;;
  c <- deref (context client) ;;
  emit (E_nfs_set_gid n) ;;
  set_context (Some (mkctx (ctx_fd c) (ctx_events c) (ctx_uid c) (Some n)
                       (ctx_tcp_syncnt c) (ctx_mounted c))).

Definition nfs_set_tcp_syncnt (n : Z) : M unit :=
  client <- get_client ;;
  c <- deref (context client) ;;
  emit (E_nfs_set_tcp_syncnt n) ;;
  set_context (Some (mkctx (ctx_fd c) (ctx_events c) (ctx_uid c) (ctx_gid c)
                       (Some n) (ctx_mounted c))).

(** Modelled from the spec: [nfs_mount] of the engine; a non-negative return
    code leaves the share mounted on the context. *)
Definition nfs_mount (env : open_env) (srv exportname : string) : M Z :=
  client <- get_client ;;
  c <- deref (context client) ;;
  emit (E_nfs_mount srv exportname) ;;
  when (0 <=? env_nfs_mount env)
    (set_context (Some (mkctx (ctx_fd c) (ctx_events c) (ctx_uid c) (ctx_gid c)
                          (ctx_tcp_syncnt c) (Some (srv, exportname))))) ;;
  ret (env_nfs_mount env).

(** Modelled from the spec: [nfs_creat] and [nfs_open] of the engine, which
    store the new handle through [&client->fh]. *)
Definition nfs_creat (env : open_env) (file : string) (mode : Z) : M Z :=
  client <- get_client ;;
  _ <- deref (context client) ;;
  emit (E_nfs_creat file mode) ;;
  match snd (env_nfs_creat env) with
  | Some f => set_fh (Some f)
  | None => ret tt
  end ;;
  ret (fst (env_nfs_creat env)).

Definition nfs_open (env : open_env) (file : string) (flags : Z) : M Z :=
  client <- get_client ;;
  _ <- deref (context client) ;;
  emit (E_nfs_open file flags) ;;
  match snd (env_nfs_open env) with
  | Some f => set_fh (Some f)
  | None => ret tt
  end ;;
  ret (fst (env_nfs_open env)).

(** Modelled from the spec: [nfs_fstat] of the engine, the synchronous
    metadata query. *)
Definition nfs_fstat (env : open_env) : M (Z * stat) :=
  client <- get_client ;;
  _ <- deref (context client) ;;
  _ <- deref (fh client) ;;
  emit E_nfs_fstat ;;
  ret (env_nfs_fstat env).

(** Modelled from the spec: [nfs_ftruncate] of the engine. *)
Definition nfs_ftruncate (env : open_env) (length : Z) : M Z :=
  client <- get_client ;;
  _ <- deref (context client) ;;
  _ <- deref (fh client) ;;
  emit (E_nfs_ftruncate length) ;;
  ret (env_nfs_ftruncate env).

(** Where the body of [nfs_client_open] leaves to. *)
Inductive label := L_fail | L_out.

(** The state of the locals at a [goto]: the label, [ret], and whether [qp] has
    been set. *)
Definition open_exit : Type := label * Z * bool.

Definition goto_fail (fmt : string) (arg : option string) (r : Z) (qp : bool)
    : M open_exit :=
  emit (E_error_setg (mkmsg fmt arg)) ;;
  ret (L_fail, r, qp).

(** The [for] loop of [nfs_client_open] over the query parameters; [false] is
    the [goto fail]. *)
Fixpoint nfs_client_open_params (ps : list QueryParam) : M bool :=
  match ps with
  | [] => ret true
  | p :: rest =>
      match value p with
      | None =>
          emit (E_error_setg (mkmsg "Value for NFS parameter expected: %s"
                                (Some (name p)))) ;;
          ret false
      | Some v =>
          if strncmp (name p) "uid" 3 =? 0 then
            nfs_set_uid (atoi v) ;; nfs_client_open_params rest
          else if strncmp (name p) "gid" 3 =? 0 then
            nfs_set_gid (atoi v) ;; nfs_client_open_params rest
          else if strncmp (name p) "tcp-syncnt" 10 =? 0 then
            nfs_set_tcp_syncnt (atoi v) ;; nfs_client_open_params rest
          else
            emit (E_error_setg (mkmsg "Unknown NFS parameter name: %s"
                                  (Some (name p)))) ;;
            ret false
      end
  end.

(** [nfs_client_open] from [nfs_fstat] to [goto out].  [ret] is an [int]: the
    64-bit quotient is converted to it. *)
Definition nfs_client_open_stat (env : open_env) : M open_exit :=
  rs <- nfs_fstat env ;;
  if fst rs <? 0
  then goto_fail "Failed to fstat file: %s" (Some (env_nfs_get_error env))
         (fst rs) true
  else
    let r := to_int (DIV_ROUND_UP (st_size (snd rs)) BDRV_SECTOR_SIZE) in
    set_has_zero_init (S_ISREG (st_mode (snd rs))) ;;
    ret (L_out, r, true).

(** [nfs_client_open] up to the labels. *)
Definition nfs_client_open_body (env : open_env) (filename : string) (flags : Z)
    : M open_exit :=
  let r := - EINVAL in
  match env_uri_parse env filename with
  | None => goto_fail "Invalid URL specified" None r false
  | Some uri =>
  p <- deref (path uri) ;;
  match strrchr p "/" with
  | None => goto_fail "Invalid URL specified" None r false
  | Some (dir, file) =>
  emit E_nfs_init_context ;;
  set_context (env_nfs_init_context env) ;;
  client <- get_client ;;
  if is_null (context client)
  then goto_fail "Failed to init NFS context" None r false else
  ok <- nfs_client_open_params (env_query_params_parse env (query uri)) ;;
  if negb ok then ret (L_fail, r, true) else
  r <- nfs_mount env (server uri) dir ;;
  if r <? 0
  then goto_fail "Failed to mount nfs share: %s" (Some (env_nfs_get_error env))
         r true else
  if negb (Z.land flags O_CREAT =? 0) then
    r <- nfs_creat env file 384 ;;
    if r <? 0
    then goto_fail "Failed to create file: %s" (Some (env_nfs_get_error env))
           r true
    else nfs_client_open_stat env
  else
    r <- nfs_open env file flags ;;
    if r <? 0
    then goto_fail "Failed to open file : %s" (Some (env_nfs_get_error env))
           r true
    else nfs_client_open_stat env
  end
  end.

(** [nfs_client_open]: the body, then the code at [fail:] and [out:]. *)
Definition nfs_client_open (env : open_env) (filename : string) (flags : Z)
    : M Z :=
  x <- nfs_client_open_body env filename flags ;;
  let '(l, r, qp) := x in
  match l with
  | L_fail => nfs_client_close
  | L_out => ret tt
  end ;;
  when qp (emit E_query_params_free) ;;
  emit E_uri_free ;;
  emit E_g_free ;;
  ret r.

(** [nfs_file_open].  [absorb_error] tells whether [qemu_opts_absorb_qdict]
    set an error; [filename] is the option of that name. *)
Definition nfs_file_open (env : open_env) (absorb_error : bool)
    (filename : string) (flags : Z) : M Z :=
  if absorb_error then emit E_qerror_report_err ;; ret (- EINVAL) else
  r <- nfs_client_open env filename
         (if Z.land flags BDRV_O_RDWR =? 0 then O_RDONLY else O_RDWR) ;;
  if r <? 0 then ret (to_int r) else
  put_total_sectors r ;;
  ret 0.

(** [nfs_file_truncate] *)
Definition nfs_file_truncate (env : open_env) (offset : Z) : M Z :=
  nfs_ftruncate env offset.

(** [nfs_has_zero_init] *)
Definition nfs_has_zero_init : M Z :=
  client <- get_client ;;
  ret (if has_zero_init client then 1 else 0).

Record QEMUOptionParameter := mkopt {
  opt_name : string;
  opt_value_n : Z
}.

(** The option loop of [nfs_file_create]. *)
Fixpoint read_out_options (options : list QEMUOptionParameter) (total_size : Z)
    : Z :=
  match options with
  | [] => total_size
  | o :: rest =>
      read_out_options rest
        (if strcmp (opt_name o) "size" =? 0 then opt_value_n o else total_size)
  end.

(** [nfs_file_create]; the client of the world is the one it allocates with
    [g_malloc0]. *)
Definition nfs_file_create (env : open_env) (url : string)
    (options : list QEMUOptionParameter) : M Z :=
  put_client NFSClient_zero ;;
  let total_size := read_out_options options 0 in
  r <- nfs_client_open env url O_CREAT ;;
  let r := to_int r in
  r <- (if r <? 0 then ret r
        else r' <- nfs_ftruncate env total_size ;; ret r') ;;
  nfs_client_close ;;
  emit E_g_free ;;
  ret r.

(* ================================================================== *)
(** ** Notions used in the statements *)

(** The first completion the engine delivers in a script. *)
Fixpoint first_completion (script : list dispatch) : option (Z * cb_data) :=
  match script with
  | [] => None
  | d :: rest =>
      match d_completion d with
      | Some c => Some c
      | None => first_completion rest
      end
  end.

(** The completion callback run on a task alone: the task it leaves and the
    trace it produces. *)
Definition cb_world (s : Z) (data : cb_data) (t : NFSRPC) : World :=
  match nfs_co_generic_cb s data (mkworld NFSClient_zero 0 t []) with
  | Ret _ w' => w'
  | _ => mkworld NFSClient_zero 0 t []
  end.

Definition cb_task (s : Z) (data : cb_data) (t : NFSRPC) : NFSRPC :=
  w_task (cb_world s data t).

Definition cb_trace (s : Z) (data : cb_data) (t : NFSRPC) : list event :=
  w_trace (cb_world s data t).




(** A client that is open: it has an engine context and a file handle. *)
Definition is_open (cl : NFSClient) : Prop :=
  context cl <> None /\ fh cl <> None.

(** The parameter names the driver documents. *)
Definition documented_name (s : string) : bool :=
  (String.eqb s "uid" || String.eqb s "gid" || String.eqb s "tcp-syncnt")%bool.

(** The names the loop of [nfs_client_open] takes for a known parameter,
    and the parameters at which the loop fails. *)
Definition accepted_name (n : string) : bool :=
  ((strncmp n "uid" 3 =? 0) || (strncmp n "gid" 3 =? 0)
   || (strncmp n "tcp-syncnt" 10 =? 0))%bool.

Definition rejected (p : QueryParam) : bool :=
  match value p with
  | None => true
  | Some _ => negb (accepted_name (name p))
  end.

(** The ceiling of a quotient. *)
Definition ceil_div (n d : Z) : Z := (n + d - 1) / d.

(* ================================================================== *)
(** ** Concrete inputs *)

Definition ex_ctx : nfs_context := mkctx 7 0 None None None None.
Definition ex_client : NFSClient := mkclient (Some ex_ctx) (Some (NfsFh 1)) 0 false.
Definition ex_world : World := mkworld ex_client 0 NFSRPC_zero [].
Definition ex_closed_world : World := mkworld NFSClient_zero 0 NFSRPC_zero [].

(** A dispatch that completes nothing, and one that completes the request. *)
Definition ex_quiet : dispatch := mkdispatch Writable None POLLIN.
Definition ex_reply (s : Z) (data : cb_data) : dispatch :=
  mkdispatch Readable (Some (s, data)) 0.
Definition ex_run (s : Z) (data : cb_data) : engine_run :=
  mkrun 0 (POLLIN + POLLOUT) [ex_quiet; ex_reply s data].

Definition ex_vector : QEMUIOVector := mkqiov [x11; x22; x33; x44].
Definition ex_stat : stat := mkstat S_IFREG 4096 512 8.
Definition ex_stack_stat : stat := mkstat 0 0 0 0.

(** A task of a read in flight, as [nfs_co_readv] sets it up. *)
Definition ex_read_task : NFSRPC :=
  mkrpc 0 0 (Some ex_vector) None (Some (Co 1)) None.
Definition ex_read_world : World := mkworld ex_client 0 ex_read_task [].

(** An open of [nfs://srv/share/file] with the given query string, parsed
    into the given parameters, on a file of the given size; every call to the
    engine succeeds. *)
Definition ex_open_env (q : option string) (qp : list QueryParam)
    (file_size : Z) : open_env :=
  mkopen (fun _ => Some (mkuri "srv" (Some "/share/file"%string) q))
    (fun _ => qp) (Some ex_ctx) "error" 0
    (0, Some (NfsFh 2)) (0, Some (NfsFh 3))
    (0, mkstat S_IFREG file_size 512 8) 0.

(** Entering a coroutine; creating, scheduling or deleting a bottom half. *)
Definition is_enter (e : event) : bool :=
  match e with
  | E_qemu_coroutine_enter _ => true
  | _ => false
  end.

Definition is_bh_call (e : event) : bool :=
  match e with
  | E_qemu_bh_new _ | E_qemu_bh_schedule | E_qemu_bh_delete => true
  | _ => false
  end.

(** The stored mask of the client is the one its engine context asks for. *)
Definition in_sync (cl : NFSClient) : Prop :=
  exists c, context cl = Some c /\ events cl = nfs_which_events c.

(** The setter the parameter loop of [nfs_client_open] calls for a
    parameter it accepts. *)
Definition setter_calls (p : QueryParam) : list event :=
  match value p with
  | None => []
  | Some v =>
      if strncmp (name p) "uid" 3 =? 0 then [E_nfs_set_uid (atoi v)]
      else if strncmp (name p) "gid" 3 =? 0 then [E_nfs_set_gid (atoi v)]
      else if strncmp (name p) "tcp-syncnt" 10 =? 0
           then [E_nfs_set_tcp_syncnt (atoi v)]
           else []
  end.

(** Does a string contain a character? *)
Fixpoint has_char (c : ascii) (s : string) : bool :=
  match s with
  | EmptyString => false
  | String a r => (Ascii.eqb a c || has_char c r)%bool
  end.

(** The calls the parameter loop of [nfs_client_open] makes. *)
Definition is_param_event (e : event) : bool :=
  match e with
  | E_nfs_set_uid _ | E_nfs_set_gid _ | E_nfs_set_tcp_syncnt _ | E_error_setg _ =>
      true
  | _ => false
  end.

(** What can happen while an operation waits, or when it finishes with its
    task: stores into the task, registrations, the engine's service routine,
    error reports, bottom halves and the re-entry of a coroutine.  Requests
    to the engine and calls to the allocator are not among them. *)
Definition is_wait_event (e : event) : bool :=
  match e with
  | E_task _ | E_qemu_aio_set_fd_handler _ _ _ _ | E_nfs_service _
  | E_error_report | E_qemu_bh_new _ | E_qemu_bh_schedule | E_qemu_bh_delete
  | E_qemu_coroutine_enter _ => true
  | _ => false
  end.

(* ================================================================== *)
(** ** The i440FX/PIIX machine types (hw/i386/pc_piix.c) *)

Inductive OnOffAuto :=
| ON_OFF_AUTO_AUTO
| ON_OFF_AUTO_ON
| ON_OFF_AUTO_OFF
| ON_OFF_AUTO_MAX.

(** The CPU feature words and bits the compatibility functions name. *)
Inductive FeatureWord := FEAT_1_ECX | FEAT_8000_0001_ECX | FEAT_KVM.

Inductive cpu_feature :=
| CPUID_EXT_X2APIC
| CPUID_EXT3_SVM
| KVM_FEATURE_PV_EOI_bit.   (* 1 << KVM_FEATURE_PV_EOI *)

(** The calls the compatibility functions make outside the file. *)
Inductive pc_call :=
| savevm_skip_section_footers
| global_state_set_optional
| savevm_skip_configuration
| x86_cpu_compat_kvm_no_autodisable (w : FeatureWord) (features : cpu_feature)
| x86_cpu_compat_kvm_no_autoenable (w : FeatureWord) (features : cpu_feature)
| pc_set_legacy_acpi_data_size
| enable_compat_apic_id_mode.

(** The state the compatibility functions work on: the static flags of the
    file (the first ten members), the two flags of the ROM loader they set,
    the members of the machine they set, and the calls made so far, oldest
    first. *)
Record PcState := mkpc {
  pci_enabled : bool;
  has_acpi_build : bool;
  rsdp_in_ram : bool;
  legacy_acpi_table_size : Z;
  smbios_defaults : bool;
  smbios_legacy_mode : bool;
  smbios_uuid_encoded : bool;
  gigabyte_align : bool;
  has_reserved_memory : bool;
  kvmclock_enabled : bool;
  option_rom_has_mr : bool;
  rom_file_has_mr : bool;
  cpu_model : option string;
  suppress_vmdesc : bool;
  smm : OnOffAuto;
  enforce_aligned_dimm : bool;
  pc_calls : list pc_call
}.

(** The static flags as the file initialises them; the rest is as given. *)
Definition statics_initial (st : PcState) : PcState :=
  mkpc true true true 0 true false true true true true
    (option_rom_has_mr st) (rom_file_has_mr st) (cpu_model st)
    (suppress_vmdesc st) (smm st) (enforce_aligned_dimm st) (pc_calls st).

(** Assignments to one member. *)
Definition set_pci_enabled (v : bool) (st : PcState) : PcState :=
  mkpc v (has_acpi_build st) (rsdp_in_ram st) (legacy_acpi_table_size st)
    (smbios_defaults st) (smbios_legacy_mode st) (smbios_uuid_encoded st)
    (gigabyte_align st) (has_reserved_memory st) (kvmclock_enabled st)
    (option_rom_has_mr st) (rom_file_has_mr st) (cpu_model st)
    (suppress_vmdesc st) (smm st) (enforce_aligned_dimm st) (pc_calls st).

Definition set_has_acpi_build (v : bool) (st : PcState) : PcState :=
  mkpc (pci_enabled st) v (rsdp_in_ram st) (legacy_acpi_table_size st)
    (smbios_defaults st) (smbios_legacy_mode st) (smbios_uuid_encoded st)
    (gigabyte_align st) (has_reserved_memory st) (kvmclock_enabled st)
    (option_rom_has_mr st) (rom_file_has_mr st) (cpu_model st)
    (suppress_vmdesc st) (smm st) (enforce_aligned_dimm st) (pc_calls st).

Definition set_rsdp_in_ram (v : bool) (st : PcState) : PcState :=
  mkpc (pci_enabled st) (has_acpi_build st) v (legacy_acpi_table_size st)
    (smbios_defaults st) (smbios_legacy_mode st) (smbios_uuid_encoded st)
    (gigabyte_align st) (has_reserved_memory st) (kvmclock_enabled st)
    (option_rom_has_mr st) (rom_file_has_mr st) (cpu_model st)
    (suppress_vmdesc st) (smm st) (enforce_aligned_dimm st) (pc_calls st).

Definition set_legacy_acpi_table_size (v : Z) (st : PcState) : PcState :=
  mkpc (pci_enabled st) (has_acpi_build st) (rsdp_in_ram st) v
    (smbios_defaults st) (smbios_legacy_mode st) (smbios_uuid_encoded st)
    (gigabyte_align st) (has_reserved_memory st) (kvmclock_enabled st)
    (option_rom_has_mr st) (rom_file_has_mr st) (cpu_model st)
    (suppress_vmdesc st) (smm st) (enforce_aligned_dimm st) (pc_calls st).

Definition set_smbios_defaults (v : bool) (st : PcState) : PcState :=
  mkpc (pci_enabled st) (has_acpi_build st) (rsdp_in_ram st)
    (legacy_acpi_table_size st) v (smbios_legacy_mode st)
    (smbios_uuid_encoded st) (gigabyte_align st) (has_reserved_memory st)
    (kvmclock_enabled st) (option_rom_has_mr st) (rom_file_has_mr st)
    (cpu_model st) (suppress_vmdesc st) (smm st) (enforce_aligned_dimm st)
    (pc_calls st).

Definition set_smbios_legacy_mode (v : bool) (st : PcState) : PcState :=
  mkpc (pci_enabled st) (has_acpi_build st) (rsdp_in_ram st)
    (legacy_acpi_table_size st) (smbios_defaults st) v
    (smbios_uuid_encoded st) (gigabyte_align st) (has_reserved_memory st)
    (kvmclock_enabled st) (option_rom_has_mr st) (rom_file_has_mr st)
    (cpu_model st) (suppress_vmdesc st) (smm st) (enforce_aligned_dimm st)
    (pc_calls st).

Definition set_smbios_uuid_encoded (v : bool) (st : PcState) : PcState :=
  mkpc (pci_enabled st) (has_acpi_build st) (rsdp_in_ram st)
    (legacy_acpi_table_size st) (smbios_defaults st) (smbios_legacy_mode st)
    v (gigabyte_align st) (has_reserved_memory st) (kvmclock_enabled st)
    (option_rom_has_mr st) (rom_file_has_mr st) (cpu_model st)
    (suppress_vmdesc st) (smm st) (enforce_aligned_dimm st) (pc_calls st).

Definition set_gigabyte_align (v : bool) (st : PcState) : PcState :=
  mkpc (pci_enabled st) (has_acpi_build st) (rsdp_in_ram st)
    (legacy_acpi_table_size st) (smbios_defaults st) (smbios_legacy_mode st)
    (smbios_uuid_encoded st) v (has_reserved_memory st)
    (kvmclock_enabled st) (option_rom_has_mr st) (rom_file_has_mr st)
    (cpu_model st) (suppress_vmdesc st) (smm st) (enforce_aligned_dimm st)
    (pc_calls st).

Definition set_has_reserved_memory (v : bool) (st : PcState) : PcState :=
  mkpc (pci_enabled st) (has_acpi_build st) (rsdp_in_ram st)
    (legacy_acpi_table_size st) (smbios_defaults st) (smbios_legacy_mode st)
    (smbios_uuid_encoded st) (gigabyte_align st) v (kvmclock_enabled st)
    (option_rom_has_mr st) (rom_file_has_mr st) (cpu_model st)
    (suppress_vmdesc st) (smm st) (enforce_aligned_dimm st) (pc_calls st).

Definition set_kvmclock_enabled (v : bool) (st : PcState) : PcState :=
  mkpc (pci_enabled st) (has_acpi_build st) (rsdp_in_ram st)
    (legacy_acpi_table_size st) (smbios_defaults st) (smbios_legacy_mode st)
    (smbios_uuid_encoded st) (gigabyte_align st) (has_reserved_memory st) v
    (option_rom_has_mr st) (rom_file_has_mr st) (cpu_model st)
    (suppress_vmdesc st) (smm st) (enforce_aligned_dimm st) (pc_calls st).

Definition set_option_rom_has_mr (v : bool) (st : PcState) : PcState :=
  mkpc (pci_enabled st) (has_acpi_build st) (rsdp_in_ram st)
    (legacy_acpi_table_size st) (smbios_defaults st) (smbios_legacy_mode st)
    (smbios_uuid_encoded st) (gigabyte_align st) (has_reserved_memory st)
    (kvmclock_enabled st) v (rom_file_has_mr st) (cpu_model st)
    (suppress_vmdesc st) (smm st) (enforce_aligned_dimm st) (pc_calls st).

Definition set_rom_file_has_mr (v : bool) (st : PcState) : PcState :=
  mkpc (pci_enabled st) (has_acpi_build st) (rsdp_in_ram st)
    (legacy_acpi_table_size st) (smbios_defaults st) (smbios_legacy_mode st)
    (smbios_uuid_encoded st) (gigabyte_align st) (has_reserved_memory st)
    (kvmclock_enabled st) (option_rom_has_mr st) v (cpu_model st)
    (suppress_vmdesc st) (smm st) (enforce_aligned_dimm st) (pc_calls st).

Definition set_cpu_model (v : option string) (st : PcState) : PcState :=
  mkpc (pci_enabled st) (has_acpi_build st) (rsdp_in_ram st)
    (legacy_acpi_table_size st) (smbios_defaults st) (smbios_legacy_mode st)
    (smbios_uuid_encoded st) (gigabyte_align st) (has_reserved_memory st)
    (kvmclock_enabled st) (option_rom_has_mr st) (rom_file_has_mr st) v
    (suppress_vmdesc st) (smm st) (enforce_aligned_dimm st) (pc_calls st).

Definition set_suppress_vmdesc (v : bool) (st : PcState) : PcState :=
  mkpc (pci_enabled st) (has_acpi_build st) (rsdp_in_ram st)
    (legacy_acpi_table_size st) (smbios_defaults st) (smbios_legacy_mode st)
    (smbios_uuid_encoded st) (gigabyte_align st) (has_reserved_memory st)
    (kvmclock_enabled st) (option_rom_has_mr st) (rom_file_has_mr st)
    (cpu_model st) v (smm st) (enforce_aligned_dimm st) (pc_calls st).

Definition set_smm (v : OnOffAuto) (st : PcState) : PcState :=
  mkpc (pci_enabled st) (has_acpi_build st) (rsdp_in_ram st)
    (legacy_acpi_table_size st) (smbios_defaults st) (smbios_legacy_mode st)
    (smbios_uuid_encoded st) (gigabyte_align st) (has_reserved_memory st)
    (kvmclock_enabled st) (option_rom_has_mr st) (rom_file_has_mr st)
    (cpu_model st) (suppress_vmdesc st) v (enforce_aligned_dimm st)
    (pc_calls st).

Definition set_enforce_aligned_dimm (v : bool) (st : PcState) : PcState :=
  mkpc (pci_enabled st) (has_acpi_build st) (rsdp_in_ram st)
    (legacy_acpi_table_size st) (smbios_defaults st) (smbios_legacy_mode st)
    (smbios_uuid_encoded st) (gigabyte_align st) (has_reserved_memory st)
    (kvmclock_enabled st) (option_rom_has_mr st) (rom_file_has_mr st)
    (cpu_model st) (suppress_vmdesc st) (smm st) v (pc_calls st).

Definition pc_call_out (c : pc_call) (st : PcState) : PcState :=
  mkpc (pci_enabled st) (has_acpi_build st) (rsdp_in_ram st)
    (legacy_acpi_table_size st) (smbios_defaults st) (smbios_legacy_mode st)
    (smbios_uuid_encoded st) (gigabyte_align st) (has_reserved_memory st)
    (kvmclock_enabled st) (option_rom_has_mr st) (rom_file_has_mr st)
    (cpu_model st) (suppress_vmdesc st) (smm st) (enforce_aligned_dimm st)
    (pc_calls st ++ [c]).

(** [pc_compat_2_3]; [kvm] is what [kvm_enabled()] answers. *)
Definition pc_compat_2_3 (kvm : bool) (st : PcState) : PcState :=
  let st := pc_call_out savevm_skip_section_footers st in
  let st := if kvm then set_smm ON_OFF_AUTO_OFF st else st in
  let st := pc_call_out global_state_set_optional st in
  pc_call_out savevm_skip_configuration st.

(** [pc_compat_2_2] *)
Definition pc_compat_2_2 (kvm : bool) (st : PcState) : PcState :=
  let st := pc_compat_2_3 kvm st in
  let st := set_rsdp_in_ram false st in
  set_suppress_vmdesc true st.

(** [pc_compat_2_1] *)
Definition pc_compat_2_1 (kvm : bool) (st : PcState) : PcState :=
  let st := pc_compat_2_2 kvm st in
  let st := set_smbios_uuid_encoded false st in
  let st :=
    pc_call_out
      (x86_cpu_compat_kvm_no_autodisable FEAT_8000_0001_ECX CPUID_EXT3_SVM) st in
  set_enforce_aligned_dimm false st.

(** [pc_compat_2_0] *)
Definition pc_compat_2_0 (kvm : bool) (st : PcState) : PcState :=
  let st := pc_compat_2_1 kvm st in
  let st := set_legacy_acpi_table_size 6652 st in
  let st := set_smbios_legacy_mode true st in
  let st := set_has_reserved_memory false st in
  pc_call_out pc_set_legacy_acpi_data_size st.

(** [pc_compat_1_7] *)
Definition pc_compat_1_7 (kvm : bool) (st : PcState) : PcState :=
  let st := pc_compat_2_0 kvm st in
  let st := set_smbios_defaults false st in
  let st := set_gigabyte_align false st in
  let st := set_option_rom_has_mr true st in
  let st := set_legacy_acpi_table_size 6414 st in
  pc_call_out (x86_cpu_compat_kvm_no_autoenable FEAT_1_ECX CPUID_EXT_X2APIC) st.

(** [pc_compat_1_6] *)
Definition pc_compat_1_6 (kvm : bool) (st : PcState) : PcState :=
  let st := pc_compat_1_7 kvm st in
  let st := set_rom_file_has_mr false st in
  set_has_acpi_build false st.

(** [pc_compat_1_5] *)
Definition pc_compat_1_5 (kvm : bool) (st : PcState) : PcState :=
  pc_compat_1_6 kvm st.

(** [pc_compat_1_4] *)
Definition pc_compat_1_4 (kvm : bool) (st : PcState) : PcState :=
  pc_compat_1_5 kvm st.

(** [pc_compat_1_3] *)
Definition pc_compat_1_3 (kvm : bool) (st : PcState) : PcState :=
  let st := pc_compat_1_4 kvm st in
  pc_call_out enable_compat_apic_id_mode st.

(** [pc_compat_1_2] *)
Definition pc_compat_1_2 (kvm : bool) (st : PcState) : PcState :=
  let st := pc_compat_1_3 kvm st in
  pc_call_out
    (x86_cpu_compat_kvm_no_autoenable FEAT_KVM KVM_FEATURE_PV_EOI_bit) st.

(** [pc_compat_0_13] *)
Definition pc_compat_0_13 (kvm : bool) (st : PcState) : PcState :=
  let st := pc_compat_1_2 kvm st in
  set_kvmclock_enabled false st.

(** [pc_init_isa], up to its call of [pc_init1]. *)
Definition pc_init_isa (st : PcState) : PcState :=
  let st := set_pci_enabled false st in
  let st := set_has_acpi_build false st in
  let st := set_smbios_defaults false st in
  let st := set_gigabyte_align false st in
  let st := set_smbios_legacy_mode true st in
  let st := set_has_reserved_memory false st in
  let st := set_option_rom_has_mr true st in
  let st := set_rom_file_has_mr false st in
  let st :=
    match cpu_model st with
    | None => set_cpu_model (Some "486"%string) st
    | Some _ => st
    end in
  let st :=
    pc_call_out
      (x86_cpu_compat_kvm_no_autoenable FEAT_KVM KVM_FEATURE_PV_EOI_bit) st in
  pc_call_out enable_compat_apic_id_mode st.

(** The machine types [DEFINE_I440FX_MACHINE] defines, newest first. *)
Inductive i440fx_machine :=
| v2_4 | v2_3 | v2_2 | v2_1 | v2_0
| v1_7 | v1_6 | v1_5 | v1_4 | v1_3 | v1_2 | v1_1 | v1_0
| v0_15 | v0_14 | v0_13 | v0_12 | v0_11 | v0_10.


(** The [compatfn] argument of [DEFINE_I440FX_MACHINE]; [None] is NULL. *)
Definition compatfn (m : i440fx_machine)
    : option (bool -> PcState -> PcState) :=
  match m with
  | v2_4 => None
  | v2_3 => Some pc_compat_2_3
  | v2_2 => Some pc_compat_2_2
  | v2_1 => Some pc_compat_2_1
  | v2_0 => Some pc_compat_2_0
  | v1_7 => Some pc_compat_1_7
  | v1_6 => Some pc_compat_1_6
  | v1_5 => Some pc_compat_1_5
  | v1_4 => Some pc_compat_1_4
  | v1_3 => Some pc_compat_1_3
  | v1_2 | v1_1 | v1_0 | v0_15 | v0_14 => Some pc_compat_1_2
  | v0_13 | v0_12 | v0_11 | v0_10 => Some pc_compat_0_13
  end.

(** [pc_init_##suffix] of [DEFINE_I440FX_MACHINE], up to its call of
    [pc_init1]. *)
Definition pc_init_suffix (m : i440fx_machine) (kvm : bool) (st : PcState)
    : PcState :=
  match compatfn m with
  | Some compat => compat kvm st
  | None => st
  end.

(** How many machine types are newer. *)
Definition age (m : i440fx_machine) : nat :=
  match m with
  | v2_4 => 0 | v2_3 => 1 | v2_2 => 2 | v2_1 => 3 | v2_0 => 4
  | v1_7 => 5 | v1_6 => 6 | v1_5 => 7 | v1_4 => 8 | v1_3 => 9
  | v1_2 => 10 | v1_1 => 11 | v1_0 => 12
  | v0_15 => 13 | v0_14 => 14 | v0_13 => 15 | v0_12 => 16 | v0_11 => 17
  | v0_10 => 18
  end.

(** The start of [pc_init1]: how the RAM is split below and above 4G, before
    the Xen initialisation and the creation of the devices.  [ram_addr_t] and
    [max_ram_below_4g] are unsigned 64-bit.  The result is
    [below_4g_mem_size], [above_4g_mem_size] and whether the warning about
    [max_ram_below_4g] is reported. *)
Definition pc_init1_ram_split (st : PcState) (ram_size max_ram_below_4g : Z)
    : Z * Z * bool :=
  let lowmem :=
    if 0xe0000000 <=? ram_size
    then (if gigabyte_align st then 0xc0000000 else 0xe0000000)
    else 0xe0000000 in
  let limited :=
    if max_ram_below_4g <? lowmem then
      let lowmem := max_ram_below_4g in
      (lowmem,
       (lowmem <? to_uint64 (ram_size - lowmem))
       && negb (Z.land lowmem (Z.shiftl 1 30 - 1) =? 0))
    else (lowmem, false) in
  let lowmem := fst limited in
  let warning := snd limited in
  if lowmem <=? ram_size
  then (lowmem, to_uint64 (ram_size - lowmem), warning)
  else (ram_size, 0, warning).

(** The features a machine type drops with age: the static flags that are
    initialised to true. *)
Definition modern_features : list (PcState -> bool) :=
  [has_acpi_build; rsdp_in_ram; smbios_defaults; smbios_uuid_encoded;
   gigabyte_align; has_reserved_memory; kvmclock_enabled].

(** *** Machine classes *)

(** A global property of a compatibility list. *)
Record GlobalProperty := mkprop {
  driver : string;
  property : string;
  prop_value : string
}.

(** The one function the file stores in [hot_add_cpu]. *)
Inductive cpu_hot_add := pc_hot_add_cpu.

(** The members of [MachineClass] the file assigns; a NULL string or function
    pointer is [None]. *)
Record MachineClass := mkmc {
  family : option string;
  desc : option string;
  hot_add_cpu : option cpu_hot_add;
  default_machine_opts : option string;
  default_display : option string;
  alias : option string;
  is_default : Z;
  hw_version : option string;
  max_cpus : Z;
  compat_props : list GlobalProperty
}.

Definition mc_set_family (v : option string) (m : MachineClass) : MachineClass :=
  mkmc v (desc m) (hot_add_cpu m) (default_machine_opts m)
    (default_display m) (alias m) (is_default m) (hw_version m) (max_cpus m)
    (compat_props m).

Definition mc_set_desc (v : option string) (m : MachineClass) : MachineClass :=
  mkmc (family m) v (hot_add_cpu m) (default_machine_opts m)
    (default_display m) (alias m) (is_default m) (hw_version m) (max_cpus m)
    (compat_props m).

Definition mc_set_hot_add_cpu (v : option cpu_hot_add) (m : MachineClass) : MachineClass :=
  mkmc (family m) (desc m) v (default_machine_opts m) (default_display m)
    (alias m) (is_default m) (hw_version m) (max_cpus m) (compat_props m).

Definition mc_set_default_machine_opts (v : option string) (m : MachineClass) : MachineClass :=
  mkmc (family m) (desc m) (hot_add_cpu m) v (default_display m) (alias m)
    (is_default m) (hw_version m) (max_cpus m) (compat_props m).

Definition mc_set_default_display (v : option string) (m : MachineClass) : MachineClass :=
  mkmc (family m) (desc m) (hot_add_cpu m) (default_machine_opts m) v
    (alias m) (is_default m) (hw_version m) (max_cpus m) (compat_props m).

Definition mc_set_alias (v : option string) (m : MachineClass) : MachineClass :=
  mkmc (family m) (desc m) (hot_add_cpu m) (default_machine_opts m)
    (default_display m) v (is_default m) (hw_version m) (max_cpus m)
    (compat_props m).

Definition mc_set_is_default (v : Z) (m : MachineClass) : MachineClass :=
  mkmc (family m) (desc m) (hot_add_cpu m) (default_machine_opts m)
    (default_display m) (alias m) v (hw_version m) (max_cpus m)
    (compat_props m).

Definition mc_set_hw_version (v : option string) (m : MachineClass) : MachineClass :=
  mkmc (family m) (desc m) (hot_add_cpu m) (default_machine_opts m)
    (default_display m) (alias m) (is_default m) v (max_cpus m)
    (compat_props m).

Definition mc_set_max_cpus (v : Z) (m : MachineClass) : MachineClass :=
  mkmc (family m) (desc m) (hot_add_cpu m) (default_machine_opts m)
    (default_display m) (alias m) (is_default m) (hw_version m) v
    (compat_props m).

Definition mc_set_compat_props (v : list GlobalProperty) (m : MachineClass) : MachineClass :=
  mkmc (family m) (desc m) (hot_add_cpu m) (default_machine_opts m)
    (default_display m) (alias m) (is_default m) (hw_version m) (max_cpus m)
    v.

(** What the file takes from the headers it includes: the option functions
    of hw/i386/pc.h, the macro [SET_MACHINE_COMPAT] of hw/boards.h, the
    compatibility lists of the machine types 1.4 to 2.3, the QOM type names,
    the stringified PCI class codes and the Xen limit on virtual CPUs.  None
    of them is defined in the file, so each is a member that can be anything
    of its type. *)
Record pc_headers := mkhdr {
  pc_default_machine_options : MachineClass -> MachineClass;
  pc_common_machine_options : MachineClass -> MachineClass;
  SET_MACHINE_COMPAT : MachineClass -> list GlobalProperty -> MachineClass;
  PC_COMPAT_2_3 : list GlobalProperty;
  PC_COMPAT_2_2 : list GlobalProperty;
  PC_COMPAT_2_1 : list GlobalProperty;
  PC_COMPAT_2_0 : list GlobalProperty;
  PC_COMPAT_1_7 : list GlobalProperty;
  PC_COMPAT_1_6 : list GlobalProperty;
  PC_COMPAT_1_5 : list GlobalProperty;
  PC_COMPAT_1_4 : list GlobalProperty;
  TYPE_ISA_FDC : string;
  TYPE_USB_DEVICE : string;
  TYPE_PCI_DEVICE : string;
  PCI_CLASS_MEMORY_RAM : string;
  PCI_CLASS_STORAGE_OTHER : string;
  PCI_CLASS_DISPLAY_OTHER : string;
  HVM_MAX_VCPUS : Z
}.

(** The compatibility lists the file defines. *)
Definition PC_COMPAT_1_3 (x : pc_headers) : list GlobalProperty :=
  PC_COMPAT_1_4 x ++
  [mkprop "usb-tablet" "usb_version" "1";
   mkprop "virtio-net-pci" "ctrl_mac_addr" "off";
   mkprop "virtio-net-pci" "mq" "off";
   mkprop "e1000" "autonegotiation" "off"].

Definition PC_COMPAT_1_2 (x : pc_headers) : list GlobalProperty :=
  PC_COMPAT_1_3 x ++
  [mkprop "nec-usb-xhci" "msi" "off";
   mkprop "nec-usb-xhci" "msix" "off";
   mkprop "ivshmem" "use64" "0";
   mkprop "qxl" "revision" "3";
   mkprop "qxl-vga" "revision" "3";
   mkprop "VGA" "mmio" "off"].

Definition PC_COMPAT_1_1 (x : pc_headers) : list GlobalProperty :=
  PC_COMPAT_1_2 x ++
  [mkprop "virtio-scsi-pci" "hotplug" "off";
   mkprop "virtio-scsi-pci" "param_change" "off";
   mkprop "VGA" "vgamem_mb" "8";
   mkprop "vmware-svga" "vgamem_mb" "8";
   mkprop "qxl-vga" "vgamem_mb" "8";
   mkprop "qxl" "vgamem_mb" "8";
   mkprop "virtio-blk-pci" "config-wce" "off"].

Definition PC_COMPAT_1_0 (x : pc_headers) : list GlobalProperty :=
  PC_COMPAT_1_1 x ++
  [mkprop (TYPE_ISA_FDC x) "check_media_rate" "off";
   mkprop "virtio-balloon-pci" "class" (PCI_CLASS_MEMORY_RAM x);
   mkprop "apic-common" "vapic" "off";
   mkprop (TYPE_USB_DEVICE x) "full-path" "no"].

Definition PC_COMPAT_0_15 (x : pc_headers) : list GlobalProperty :=
  PC_COMPAT_1_0 x.

Definition PC_COMPAT_0_14 (x : pc_headers) : list GlobalProperty :=
  PC_COMPAT_0_15 x ++
  [mkprop "virtio-blk-pci" "event_idx" "off";
   mkprop "virtio-serial-pci" "event_idx" "off";
   mkprop "virtio-net-pci" "event_idx" "off";
   mkprop "virtio-balloon-pci" "event_idx" "off";
   mkprop "qxl" "revision" "2";
   mkprop "qxl-vga" "revision" "2"].

Definition PC_COMPAT_0_13 (x : pc_headers) : list GlobalProperty :=
  PC_COMPAT_0_14 x ++
  [mkprop (TYPE_PCI_DEVICE x) "command_serr_enable" "off";
   mkprop "AC97" "use_broken_id" "1";
   mkprop "virtio-9p-pci" "vectors" "0";
   mkprop "VGA" "rombar" "0";
   mkprop "vmware-svga" "rombar" "0"].

Definition PC_COMPAT_0_12 (x : pc_headers) : list GlobalProperty :=
  PC_COMPAT_0_13 x ++
  [mkprop "virtio-serial-pci" "max_ports" "1";
   mkprop "virtio-serial-pci" "vectors" "0";
   mkprop "usb-mouse" "serial" "1";
   mkprop "usb-tablet" "serial" "1";
   mkprop "usb-kbd" "serial" "1"].

Definition PC_COMPAT_0_11 (x : pc_headers) : list GlobalProperty :=
  PC_COMPAT_0_12 x ++
  [mkprop "virtio-blk-pci" "vectors" "0";
   mkprop (TYPE_PCI_DEVICE x) "rombar" "0";
   mkprop "ide-drive" "ver" "0.11";
   mkprop "scsi-disk" "ver" "0.11"].

Definition PC_COMPAT_0_10 (x : pc_headers) : list GlobalProperty :=
  PC_COMPAT_0_11 x ++
  [mkprop "virtio-blk-pci" "class" (PCI_CLASS_STORAGE_OTHER x);
   mkprop "virtio-serial-pci" "class" (PCI_CLASS_DISPLAY_OTHER x);
   mkprop "virtio-net-pci" "vectors" "0";
   mkprop "ide-drive" "ver" "0.10";
   mkprop "scsi-disk" "ver" "0.10"].

(** [pc_i440fx_machine_options] *)
Definition pc_i440fx_machine_options (x : pc_headers) (m : MachineClass)
    : MachineClass :=
  let m := pc_default_machine_options x m in
  let m := mc_set_family (Some "pc_piix"%string) m in
  let m := mc_set_desc (Some "Standard PC (i440FX + PIIX, 1996)"%string) m in
  mc_set_hot_add_cpu (Some pc_hot_add_cpu) m.

(** [pc_i440fx_2_4_machine_options] *)
Definition pc_i440fx_2_4_machine_options (x : pc_headers) (m : MachineClass)
    : MachineClass :=
  let m := pc_i440fx_machine_options x m in
  let m := mc_set_default_machine_opts (Some "firmware=bios-256k.bin"%string) m in
  let m := mc_set_default_display (Some "std"%string) m in
  let m := mc_set_alias (Some "pc"%string) m in
  mc_set_is_default 1 m.

(** [pc_i440fx_2_3_machine_options] *)
Definition pc_i440fx_2_3_machine_options (x : pc_headers) (m : MachineClass)
    : MachineClass :=
  let m := pc_i440fx_2_4_machine_options x m in
  let m := mc_set_alias None m in
  let m := mc_set_is_default 0 m in
  SET_MACHINE_COMPAT x m (PC_COMPAT_2_3 x).

(** [pc_i440fx_2_2_machine_options] *)
Definition pc_i440fx_2_2_machine_options (x : pc_headers) (m : MachineClass)
    : MachineClass :=
  let m := pc_i440fx_2_3_machine_options x m in
  SET_MACHINE_COMPAT x m (PC_COMPAT_2_2 x).

(** [pc_i440fx_2_1_machine_options] *)
Definition pc_i440fx_2_1_machine_options (x : pc_headers) (m : MachineClass)
    : MachineClass :=
  let m := pc_i440fx_2_2_machine_options x m in
  let m := mc_set_default_display None m in
  SET_MACHINE_COMPAT x m (PC_COMPAT_2_1 x).

(** [pc_i440fx_2_0_machine_options] *)
Definition pc_i440fx_2_0_machine_options (x : pc_headers) (m : MachineClass)
    : MachineClass :=
  let m := pc_i440fx_2_1_machine_options x m in
  SET_MACHINE_COMPAT x m (PC_COMPAT_2_0 x).

(** [pc_i440fx_1_7_machine_options] *)
Definition pc_i440fx_1_7_machine_options (x : pc_headers) (m : MachineClass)
    : MachineClass :=
  let m := pc_i440fx_2_0_machine_options x m in
  let m := mc_set_default_machine_opts None m in
  SET_MACHINE_COMPAT x m (PC_COMPAT_1_7 x).

(** [pc_i440fx_1_6_machine_options] *)
Definition pc_i440fx_1_6_machine_options (x : pc_headers) (m : MachineClass)
    : MachineClass :=
  let m := pc_i440fx_1_7_machine_options x m in
  SET_MACHINE_COMPAT x m (PC_COMPAT_1_6 x).

(** [pc_i440fx_1_5_machine_options] *)
Definition pc_i440fx_1_5_machine_options (x : pc_headers) (m : MachineClass)
    : MachineClass :=
  let m := pc_i440fx_1_6_machine_options x m in
  SET_MACHINE_COMPAT x m (PC_COMPAT_1_5 x).

(** [pc_i440fx_1_4_machine_options] *)
Definition pc_i440fx_1_4_machine_options (x : pc_headers) (m : MachineClass)
    : MachineClass :=
  let m := pc_i440fx_1_5_machine_options x m in
  let m := mc_set_hot_add_cpu None m in
  SET_MACHINE_COMPAT x m (PC_COMPAT_1_4 x).

(** [pc_i440fx_1_3_machine_options] *)
Definition pc_i440fx_1_3_machine_options (x : pc_headers) (m : MachineClass)
    : MachineClass :=
  let m := pc_i440fx_1_4_machine_options x m in
  SET_MACHINE_COMPAT x m (PC_COMPAT_1_3 x).

(** [pc_i440fx_1_2_machine_options] *)
Definition pc_i440fx_1_2_machine_options (x : pc_headers) (m : MachineClass)
    : MachineClass :=
  let m := pc_i440fx_1_3_machine_options x m in
  SET_MACHINE_COMPAT x m (PC_COMPAT_1_2 x).

(** [pc_i440fx_1_1_machine_options] *)
Definition pc_i440fx_1_1_machine_options (x : pc_headers) (m : MachineClass)
    : MachineClass :=
  let m := pc_i440fx_1_2_machine_options x m in
  SET_MACHINE_COMPAT x m (PC_COMPAT_1_1 x).

(** [pc_i440fx_1_0_machine_options] *)
Definition pc_i440fx_1_0_machine_options (x : pc_headers) (m : MachineClass)
    : MachineClass :=
  let m := pc_i440fx_1_1_machine_options x m in
  let m := mc_set_hw_version (Some "1.0"%string) m in
  SET_MACHINE_COMPAT x m (PC_COMPAT_1_0 x).

(** [pc_i440fx_0_15_machine_options] *)
Definition pc_i440fx_0_15_machine_options (x : pc_headers) (m : MachineClass)
    : MachineClass :=
  let m := pc_i440fx_1_0_machine_options x m in
  let m := mc_set_hw_version (Some "0.15"%string) m in
  SET_MACHINE_COMPAT x m (PC_COMPAT_0_15 x).

(** [pc_i440fx_0_14_machine_options] *)
Definition pc_i440fx_0_14_machine_options (x : pc_headers) (m : MachineClass)
    : MachineClass :=
  let m := pc_i440fx_0_15_machine_options x m in
  let m := mc_set_hw_version (Some "0.14"%string) m in
  SET_MACHINE_COMPAT x m (PC_COMPAT_0_14 x).

(** [pc_i440fx_0_13_machine_options] *)
Definition pc_i440fx_0_13_machine_options (x : pc_headers) (m : MachineClass)
    : MachineClass :=
  let m := pc_i440fx_0_14_machine_options x m in
  let m := mc_set_hw_version (Some "0.13"%string) m in
  SET_MACHINE_COMPAT x m (PC_COMPAT_0_13 x).

(** [pc_i440fx_0_12_machine_options] *)
Definition pc_i440fx_0_12_machine_options (x : pc_headers) (m : MachineClass)
    : MachineClass :=
  let m := pc_i440fx_0_13_machine_options x m in
  let m := mc_set_hw_version (Some "0.12"%string) m in
  SET_MACHINE_COMPAT x m (PC_COMPAT_0_12 x).

(** [pc_i440fx_0_11_machine_options] *)
Definition pc_i440fx_0_11_machine_options (x : pc_headers) (m : MachineClass)
    : MachineClass :=
  let m := pc_i440fx_0_12_machine_options x m in
  let m := mc_set_hw_version (Some "0.11"%string) m in
  SET_MACHINE_COMPAT x m (PC_COMPAT_0_11 x).

(** [pc_i440fx_0_10_machine_options] *)
Definition pc_i440fx_0_10_machine_options (x : pc_headers) (m : MachineClass)
    : MachineClass :=
  let m := pc_i440fx_0_11_machine_options x m in
  let m := mc_set_hw_version (Some "0.10"%string) m in
  SET_MACHINE_COMPAT x m (PC_COMPAT_0_10 x).

(** [isapc_machine_options] *)
Definition isapc_machine_options (x : pc_headers) (m : MachineClass)
    : MachineClass :=
  let m := pc_common_machine_options x m in
  let m := mc_set_desc (Some "ISA-only PC"%string) m in
  mc_set_max_cpus 1 m.

(** [xenfv_machine_options] (with [CONFIG_XEN]) *)
Definition xenfv_machine_options (x : pc_headers) (m : MachineClass)
    : MachineClass :=
  let m := pc_common_machine_options x m in
  let m := mc_set_desc (Some "Xen Fully-virtualized PC"%string) m in
  let m := mc_set_max_cpus (HVM_MAX_VCPUS x) m in
  let m := mc_set_default_machine_opts (Some "accel=xen"%string) m in
  mc_set_hot_add_cpu (Some pc_hot_add_cpu) m.

(** The [optionfn] argument of [DEFINE_I440FX_MACHINE]. *)
Definition optionfn (mt : i440fx_machine)
    : pc_headers -> MachineClass -> MachineClass :=
  match mt with
  | v2_4 => pc_i440fx_2_4_machine_options
  | v2_3 => pc_i440fx_2_3_machine_options
  | v2_2 => pc_i440fx_2_2_machine_options
  | v2_1 => pc_i440fx_2_1_machine_options
  | v2_0 => pc_i440fx_2_0_machine_options
  | v1_7 => pc_i440fx_1_7_machine_options
  | v1_6 => pc_i440fx_1_6_machine_options
  | v1_5 => pc_i440fx_1_5_machine_options
  | v1_4 => pc_i440fx_1_4_machine_options
  | v1_3 => pc_i440fx_1_3_machine_options
  | v1_2 => pc_i440fx_1_2_machine_options
  | v1_1 => pc_i440fx_1_1_machine_options
  | v1_0 => pc_i440fx_1_0_machine_options
  | v0_15 => pc_i440fx_0_15_machine_options
  | v0_14 => pc_i440fx_0_14_machine_options
  | v0_13 => pc_i440fx_0_13_machine_options
  | v0_12 => pc_i440fx_0_12_machine_options
  | v0_11 => pc_i440fx_0_11_machine_options
  | v0_10 => pc_i440fx_0_10_machine_options
  end.


(** [SET_MACHINE_COMPAT] stores the list in [compat_props] and writes no
    other member. *)
Definition stores_compat_props (x : pc_headers) : Prop :=
  forall m l, SET_MACHINE_COMPAT x m l = mc_set_compat_props l m.

(** The three results of the RAM split. *)
Definition below_4g_mem_size (st : PcState) (ram_size max_ram_below_4g : Z) : Z :=
  fst (fst (pc_init1_ram_split st ram_size max_ram_below_4g)).

Definition above_4g_mem_size (st : PcState) (ram_size max_ram_below_4g : Z) : Z :=
  snd (fst (pc_init1_ram_split st ram_size max_ram_below_4g)).

Definition ram_split_warning (st : PcState) (ram_size max_ram_below_4g : Z) : bool :=
  snd (pc_init1_ram_split st ram_size max_ram_below_4g).

(** Concrete inputs for the machine types. *)
Definition ex_pc_state : PcState :=
  mkpc true true true 0 true false true true true true false true None false
    ON_OFF_AUTO_AUTO true [].

Definition ex_machine_class : MachineClass :=
  mkmc None None None None None None 0 None 255 [].

Definition ex_headers : pc_headers :=
  mkhdr (fun m => m) (fun m => m) (fun m l => mc_set_compat_props l m)
    [mkprop "virtio-blk-pci" "any_layout" "off"] [] [] [] [] [] []
    [mkprop "scsi-hd" "discard_granularity" "0"]
    "isa-fdc" "usb-device" "pci-device" "0x0500" "0x0180" "0x0380" 128.

(* ================================================================== *)
(** ** Reasoning about driver computations *)

Arguments to_uint64 : simpl never.
Arguments to_int : simpl never.
Arguments to_int64 : simpl never.

Ltac mred :=
  cbv beta iota zeta delta
    [bind ret when deref fault blocked out_of_fuel get_client get_task
     put_client put_total_sectors emit task_store set_context set_fh
     set_events set_has_zero_init engine_wants apply_write option_map is_null
     negb andb orb fst snd data_buf nfs_which_events nfs_get_fd
     w_client w_total_sectors w_task w_trace
     context fh events has_zero_init
     status complete iov st co bh bh_cb bh_scheduled bh_deleted bh_pending
     ctx_fd ctx_events ctx_uid ctx_gid ctx_tcp_syncnt ctx_mounted
     d_ready d_completion d_events run_submit_rc run_submit_events run_script]
    in *.

Ltac split_if :=
  match goal with
  | |- context [if ?b then _ else _] =>
      lazymatch b with
      | context [if _ then _ else _] => fail
      | _ => destruct b eqn:?
      end
  end.

Ltac closed_tests :=
  repeat first
    [ progress change (- EIO =? 0) with false
    | progress change (- EIO <? 0) with true
    | progress change (0 <? - EIO) with false
    | progress change (1 =? 0) with false ].

Ltac mnorm := repeat (progress (mred; closed_tests)).

Ltac mcases := mnorm; repeat (split_if; mnorm).

Ltac bool_hyps :=
  repeat match goal with
         | H : (_ <? _) = true |- _ => apply Z.ltb_lt in H
         | H : (_ <? _) = false |- _ => apply Z.ltb_ge in H
         | H : (_ <=? _) = true |- _ => apply Z.leb_le in H
         | H : (_ <=? _) = false |- _ => apply Z.leb_gt in H
         | H : (_ =? _) = true |- _ => apply Z.eqb_eq in H
         | H : (_ =? _) = false |- _ => apply Z.eqb_neq in H
         end.

(** The same reductions, on the goal only. *)
Ltac gred :=
  cbv beta iota zeta delta
    [bind ret when deref fault blocked out_of_fuel get_client get_task
     put_client put_total_sectors emit task_store set_context set_fh
     set_events set_has_zero_init engine_wants apply_write option_map is_null
     negb andb orb fst snd data_buf nfs_which_events nfs_get_fd
     w_client w_total_sectors w_task w_trace
     context fh events has_zero_init
     status complete iov st co bh bh_cb bh_scheduled bh_deleted bh_pending
     ctx_fd ctx_events ctx_uid ctx_gid ctx_tcp_syncnt ctx_mounted
     env_uri_parse env_query_params_parse env_nfs_init_context
     env_nfs_get_error env_nfs_mount env_nfs_creat env_nfs_open env_nfs_fstat
     env_nfs_ftruncate server path query
     d_ready d_completion d_events run_submit_rc run_submit_events run_script].

Ltac gnorm := repeat (progress (gred; closed_tests)).

Ltac gcases := gnorm; repeat (split_if; gnorm).

Ltac absurd_in Hin :=
  cbn [In] in Hin;
  repeat (rewrite in_app_iff in Hin; cbn [In] in Hin);
  repeat (destruct Hin as [Hin|Hin]);
  try discriminate Hin; try contradiction;
  try (match goal with
       | Hall : forallb is_param_event _ = true |- _ =>
           rewrite forallb_forall in Hall; apply Hall in Hin; discriminate Hin
       end);
  try (bool_hyps; congruence).

Ltac no_event :=
  let Hin := fresh "Hin" in intros; intro Hin; absurd_in Hin.

Ltac from_event :=
  let Hin := fresh "Hin" in
  intros ? ? Hin; cbn [In] in Hin;
  repeat (rewrite in_app_iff in Hin; cbn [In] in Hin);
  repeat (destruct Hin as [Hin|Hin]);
  try discriminate Hin; try contradiction;
  try (match goal with
       | Hall : forallb is_param_event _ = true |- _ =>
           rewrite forallb_forall in Hall; apply Hall in Hin; discriminate Hin
       end);
  inversion Hin; subst; bool_hyps; split; first [assumption | reflexivity].

Ltac in_event :=
  cbn [In]; repeat (rewrite in_app_iff; cbn [In]);
  repeat first [left; reflexivity | right].

Ltac open_failed :=
  left; split;
  [ first [unfold EINVAL; lia | bool_hyps; cbn [fst snd] in *; lia]
  | split;
    [ reflexivity
    | let Hin := fresh "Hin" in
      intros Hin ?;
      first [congruence | solve [in_event] | exfalso; solve [absurd_in Hin]] ] ].

Ltac open_succeeded :=
  right; split; [split; discriminate|];
  split; [eexists; split; [reflexivity | discriminate]|];
  split; [reflexivity|]; split; [reflexivity|]; no_event.

Ltac open_branch :=
  first
    [ exact I
    | exfalso; bool_hyps; cbn [fst snd] in *; lia
    | eexists;
      (split; [repeat rewrite <- app_assoc; cbn [app]; reflexivity|]);
      (split; [reflexivity|]); (split; [reflexivity|]);
      (split; [from_event|]); (split; [from_event|]); (split; [no_event|]);
      first [open_failed | open_succeeded] ].

Ltac split_in Hin :=
  rewrite in_app_iff in Hin; cbn [In] in Hin;
  repeat (destruct Hin as [Hin|Hin]).

Ltac split_ram :=
  unfold below_4g_mem_size, above_4g_mem_size, ram_split_warning,
    pc_init1_ram_split;
  cbv zeta;
  repeat match goal with
  | |- context [if ?b then _ else _] =>
      lazymatch b with
      | context [if _ then _ else _] => fail
      | _ => destruct b eqn:?
      end
  end;
  cbn [fst snd andb negb] in *;
  bool_hyps.

Lemma to_uint64_small (x : Z) : 0 <= x < 2 ^ 64 -> to_uint64 x = x.
Proof. intros H. unfold to_uint64, wrap_unsigned. apply Z.mod_small. exact H. Qed.

Lemma to_uint64_int_nonneg (x : Z) : is_int x -> 0 <= x -> to_uint64 x = x.
Proof.
  intros [_ Hhi] Hlo. apply to_uint64_small. unfold INT_MAX in Hhi. lia.
Qed.

Lemma to_uint64_int_neg (x : Z) : is_int x -> x < 0 -> to_uint64 x = x + 2 ^ 64.
Proof.
  intros [Hlo _] Hneg. unfold to_uint64, wrap_unsigned, INT_MIN in *.
  symmetry. apply Z.mod_unique with (q := -1); lia.
Qed.

(** The callback acts on the task and the trace only, and the same way in
    every world. *)
Lemma nfs_co_generic_cb_frame (s : Z) (data : cb_data) (w : World) :
  nfs_co_generic_cb s data w =
  Ret tt (mkworld (w_client w) (w_total_sectors w) (cb_task s data (w_task w))
            (w_trace w ++ cb_trace s data (w_task w))).
Proof.
  destruct w as [cl ts t tr]. destruct t as [s0 c0 i0 st0 co0 bh0].
  unfold cb_task, cb_trace, cb_world, nfs_co_generic_cb.
  destruct i0 as [q|], st0 as [m|], co0 as [c|]; mcases;
    repeat rewrite <- app_assoc; reflexivity.
Qed.

Lemma cb_task_complete (s : Z) (data : cb_data) (t : NFSRPC) :
  complete (cb_task s data t) = 1.
Proof.
  destruct t as [s0 c0 i0 st0 co0 bh0].
  unfold cb_task, cb_world, nfs_co_generic_cb.
  destruct i0 as [q|], st0 as [m|], co0 as [c|]; mcases; reflexivity.
Qed.

Lemma cb_task_co (s : Z) (data : cb_data) (t : NFSRPC) :
  co (cb_task s data t) = co t.
Proof.
  destruct t as [s0 c0 i0 st0 co0 bh0].
  unfold cb_task, cb_world, nfs_co_generic_cb.
  destruct i0 as [q|], st0 as [m|], co0 as [c|]; mcases; reflexivity.
Qed.

Lemma cb_task_status (s : Z) (data : cb_data) (t : NFSRPC) :
  status (cb_task s data t) =
  match iov t with
  | Some q => if 0 <? s then if to_uint64 s <=? size q then s else - EIO else s
  | None => s
  end.
Proof.
  destruct t as [s0 c0 i0 st0 co0 bh0].
  unfold cb_task, cb_world, nfs_co_generic_cb.
  destruct i0 as [q|], st0 as [m|], co0 as [c|]; mcases; reflexivity.
Qed.

Lemma cb_task_iov (s : Z) (data : cb_data) (t : NFSRPC) :
  iov (cb_task s data t) =
  match iov t with
  | Some q =>
      if 0 <? s
      then if to_uint64 s <=? size q
           then Some (qemu_iovec_from_buf q 0 (data_buf data) s)
           else Some q
      else Some q
  | None => None
  end.
Proof.
  destruct t as [s0 c0 i0 st0 co0 bh0].
  unfold cb_task, cb_world, nfs_co_generic_cb.
  destruct i0 as [q|], st0 as [m|], co0 as [c|]; mcases; reflexivity.
Qed.

Lemma cb_task_st (s : Z) (data : cb_data) (t : NFSRPC) :
  st (cb_task s data t) =
  match st t with
  | Some m =>
      if s =? 0
      then match data with DataStat m' => Some m' | _ => Some m end
      else Some m
  | None => None
  end.
Proof.
  destruct t as [s0 c0 i0 st0 co0 bh0].
  unfold cb_task, cb_world, nfs_co_generic_cb.
  destruct i0 as [q|], st0 as [m|], co0 as [c|]; mcases;
    try reflexivity;
    repeat match goal with
           | H : (_ =? _) = true |- _ => apply Z.eqb_eq in H
           | H : (_ <? _) = true |- _ => apply Z.ltb_lt in H
           end; lia.
Qed.

Lemma cb_task_bh (s : Z) (data : cb_data) (t : NFSRPC) :
  bh (cb_task s data t) =
  match co t with
  | Some _ => Some (mkbh fn_nfs_co_generic_bh_cb true false)
  | None => bh t
  end.
Proof.
  destruct t as [s0 c0 i0 st0 co0 bh0].
  unfold cb_task, cb_world, nfs_co_generic_cb.
  destruct i0 as [q|], st0 as [m|], co0 as [c|]; mcases; reflexivity.
Qed.

(** [nfs_set_events] on a client with a context. *)
Lemma nfs_set_events_ok (w : World) (c : nfs_context) :
  context (w_client w) = Some c ->
  exists w',
    nfs_set_events w = Ret tt w' /\
    w_task w' = w_task w /\
    w_total_sectors w' = w_total_sectors w /\
    w_client w' =
      mkclient (Some c) (fh (w_client w)) (nfs_which_events c)
        (has_zero_init (w_client w)).
Proof.
  destruct w as [[cx f ev hz] ts t tr]. simpl. intros ->.
  unfold nfs_set_events. mcases; eexists; repeat split; reflexivity.
Qed.

(** One dispatch of the reactor: the task changes only by the completion that
    is delivered, and the client keeps its context. *)
Lemma run_handler_ok (d : dispatch) (w : World) :
  context (w_client w) <> None ->
  exists w',
    run_handler d w = Ret tt w' /\
    context (w_client w') <> None /\
    w_task w' =
      match d_completion d with
      | Some (s, data) => cb_task s data (w_task w)
      | None => w_task w
      end.
Proof.
  destruct w as [[[c|] f ev hz] ts t tr]; simpl; [intros _ | congruence].
  destruct d as [[|] [[s data]|] ev'];
    unfold run_handler, nfs_process_read, nfs_process_write, nfs_service,
      nfs_set_events;
    mnorm; try rewrite nfs_co_generic_cb_frame; mcases;
    eexists; repeat split; discriminate.
Qed.

Lemma bh_pending_cb_task (s : Z) (data : cb_data) (t : NFSRPC) :
  co t <> None -> bh_pending (cb_task s data t) = true.
Proof.
  intros Hco. unfold bh_pending. rewrite cb_task_bh.
  destruct (co t); [reflexivity | congruence].
Qed.

(** The task once the bottom half has run. *)
Lemma nfs_co_generic_bh_cb_ok (w : World) (b : QEMUBH) :
  bh (w_task w) = Some b ->
  exists w',
    nfs_co_generic_bh_cb w = Ret tt w' /\
    w_client w' = w_client w /\
    status (w_task w') = status (w_task w) /\
    complete (w_task w') = complete (w_task w) /\
    iov (w_task w') = iov (w_task w) /\
    st (w_task w') = st (w_task w) /\
    w_trace w' =
      w_trace w ++ [E_qemu_bh_delete;
                    E_task (W_bh (Some (mkbh (bh_cb b) false true)));
                    E_qemu_coroutine_enter (co (w_task w))].
Proof.
  destruct w as [cl ts [s0 c0 i0 st0 co0 bh0] tr]. simpl. intros ->.
  unfold nfs_co_generic_bh_cb. mnorm.
  eexists; repeat split. repeat rewrite <- app_assoc. reflexivity.
Qed.

(** Suspending in [qemu_coroutine_yield]: the coroutine is re-entered once the
    completion has been delivered and the bottom half has run. *)
Lemma qemu_coroutine_yield_ok (script : list dispatch) :
  forall (w : World) (s : Z) (data : cb_data),
    first_completion script = Some (s, data) ->
    context (w_client w) <> None ->
    co (w_task w) <> None ->
    bh_pending (w_task w) = false ->
    exists rest w',
      qemu_coroutine_yield script w = Ret rest w' /\
      context (w_client w') <> None /\
      status (w_task w') = status (cb_task s data (w_task w)) /\
      complete (w_task w') = 1 /\
      iov (w_task w') = iov (cb_task s data (w_task w)) /\
      st (w_task w') = st (cb_task s data (w_task w)).
Proof.
  induction script as [|d rest IH]; intros w s data Hfc Hctx Hco Hbh.
  - discriminate.
  - simpl in Hfc. simpl qemu_coroutine_yield. unfold bind at 1.
    destruct (run_handler_ok d w Hctx) as (w1 & Hrun & Hctx1 & Htask1).
    rewrite Hrun. unfold bind at 1. unfold get_task at 1.
    destruct (d_completion d) as [[s1 data1]|] eqn:Hd.
    + inversion Hfc; subst s1 data1.
      rewrite Htask1, (bh_pending_cb_task s data _ Hco).
      assert (Hb : bh (w_task w1) = Some (mkbh fn_nfs_co_generic_bh_cb true false)).
      { rewrite Htask1, cb_task_bh. destruct (co (w_task w)); congruence. }
      destruct (nfs_co_generic_bh_cb_ok w1 _ Hb)
        as (w2 & Hbhcb & Hcl & Hst & Hcomp & Hiov & Hstat & _).
      unfold bind. rewrite Hbhcb. unfold ret.
      exists rest, w2. split; [reflexivity|].
      rewrite Hcl, Hst, Hcomp, Hiov, Hstat, Htask1, cb_task_complete.
      repeat split; assumption.
    + rewrite Htask1, Hbh.
      destruct (IH w1 s data Hfc Hctx1) as (rest' & w2 & Hy & H2);
        try (rewrite Htask1; assumption).
      exists rest', w2. rewrite Htask1 in H2. split; assumption.
Qed.

(** The wait loop of the coroutine operations ends, with the completed task. *)
Lemma co_wait_loop_ok (script : list dispatch) (fuel : nat) (w : World)
    (s : Z) (data : cb_data) :
  first_completion script = Some (s, data) ->
  context (w_client w) <> None ->
  co (w_task w) <> None ->
  bh_pending (w_task w) = false ->
  complete (w_task w) = 0 ->
  exists w',
    wait_loop qemu_coroutine_yield (S fuel) script w = Ret tt w' /\
    status (w_task w') = status (cb_task s data (w_task w)) /\
    complete (w_task w') = 1 /\
    iov (w_task w') = iov (cb_task s data (w_task w)) /\
    st (w_task w') = st (cb_task s data (w_task w)).
Proof.
  intros Hfc Hctx Hco Hbh Hc.
  destruct (context (w_client w)) as [c|] eqn:Hcx; [|congruence].
  destruct (nfs_set_events_ok w c Hcx) as (w1 & Hse & Ht1 & _ & Hcl1).
  destruct (qemu_coroutine_yield_ok script w1 s data Hfc)
    as (rest & w2 & Hy & _ & Hs2 & Hc2 & Hi2 & Hst2);
    try (rewrite Ht1; assumption).
  { rewrite Hcl1. discriminate. }
  exists w2. rewrite Ht1 in *.
  split; [|repeat split; assumption].
  simpl wait_loop. unfold bind at 1. unfold get_task at 1. rewrite Hc.
  change (0 =? 0) with true. cbv iota.
  unfold bind at 1. rewrite Hse. unfold bind at 1. rewrite Hy.
  destruct fuel; simpl wait_loop; unfold bind, get_task; rewrite Hc2;
    reflexivity.
Qed.

(** The wait loop of the blocking query ends, with the completed task. *)
Lemma aio_wait_loop_ok (script : list dispatch) :
  forall (fuel : nat) (w : World) (s : Z) (data : cb_data),
    first_completion script = Some (s, data) ->
    (List.length script < fuel)%nat ->
    context (w_client w) <> None ->
    complete (w_task w) = 0 ->
    exists w',
      wait_loop qemu_aio_wait fuel script w = Ret tt w' /\
      w_task w' = cb_task s data (w_task w).
Proof.
  induction script as [|d rest IH]; intros fuel w s data Hfc Hfuel Hctx Hc.
  - discriminate.
  - destruct fuel as [|fuel]; [simpl in Hfuel; lia|].
    simpl in Hfc, Hfuel.
    destruct (context (w_client w)) as [c|] eqn:Hcx; [|congruence].
    destruct (nfs_set_events_ok w c Hcx) as (w1 & Hse & Ht1 & _ & Hcl1).
    assert (Hctx1 : context (w_client w1) <> None) by (rewrite Hcl1; discriminate).
    destruct (run_handler_ok d w1 Hctx1) as (w2 & Hrun & Hctx2 & Ht2).
    simpl wait_loop. unfold bind at 1. unfold get_task at 1. rewrite Hc.
    change (0 =? 0) with true. cbv iota.
    unfold bind at 1. rewrite Hse. unfold bind at 1.
    unfold qemu_aio_wait, bind at 1. rewrite Hrun. unfold ret at 1.
    rewrite Ht1 in Ht2.
    destruct (d_completion d) as [[s1 data1]|] eqn:Hd.
    + inversion Hfc; subst s1 data1.
      exists w2. split; [|assumption].
      destruct fuel; simpl wait_loop; unfold bind, get_task;
        rewrite Ht2, cb_task_complete; reflexivity.
    + destruct (IH fuel w2 s data Hfc) as (w3 & Hw & Ht3);
        try assumption; try lia.
      { rewrite Ht2. assumption. }
      exists w3. rewrite Ht2 in Ht3. split; assumption.
Qed.


(** A submission on an open client queues the request and leaves the task
    alone. *)
Lemma nfs_submit_ok (e : event) (eng : engine_run) (w : World) :
  is_open (w_client w) ->
  exists w',
    nfs_submit e eng w = Ret (run_submit_rc eng) w' /\
    context (w_client w') <> None /\
    w_task w' = w_task w.
Proof.
  destruct w as [[[c|] [f|] ev hz] ts t tr]; intros [Hc Hf]; simpl in *;
    try congruence.
  unfold nfs_submit. mnorm. eexists. repeat split. discriminate.
Qed.

(** The part the coroutine operations share: the task is initialised, the
    request is submitted, and the wait loop ends with the completed task. *)
Lemma co_request_ok (e : event) (eng : engine_run) (w : World) (t0 : NFSRPC)
    (s : Z) (data : cb_data) :
  is_open (w_client w) ->
  run_submit_rc eng = 0 ->
  first_completion (run_script eng) = Some (s, data) ->
  w_task w = t0 ->
  co t0 <> None -> bh t0 = None -> complete t0 = 0 ->
  exists w1 w2,
    nfs_submit e eng w = Ret 0 w1 /\
    wait_loop qemu_coroutine_yield (loop_bound (run_script eng))
      (run_script eng) w1 = Ret tt w2 /\
    status (w_task w2) = status (cb_task s data t0) /\
    complete (w_task w2) = 1 /\
    iov (w_task w2) = iov (cb_task s data t0) /\
    st (w_task w2) = st (cb_task s data t0).
Proof.
  intros Hopen Hrc Hfc Ht Hco Hbh Hc.
  destruct (nfs_submit_ok e eng w Hopen) as (w1 & Hsub & Hctx1 & Ht1).
  rewrite Hrc in Hsub. rewrite Ht in Ht1.
  destruct (co_wait_loop_ok (run_script eng) (List.length (run_script eng)) w1
              s data Hfc Hctx1) as (w2 & Hloop & H2);
    try (rewrite Ht1; assumption).
  { rewrite Ht1. unfold bh_pending. rewrite Hbh. reflexivity. }
  exists w1, w2. rewrite Ht1 in H2.
  split; [exact Hsub|]. split; [exact Hloop|]. tauto.
Qed.

(** C6: flush returns the status of the completed task, which is the status
    the engine delivered to the completion callback, unchanged, whatever its
    sign. *)
Theorem nfs_co_flush_returns_status (self : Coroutine) (eng : engine_run)
    (w : World) (s : Z) (data : cb_data) :
  is_open (w_client w) ->
  run_submit_rc eng = 0 ->
  first_completion (run_script eng) = Some (s, data) ->
  exists w',
    nfs_co_flush self eng w = Ret (status (w_task w')) w' /\
    complete (w_task w') = 1 /\
    status (w_task w') = s.
Proof.
  intros Hopen Hrc Hfc.
  unfold nfs_co_flush, nfs_co_init_task.
  unfold bind at 1. unfold task_store at 1.
  set (w0 := mkworld _ _ _ _).
  destruct (co_request_ok E_nfs_fsync_async eng w0
              (mkrpc 0 0 None None (Some self) None) s data)
    as (w1 & w2 & Hsub & Hloop & Hs & Hc & _); try assumption;
    try reflexivity; try discriminate.
  unfold bind at 1. rewrite Hsub. change (negb (0 =? 0)) with false. cbv iota.
  unfold bind at 1. rewrite Hloop. unfold bind, get_task, ret.
  exists w2. rewrite cb_task_status in Hs. simpl in Hs.
  repeat split; assumption.
Qed.

Lemma nfs_co_flush_returns_status_witness :
  exists w',
    nfs_co_flush (Co 1) (ex_run (-5) DataNull) ex_world
      = Ret (status (w_task w')) w' /\
    complete (w_task w') = 1 /\
    status (w_task w') = -5.
Proof.
  apply (nfs_co_flush_returns_status (Co 1) (ex_run (-5) DataNull) ex_world
           (-5) DataNull).
  - split; discriminate.
  - reflexivity.
  - reflexivity.
Defined.

(** C3: a write of [nb_sectors] sectors returns 0 exactly when the completed
    task's status is [nb_sectors * BDRV_SECTOR_SIZE]; a negative status is
    returned as it is, and every other status gives [-EIO]. *)
Theorem nfs_co_writev_result (self : Coroutine) (eng : engine_run)
    (sector_num nb_sectors : Z) (qiov : QEMUIOVector) (w : World)
    (s : Z) (data : cb_data) :
  is_open (w_client w) ->
  run_submit_rc eng = 0 ->
  first_completion (run_script eng) = Some (s, data) ->
  is_int s ->
  0 <= nb_sectors <= INT_MAX ->
  exists r w',
    nfs_co_writev self eng sector_num nb_sectors qiov w = Ret r w' /\
    complete (w_task w') = 1 /\
    status (w_task w') = s /\
    (r = 0 <-> status (w_task w') = nb_sectors * BDRV_SECTOR_SIZE) /\
    (status (w_task w') < 0 -> r = status (w_task w')) /\
    (0 <= status (w_task w') ->
     status (w_task w') <> nb_sectors * BDRV_SECTOR_SIZE -> r = - EIO).
Proof.
  intros Hopen Hrc Hfc Hs Hnb.
  unfold nfs_co_writev, nfs_co_init_task.
  unfold bind at 1. unfold task_store at 1.
  unfold bind at 1. unfold emit at 1.
  set (w0 := mkworld _ _ _ _).
  set (n := to_uint64 (nb_sectors * BDRV_SECTOR_SIZE)).
  match goal with
  | |- context [nfs_submit ?e eng] =>
      destruct (co_request_ok e eng w0 (mkrpc 0 0 None None (Some self) None)
                  s data)
        as (w1 & w2 & Hsub & Hloop & Hst & Hc & _); try assumption;
        try reflexivity; try discriminate
  end.
  unfold bind at 1. rewrite Hsub. change (negb (0 =? 0)) with false. cbv iota.
  unfold bind at 1. rewrite Hloop.
  rewrite cb_task_status in Hst. simpl in Hst.
  unfold bind, emit, get_task, ret. cbn [w_task].
  rewrite Hst.
  assert (Hn : n = nb_sectors * BDRV_SECTOR_SIZE).
  { unfold n. apply to_uint64_small. change BDRV_SECTOR_SIZE with 512.
    unfold INT_MAX in Hnb. lia. }
  change BDRV_SECTOR_SIZE with 512 in *.
  destruct (Z_lt_dec s 0) as [Hneg|Hpos].
  - rewrite (to_uint64_int_neg s Hs Hneg).
    destruct (Z.eqb_spec (s + 2 ^ 64) n) as [He|Hne].
    + exfalso. destruct Hs as [Hlo _]. unfold INT_MIN, INT_MAX in *. lia.
    + cbn [negb]. destruct (Z.ltb_spec s 0); [|lia].
      eexists; eexists; split; [reflexivity|]. cbn [w_task].
      repeat split; try assumption; try lia.
  - rewrite (to_uint64_int_nonneg s Hs) by lia.
    destruct (Z.eqb_spec s n) as [He|Hne]; cbn [negb].
    + eexists; eexists; split; [reflexivity|]. cbn [w_task].
      repeat split; try assumption; try lia.
    + destruct (Z.ltb_spec s 0); [lia|].
      eexists; eexists; split; [reflexivity|]. cbn [w_task].
      unfold EIO. repeat split; try assumption; try lia.
Qed.

Lemma nfs_co_writev_result_witness :
  exists r w',
    nfs_co_writev (Co 1) (ex_run 1024 DataNull) 0 2 ex_vector ex_world
      = Ret r w' /\
    complete (w_task w') = 1 /\
    status (w_task w') = 1024 /\
    (r = 0 <-> status (w_task w') = 2 * BDRV_SECTOR_SIZE) /\
    (status (w_task w') < 0 -> r = status (w_task w')) /\
    (0 <= status (w_task w') ->
     status (w_task w') <> 2 * BDRV_SECTOR_SIZE -> r = - EIO).
Proof.
  apply (nfs_co_writev_result (Co 1) (ex_run 1024 DataNull) 0 2 ex_vector
           ex_world 1024 DataNull).
  - split; discriminate.
  - reflexivity.
  - reflexivity.
  - unfold is_int, INT_MIN, INT_MAX. lia.
  - unfold INT_MAX. lia.
Defined.

(** *** Vectors *)

Lemma size_nonneg (q : QEMUIOVector) : 0 <= size q.
Proof. unfold size. lia. Qed.

Lemma size_qemu_iovec_from_buf (q : QEMUIOVector) (buf : list byte) (n : Z) :
  size (qemu_iovec_from_buf q 0 buf n) = size q.
Proof.
  unfold qemu_iovec_from_buf, size. cbn [qiov_bytes].
  rewrite Z.sub_0_r, Nat2Z.id. change (Z.to_nat 0) with 0%nat.
  cbn [firstn Nat.add app].
  set (src := firstn _ (firstn _ buf)).
  assert (Hsrc : (List.length src <= List.length (qiov_bytes q))%nat)
    by (unfold src; rewrite length_firstn; lia).
  rewrite length_app, length_skipn. lia.
Qed.

Lemma size_qemu_iovec_memset (q : QEMUIOVector) (offset : Z) (c : byte) (n : Z) :
  0 <= offset <= size q ->
  size (qemu_iovec_memset q offset c n) = size q.
Proof.
  unfold qemu_iovec_memset, size. cbn [qiov_bytes]. intros H.
  rewrite !length_app, length_firstn, repeat_length, length_skipn. lia.
Qed.

(** Filling from [offset] to the end leaves [fillc] at every position from
    [offset] on. *)
Lemma qemu_iovec_memset_tail (q : QEMUIOVector) (offset : Z) (c : byte) (i : Z) :
  0 <= offset <= i -> i < size q ->
  nth_error (qiov_bytes (qemu_iovec_memset q offset c (size q - offset)))
    (Z.to_nat i) = Some c.
Proof.
  unfold qemu_iovec_memset, size. cbn [qiov_bytes]. intros Ho Hi.
  rewrite Nat.min_id.
  set (old := qiov_bytes q) in *.
  set (k := Z.to_nat (Z.of_nat (List.length old) - offset)).
  assert (Hf : List.length (firstn (Z.to_nat offset) old) = Z.to_nat offset)
    by (rewrite length_firstn; lia).
  rewrite nth_error_app2 by lia. rewrite Hf.
  rewrite nth_error_app1 by (rewrite repeat_length; unfold k; lia).
  apply nth_error_repeat. unfold k. lia.
Qed.

(** C4: a read whose completed status is non-negative and below [iov->size]
    returns 0 and leaves zero at every position of the vector from the
    status on; a read whose completed status is negative returns that
    status. *)
Theorem nfs_co_readv_short_read (self : Coroutine) (eng : engine_run)
    (sector_num nb_sectors : Z) (qiov : QEMUIOVector) (w : World)
    (s : Z) (data : cb_data) :
  is_open (w_client w) ->
  run_submit_rc eng = 0 ->
  first_completion (run_script eng) = Some (s, data) ->
  is_int s ->
  size qiov < 2 ^ 64 ->
  exists r w' q',
    nfs_co_readv self eng sector_num nb_sectors qiov w = Ret r w' /\
    complete (w_task w') = 1 /\
    status (w_task w') = (if size qiov <? s then - EIO else s) /\
    iov (w_task w') = Some q' /\
    size q' = size qiov /\
    (status (w_task w') < 0 -> r = status (w_task w')) /\
    (0 <= status (w_task w') < size qiov ->
     r = 0 /\
     forall i, status (w_task w') <= i < size qiov ->
       nth_error (qiov_bytes q') (Z.to_nat i) = Some x00).
Proof.
  intros Hopen Hrc Hfc Hs Hmax.
  unfold nfs_co_readv, nfs_co_init_task.
  unfold bind at 1. unfold task_store at 1.
  unfold bind at 1. unfold task_store at 1.
  set (w0 := mkworld _ _ _ _).
  match goal with
  | |- context [nfs_submit ?e eng] =>
      destruct (co_request_ok e eng w0
                  (mkrpc 0 0 (Some qiov) None (Some self) None) s data)
        as (w1 & w2 & Hsub & Hloop & Hst & Hc & Hiov & _); try assumption;
        try reflexivity; try discriminate
  end.
  unfold bind at 1. rewrite Hsub. change (negb (0 =? 0)) with false. cbv iota.
  unfold bind at 1. rewrite Hloop.
  rewrite cb_task_status in Hst. rewrite cb_task_iov in Hiov.
  cbn [iov] in Hst, Hiov.
  destruct w2 as [cl2 ts2 [s2 c2 i2 st2 co2 bh2] tr2].
  cbn [w_task status complete iov] in Hst, Hc, Hiov. subst s2 c2 i2.
  pose proof (size_nonneg qiov) as Hsz.
  unfold bind at 1. unfold get_task at 1. cbn [w_task status].
  destruct (Z.ltb_spec 0 s) as [Hpos|Hnpos].
  - rewrite (to_uint64_int_nonneg s Hs) by lia.
    destruct (Z.leb_spec s (size qiov)) as [Hfit|Hbig].
    + (* the bytes fit: copied, then the tail is zeroed *)
      destruct (Z.ltb_spec s 0); [lia|].
      destruct (Z.ltb_spec (size qiov) s); [lia|].
      mnorm. rewrite (to_uint64_int_nonneg s Hs) by lia.
      rewrite size_qemu_iovec_from_buf.
      destruct (Z.ltb_spec s (size qiov)) as [Hshort|Hfull]; mnorm.
      * rewrite to_uint64_small by lia.
        eexists; eexists; eexists; split; [reflexivity|].
        cbn [w_task status complete iov].
        repeat split; try lia.
        -- rewrite size_qemu_iovec_memset, size_qemu_iovec_from_buf;
             [reflexivity | rewrite size_qemu_iovec_from_buf; lia].
        -- intros i Hi.
           rewrite <- (size_qemu_iovec_from_buf qiov (data_buf data) s).
           apply qemu_iovec_memset_tail;
             rewrite ?size_qemu_iovec_from_buf; lia.
      * eexists; eexists; eexists; split; [reflexivity|].
        cbn [w_task status complete iov].
        repeat split; try lia.
        apply size_qemu_iovec_from_buf.
    + (* more bytes than the vector holds: the status is the error *)
      destruct (Z.ltb_spec (size qiov) s); [|lia].
      change (- EIO <? 0) with true. cbv iota. unfold ret.
      eexists; eexists; eexists; split; [reflexivity|].
      cbn [w_task status complete iov]. unfold EIO.
      repeat split; try lia.
  - destruct (Z.ltb_spec (size qiov) s); [lia|].
    destruct (Z.ltb_spec s 0) as [Hneg|Hzero].
    + unfold ret.
      eexists; eexists; eexists; split; [reflexivity|].
      cbn [w_task status complete iov].
      repeat split; try lia.
    + assert (s = 0) by lia. subst s.
      mnorm. change (to_uint64 0) with 0. rewrite Z.sub_0_r.
      destruct (Z.ltb_spec 0 (size qiov)) as [Hshort|Hempty]; mnorm.
      * rewrite to_uint64_small by lia.
        eexists; eexists; eexists; split; [reflexivity|].
        cbn [w_task status complete iov].
        repeat split; try lia.
        -- apply size_qemu_iovec_memset. lia.
        -- intros i Hi.
           replace (size qiov) with (size qiov - 0) at 1 by lia.
           apply qemu_iovec_memset_tail; lia.
      * eexists; eexists; eexists; split; [reflexivity|].
        cbn [w_task status complete iov].
        repeat split; try lia.
Qed.

Lemma nfs_co_readv_short_read_witness :
  exists r w' q',
    nfs_co_readv (Co 1) (ex_run 2 (DataBuf [xaa; xbb])) 0 1 ex_vector ex_world
      = Ret r w' /\
    complete (w_task w') = 1 /\
    status (w_task w') = (if size ex_vector <? 2 then - EIO else 2) /\
    iov (w_task w') = Some q' /\
    size q' = size ex_vector /\
    (status (w_task w') < 0 -> r = status (w_task w')) /\
    (0 <= status (w_task w') < size ex_vector ->
     r = 0 /\
     forall i, status (w_task w') <= i < size ex_vector ->
       nth_error (qiov_bytes q') (Z.to_nat i) = Some x00).
Proof.
  apply (nfs_co_readv_short_read (Co 1) (ex_run 2 (DataBuf [xaa; xbb])) 0 1
           ex_vector ex_world 2 (DataBuf [xaa; xbb])).
  - split; discriminate.
  - reflexivity.
  - reflexivity.
  - unfold is_int, INT_MIN, INT_MAX. lia.
  - vm_compute. reflexivity.
Defined.




(** *** The trace of the completion callback *)


(** Bytes are copied into the vector only for a positive count that the
    vector can hold. *)
Lemma cb_trace_copy (s : Z) (data : cb_data) (t : NFSRPC) (d : cb_data) (n : Z) :
  In (E_task (W_iov_from_buf d n)) (cb_trace s data t) ->
  exists q,
    iov t = Some q /\ 0 < s /\ to_uint64 s <= size q /\ n = s /\ d = data.
Proof.
  destruct t as [s0 c0 i0 st0 co0 bh0].
  unfold cb_trace, cb_world, nfs_co_generic_cb.
  destruct i0 as [q|], st0 as [m|], co0 as [c|]; mcases;
    intros Hin; simpl in Hin;
    repeat (destruct Hin as [Hin|Hin]; try discriminate Hin);
    try contradiction;
    injection Hin as <- <-; exists q;
    repeat match goal with
           | H : (_ <? _) = true |- _ => apply Z.ltb_lt in H
           | H : (_ <=? _) = true |- _ => apply Z.leb_le in H
           end;
    repeat split; assumption.
Qed.

(** C2: when the task has a vector and the engine reports more bytes than
    the vector's size, the callback copies nothing into the vector and the
    status becomes [-EIO]; a copy happens only for a count the vector
    holds. *)
Theorem nfs_co_generic_cb_oversize (w : World) (s : Z) (data : cb_data)
    (q : QEMUIOVector) :
  iov (w_task w) = Some q ->
  is_int s ->
  exists w' tr,
    nfs_co_generic_cb s data w = Ret tt w' /\
    w_trace w' = w_trace w ++ tr /\
    (size q < s ->
     status (w_task w') = - EIO /\
     iov (w_task w') = Some q /\
     forall d n, ~ In (E_task (W_iov_from_buf d n)) tr) /\
    (forall d n, In (E_task (W_iov_from_buf d n)) tr ->
       0 < s <= size q /\ n = s /\ d = data /\
       iov (w_task w') = Some (qemu_iovec_from_buf q 0 (data_buf data) s)).
Proof.
  intros Hiov Hs.
  rewrite nfs_co_generic_cb_frame.
  eexists; eexists; split; [reflexivity|]. cbn [w_trace w_task].
  split; [reflexivity|].
  pose proof (size_nonneg q) as Hsz.
  split.
  - intros Hbig.
    rewrite cb_task_status, cb_task_iov, Hiov.
    destruct (Z.ltb_spec 0 s); [|lia].
    rewrite (to_uint64_int_nonneg s Hs) by lia.
    destruct (Z.leb_spec s (size q)); [lia|].
    repeat split.
    intros d n Hin. apply cb_trace_copy in Hin.
    destruct Hin as (q' & Hq' & Hpos & Hle & _).
    rewrite Hiov in Hq'. injection Hq' as <-.
    rewrite (to_uint64_int_nonneg s Hs) in Hle by lia. lia.
  - intros d n Hin. apply cb_trace_copy in Hin.
    destruct Hin as (q' & Hq' & Hpos & Hle & Hn & Hd).
    rewrite Hiov in Hq'. injection Hq' as <-.
    rewrite (to_uint64_int_nonneg s Hs) in Hle by lia.
    rewrite cb_task_iov, Hiov.
    destruct (Z.ltb_spec 0 s); [|lia].
    rewrite (to_uint64_int_nonneg s Hs) by lia.
    destruct (Z.leb_spec s (size q)); [|lia].
    repeat split; try assumption; lia.
Qed.

Lemma nfs_co_generic_cb_oversize_witness :
  exists w' tr,
    nfs_co_generic_cb 9 (DataBuf [xaa; xbb]) ex_read_world = Ret tt w' /\
    w_trace w' = w_trace ex_read_world ++ tr /\
    (size ex_vector < 9 ->
     status (w_task w') = - EIO /\
     iov (w_task w') = Some ex_vector /\
     forall d n, ~ In (E_task (W_iov_from_buf d n)) tr) /\
    (forall d n, In (E_task (W_iov_from_buf d n)) tr ->
       0 < 9 <= size ex_vector /\ n = 9 /\ d = DataBuf [xaa; xbb] /\
       iov (w_task w') =
         Some (qemu_iovec_from_buf ex_vector 0 (data_buf (DataBuf [xaa; xbb])) 9)).
Proof.
  apply (nfs_co_generic_cb_oversize ex_read_world 9 (DataBuf [xaa; xbb])
           ex_vector).
  - reflexivity.
  - unfold is_int, INT_MIN, INT_MAX. lia.
Defined.




(** *** Readiness masks *)

Lemma land_pow2_testbit (a k : Z) :
  0 <= k -> (Z.land a (2 ^ k) =? 0) = negb (Z.testbit a k).
Proof.
  intros Hk.
  assert (H : Z.land a (2 ^ k) = if Z.testbit a k then 2 ^ k else 0).
  { apply Z.bits_inj'. intros n Hn.
    rewrite Z.land_spec, Z.pow2_bits_eqb by assumption.
    destruct (Z.eqb_spec k n) as [->|Hne].
    - destruct (Z.testbit a n); [|rewrite Z.bits_0; reflexivity].
      rewrite Z.pow2_bits_eqb, Z.eqb_refl by assumption. reflexivity.
    - rewrite andb_false_r.
      destruct (Z.testbit a k); [|rewrite Z.bits_0; reflexivity].
      rewrite Z.pow2_bits_eqb by assumption.
      symmetry. apply Z.eqb_neq. exact Hne. }
  rewrite H. destruct (Z.testbit a k); [|reflexivity].
  apply Z.eqb_neq. apply Z.pow_nonzero; lia.
Qed.

(** C9: the event bridge registers nothing when the engine's mask equals the
    stored one; otherwise it registers the file descriptor once, with the
    read handler exactly when [POLLIN] (bit 0) is in the mask and the write
    handler exactly when [POLLOUT] (bit 2) is; afterwards the stored mask is
    the engine's. *)
Theorem nfs_set_events_registers (w : World) (c : nfs_context) :
  context (w_client w) = Some c ->
  exists w' tr,
    nfs_set_events w = Ret tt w' /\
    w_trace w' = w_trace w ++ tr /\
    events (w_client w') = nfs_which_events c /\
    (nfs_which_events c = events (w_client w) -> tr = []) /\
    (nfs_which_events c <> events (w_client w) ->
     exists rd wr,
       tr = [E_qemu_aio_set_fd_handler (nfs_get_fd c) rd wr true] /\
       (rd = Some fn_nfs_process_read <->
        Z.testbit (nfs_which_events c) 0 = true) /\
       (rd = None <-> Z.testbit (nfs_which_events c) 0 = false) /\
       (wr = Some fn_nfs_process_write <->
        Z.testbit (nfs_which_events c) 2 = true) /\
       (wr = None <-> Z.testbit (nfs_which_events c) 2 = false)).
Proof.
  destruct w as [[cx f ev hz] ts t tr0]. cbn [w_client context]. intros ->.
  destruct c as [fd cev u g sy mo].
  unfold nfs_set_events. mnorm.
  destruct (Z.eqb_spec cev ev) as [He|Hne]; mnorm.
  - eexists; exists []; split; [reflexivity|].
    cbn [w_trace w_client events]. rewrite app_nil_r.
    repeat split; try reflexivity. intros Hd. contradiction.
  - change POLLIN with (2 ^ 0). change POLLOUT with (2 ^ 2).
    rewrite !land_pow2_testbit by lia.
    eexists; eexists; split; [reflexivity|].
    split; [reflexivity|]. split; [reflexivity|].
    split; [intros He; contradiction|]. intros _.
    eexists; eexists; split; [reflexivity|].
    destruct (Z.testbit cev 0), (Z.testbit cev 2);
      cbn [negb]; repeat split; intros; congruence.
Qed.

Lemma nfs_set_events_registers_witness :
  exists w' tr,
    nfs_set_events
      (mkworld (mkclient (Some (mkctx 7 5 None None None None)) None 1 false)
         0 NFSRPC_zero []) = Ret tt w' /\
    w_trace w' = [] ++ tr /\
    events (w_client w') = 5 /\
    (5 = 1 -> tr = []) /\
    (5 <> 1 ->
     exists rd wr,
       tr = [E_qemu_aio_set_fd_handler 7 rd wr true] /\
       (rd = Some fn_nfs_process_read <-> Z.testbit 5 0 = true) /\
       (rd = None <-> Z.testbit 5 0 = false) /\
       (wr = Some fn_nfs_process_write <-> Z.testbit 5 2 = true) /\
       (wr = None <-> Z.testbit 5 2 = false)).
Proof.
  apply (nfs_set_events_registers
           (mkworld (mkclient (Some (mkctx 7 5 None None None None)) None 1 false)
              0 NFSRPC_zero [])
           (mkctx 7 5 None None None None)).
  reflexivity.
Defined.

(** *** Close and open *)

(** C8: close returns on every client, also on one without a context or
    without a file handle, and leaves the all-zero client; called again it
    changes nothing and calls neither the engine nor the reactor. *)
Theorem nfs_client_close_idempotent (w : World) :
  exists w1,
    nfs_client_close w = Ret tt w1 /\
    w_client w1 = NFSClient_zero /\
    w_trace w1 =
      w_trace w ++
      match context (w_client w) with
      | Some c =>
          match fh (w_client w) with
          | Some f => [E_nfs_close f]
          | None => []
          end ++
          [E_qemu_aio_set_fd_handler (nfs_get_fd c) None None false;
           E_nfs_destroy_context]
      | None => []
      end /\
    nfs_client_close w1 = Ret tt w1.
Proof.
  destruct w as [[[c|] [f|] ev hz] ts t tr]; unfold nfs_client_close; mnorm;
    eexists; (split; [reflexivity|]); cbn [w_client w_trace];
    repeat split; try reflexivity;
    repeat rewrite <- app_assoc; try reflexivity;
    rewrite app_nil_r; reflexivity.
Qed.

(** [strncmp] with the length of the literal accepts every name that starts
    with the literal. *)
Lemma strncmp_prefix (lit suffix : string) :
  strncmp (lit ++ suffix) lit (String.length lit) = 0.
Proof.
  induction lit as [|a lit IH]; [reflexivity|].
  cbn [String.append String.length strncmp]. rewrite Ascii.eqb_refl. exact IH.
Qed.

(** A parameter whose name starts with [uid] is taken for the user id. *)
Lemma nfs_client_open_params_uid_prefix (suffix v : string)
    (rest : list QueryParam) (w : World) :
  nfs_client_open_params (mkqp ("uid" ++ suffix) (Some v) :: rest) w =
  (nfs_set_uid (atoi v) ;; nfs_client_open_params rest) w.
Proof.
  cbn [nfs_client_open_params value name].
  pose proof (strncmp_prefix "uid" suffix) as H. cbn [String.length] in H.
  rewrite H. reflexivity.
Qed.

(** A parameter without a value ends the loop with an error. *)
Lemma nfs_client_open_params_no_value (n : string) (rest : list QueryParam)
    (w : World) :
  nfs_client_open_params (mkqp n None :: rest) w =
  Ret false
    (mkworld (w_client w) (w_total_sectors w) (w_task w)
       (w_trace w ++
        [E_error_setg (mkmsg "Value for NFS parameter expected: %s" (Some n))])).
Proof. reflexivity. Qed.

(** The loop over the parameters stops at the first rejected one: it reports
    an error, and the client still has its context for the cleanup. *)
Lemma nfs_client_open_params_rejects (ps : list QueryParam) :
  forall w : World,
    context (w_client w) <> None ->
    existsb rejected ps = true ->
    exists w' tr m,
      nfs_client_open_params ps w = Ret false w' /\
      context (w_client w') <> None /\
      fh (w_client w') = fh (w_client w) /\
      w_trace w' = w_trace w ++ tr ++ [E_error_setg m] /\
      forall srv e, ~ In (E_nfs_mount srv e) tr.
Proof.
  induction ps as [|p rest IH]; intros w Hctx Hrej; [discriminate|].
  destruct w as [[[c|] f ev hz] ts t tr0]; [clear Hctx | cbn in Hctx; congruence].
  destruct c as [fd cev u g sy mo].
  cbn [existsb] in Hrej. unfold rejected at 1 in Hrej. unfold accepted_name in Hrej.
  cbn [nfs_client_open_params].
  destruct (value p) as [v|].
  - destruct (strncmp (name p) "uid" 3 =? 0) eqn:Huid;
      [|destruct (strncmp (name p) "gid" 3 =? 0) eqn:Hgid;
        [|destruct (strncmp (name p) "tcp-syncnt" 10 =? 0) eqn:Hsyn]];
      cbn [orb negb] in Hrej.
    1-3: unfold nfs_set_uid, nfs_set_gid, nfs_set_tcp_syncnt; mnorm;
      match goal with
      | |- context [nfs_client_open_params ?r ?w1] =>
          destruct (IH w1) as (w' & tr & m & Hrun & Hc' & Hf' & Htr & Hno);
            [discriminate | exact Hrej |]
      end;
      rewrite Hrun; cbn [w_client w_trace fh] in Hf', Htr;
      rewrite <- app_assoc in Htr;
      match type of Htr with
      | _ = _ ++ [?e] ++ _ => exists w', (e :: tr), m
      end;
      (split; [reflexivity|]);
      (split; [exact Hc'|]); (split; [exact Hf'|]); (split; [exact Htr|]);
      intros srv e Hin; cbn [app In] in Hin;
      destruct Hin as [Hin|Hin]; [discriminate Hin | exact (Hno srv e Hin)].
    mnorm. eexists; exists []; eexists; split; [reflexivity|].
    cbn [w_client w_trace context fh app].
    repeat split; try discriminate. intros srv e [].
  - mnorm. eexists; exists []; eexists; split; [reflexivity|].
    cbn [w_client w_trace context fh app].
    repeat split; try discriminate. intros srv e [].
Qed.

(** An open whose URL parses and whose context is created fails on a rejected
    parameter: it returns [-EINVAL] after the full cleanup, with the all-zero
    client, the context destroyed and no share mounted. *)
Lemma nfs_client_open_rejected_parameter (env : open_env) (filename : string)
    (flags : Z) (w : World) (uri : URI) (p dir file : string)
    (c : nfs_context) :
  env_uri_parse env filename = Some uri ->
  path uri = Some p ->
  strrchr p "/" = Some (dir, file) ->
  env_nfs_init_context env = Some c ->
  existsb rejected (env_query_params_parse env (query uri)) = true ->
  exists w' tr,
    nfs_client_open env filename flags w = Ret (- EINVAL) w' /\
    w_client w' = NFSClient_zero /\
    w_trace w' = w_trace w ++ tr /\
    In E_nfs_destroy_context tr /\
    (exists m, In (E_error_setg m) tr) /\
    forall srv e, ~ In (E_nfs_mount srv e) tr.
Proof.
  intros Huri Hpath Hslash Hinit Hrej.
  unfold nfs_client_open, nfs_client_open_body.
  rewrite Huri, Hpath. cbn [deref]. unfold bind at 2. unfold ret at 1.
  rewrite Hslash, Hinit.
  destruct w as [[cx f ev hz] ts t tr0].
  mnorm.
  match goal with
  | |- context [nfs_client_open_params ?ps ?w1] =>
      destruct (nfs_client_open_params_rejects ps w1)
        as (w' & tr & m & Hrun & Hc' & Hf' & Htr & Hno);
        [discriminate | exact Hrej |]
  end.
  rewrite Hrun. mnorm. unfold nfs_client_close. mnorm.
  destruct w' as [[[c'|] f' ev' hz'] ts' t' tr']; [|cbn in Hc'; congruence].
  cbn [w_client w_trace fh] in Hf', Htr. subst f' tr'.
  destruct f as [fh0|]; mnorm;
    (eexists; eexists; split; [reflexivity|]);
    cbn [w_client w_trace]; (split; [reflexivity|]);
    (split; [repeat rewrite <- app_assoc; cbn [app]; reflexivity|]);
    (split; [cbn [In]; rewrite in_app_iff; cbn [In]; intuition reflexivity|]);
    (split; [exists m; cbn [In]; rewrite in_app_iff; cbn [In];
             intuition reflexivity|]);
    intros srv e Hin; cbn [In] in Hin; rewrite in_app_iff in Hin;
    cbn [In] in Hin;
    repeat (destruct Hin as [Hin|Hin]; try discriminate Hin);
    try exact (Hno srv e Hin); try contradiction.
Qed.

(** An open with the parameter [foo=bar] fails with [-EINVAL], reports the
    unknown name, destroys the context and leaves the all-zero client. *)
Lemma nfs_client_open_unknown_param :
  nfs_client_open
    (ex_open_env (Some "foo=bar"%string) [mkqp "foo" (Some "bar"%string)] 4096)
    "nfs://srv/share/file?foo=bar" O_RDWR ex_closed_world =
  Ret (- EINVAL)
    (mkworld NFSClient_zero 0 NFSRPC_zero
       [E_nfs_init_context;
        E_error_setg (mkmsg "Unknown NFS parameter name: %s" (Some "foo"%string));
        E_qemu_aio_set_fd_handler 7 None None false;
        E_nfs_destroy_context;
        E_query_params_free; E_uri_free; E_g_free]).
Proof. vm_compute. reflexivity. Qed.

(** C5: the name [uidx] is not one of [uid], [gid], [tcp-syncnt], yet an open
    of [nfs://srv/share/file?uidx=5] does not fail: the parameter is taken for
    the user id, the share is mounted and the file is opened. *)
Theorem nfs_client_open_accepts_uid_prefixed_name :
  documented_name "uidx" = false /\
  exists w',
    nfs_client_open
      (ex_open_env (Some "uidx=5"%string) [mkqp "uidx" (Some "5"%string)] 4096)
      "nfs://srv/share/file?uidx=5" O_RDWR ex_closed_world = Ret 8 w' /\
    w_client w' =
      mkclient
        (Some (mkctx 7 0 (Some 5) None None
                 (Some ("srv"%string, "/share"%string))))
        (Some (NfsFh 3)) 0 true /\
    w_trace w' =
      [E_nfs_init_context; E_nfs_set_uid 5; E_nfs_mount "srv" "/share";
       E_nfs_open "/file" O_RDWR; E_nfs_fstat;
       E_query_params_free; E_uri_free; E_g_free].
Proof.
  split; [reflexivity|].
  eexists. split; [vm_compute; reflexivity|]. split; reflexivity.
Qed.

(** Below 2^31 sectors the count of sectors is the ceiling of the quotient. *)
Lemma sectors_of_small_file (n : Z) :
  0 <= n -> n + BDRV_SECTOR_SIZE - 1 < 2 ^ 31 * BDRV_SECTOR_SIZE ->
  to_int (DIV_ROUND_UP n BDRV_SECTOR_SIZE) = ceil_div n BDRV_SECTOR_SIZE.
Proof.
  change BDRV_SECTOR_SIZE with 512. intros Hn Hlt.
  unfold DIV_ROUND_UP, ceil_div.
  rewrite (to_uint64_small n) by lia.
  rewrite (to_uint64_small (n + 512 - 1)) by lia.
  assert (Hq : 0 <= (n + 512 - 1) / 512 < 2 ^ 31).
  { split; [apply Z.div_pos; lia | apply Z.div_lt_upper_bound; lia]. }
  unfold to_int, wrap_signed. change (2 ^ (32 - 1)) with (2 ^ 31).
  rewrite Z.mod_small; lia.
Qed.

(** C10: a file of 2 TiB has 2^32 sectors, but its open succeeds and reports
    0 sectors to the framework: the quotient goes through the [int] local
    [ret]. *)
Theorem nfs_file_open_size_wraps :
  ceil_div (2 ^ 41) BDRV_SECTOR_SIZE = 2 ^ 32 /\
  exists w',
    nfs_file_open (ex_open_env None [] (2 ^ 41)) false "nfs://srv/share/file"
      BDRV_O_RDWR ex_closed_world = Ret 0 w' /\
    context (w_client w') <> None /\
    fh (w_client w') = Some (NfsFh 3) /\
    w_total_sectors w' = 0.
Proof.
  split; [vm_compute; reflexivity|].
  eexists. split; [vm_compute; reflexivity|].
  repeat split. discriminate.
Qed.

(* ================================================================== *)
(** ** Further properties of the driver *)

(** X1: Calling the event bridge twice in a row is the same as calling it once:
    the second call finds the stored mask equal to the engine's and registers
    nothing. *)
Theorem nfs_set_events_twice (w : World) :
  (nfs_set_events ;; nfs_set_events) w = nfs_set_events w.
Proof.
  destruct w as [[[c|] f ev hz] ts t tr]; [|reflexivity].
  destruct c as [fd cev u g sy mo].
  unfold nfs_set_events. mnorm.
  destruct (Z.eqb_spec cev ev) as [He|Hne]; mnorm;
    rewrite Z.eqb_refl; mnorm; reflexivity.
Qed.

(** What a submission leaves on an open client. *)
Lemma nfs_submit_world (e : event) (eng : engine_run) (c : nfs_context)
    (f : nfsfh) (ev : Z) (hz : bool) (ts : Z) (t : NFSRPC) (tr : list event) :
  nfs_submit e eng (mkworld (mkclient (Some c) (Some f) ev hz) ts t tr) =
  Ret (run_submit_rc eng)
    (mkworld
       (mkclient
          (Some (mkctx (ctx_fd c) (run_submit_events eng) (ctx_uid c) (ctx_gid c)
                   (ctx_tcp_syncnt c) (ctx_mounted c)))
          (Some f) ev hz)
       ts t (tr ++ [e])).
Proof. destruct c. reflexivity. Qed.

(** X2: When the engine refuses the request, every operation returns [-ENOMEM] at
    once: the reactor is not asked for anything, no completion is awaited, the
    vector is untouched, and the write has released its bounce buffer. *)
Theorem submission_failure_returns_enomem (self : Coroutine) (eng : engine_run)
    (sector_num nb_sectors : Z) (qiov : QEMUIOVector) (st0 : stat) (w : World) :
  is_open (w_client w) ->
  run_submit_rc eng <> 0 ->
  (exists w',
     nfs_co_readv self eng sector_num nb_sectors qiov w = Ret (- ENOMEM) w' /\
     w_trace w' =
       w_trace w ++
       [E_task (W_init (Some self)); E_task (W_iov_ptr qiov);
        E_nfs_pread_async (to_uint64 (sector_num * BDRV_SECTOR_SIZE))
          (to_uint64 (nb_sectors * BDRV_SECTOR_SIZE))] /\
     iov (w_task w') = Some qiov /\ complete (w_task w') = 0) /\
  (exists w',
     nfs_co_writev self eng sector_num nb_sectors qiov w = Ret (- ENOMEM) w' /\
     w_trace w' =
       w_trace w ++
       [E_task (W_init (Some self));
        E_g_malloc (to_uint64 (nb_sectors * BDRV_SECTOR_SIZE));
        E_nfs_pwrite_async (to_uint64 (sector_num * BDRV_SECTOR_SIZE))
          (to_uint64 (nb_sectors * BDRV_SECTOR_SIZE))
          (qemu_iovec_to_buf qiov 0 (to_uint64 (nb_sectors * BDRV_SECTOR_SIZE)));
        E_g_free] /\
     complete (w_task w') = 0) /\
  (exists w',
     nfs_co_flush self eng w = Ret (- ENOMEM) w' /\
     w_trace w' =
       w_trace w ++ [E_task (W_init (Some self)); E_nfs_fsync_async] /\
     complete (w_task w') = 0) /\
  (exists w',
     nfs_get_allocated_file_size st0 eng w = Ret (- ENOMEM) w' /\
     w_trace w' =
       w_trace w ++
       [E_task (W_init None); E_task (W_st_ptr st0); E_nfs_fstat_async] /\
     complete (w_task w') = 0).
Proof.
  destruct w as [[[c|] [f|] ev hz] ts t tr]; intros [Hc Hf] Hrc;
    cbn in Hc, Hf; try congruence.
  destruct eng as [rc sev script]. cbn [run_submit_rc] in Hrc.
  apply Z.eqb_neq in Hrc.
  unfold nfs_co_readv, nfs_co_writev, nfs_co_flush, nfs_get_allocated_file_size,
    nfs_co_init_task.
  repeat split; mnorm; rewrite nfs_submit_world; cbn [run_submit_rc];
    rewrite Hrc; mnorm;
    (eexists; split; [reflexivity|]); cbn [w_trace w_task iov complete];
    repeat rewrite <- app_assoc; repeat split.
Qed.

Lemma submission_failure_returns_enomem_witness :
  exists w',
    nfs_co_flush (Co 1) (mkrun (-1) 0 []) ex_world = Ret (- ENOMEM) w' /\
    w_trace w' =
      w_trace ex_world ++ [E_task (W_init (Some (Co 1))); E_nfs_fsync_async] /\
    complete (w_task w') = 0.
Proof.
  apply (submission_failure_returns_enomem (Co 1) (mkrun (-1) 0 []) 0 1
           ex_vector ex_stack_stat ex_world).
  - split; discriminate.
  - discriminate.
Defined.

(** *** Waiting without a completion *)

Lemma qemu_coroutine_yield_blocked (script : list dispatch) :
  forall w : World,
    first_completion script = None ->
    context (w_client w) <> None ->
    bh_pending (w_task w) = false ->
    qemu_coroutine_yield script w = Blocked.
Proof.
  induction script as [|d rest IH]; intros w Hfc Hctx Hbh; [reflexivity|].
  simpl in Hfc. simpl qemu_coroutine_yield. unfold bind at 1.
  destruct (run_handler_ok d w Hctx) as (w1 & Hrun & Hctx1 & Ht1).
  rewrite Hrun. unfold bind at 1. unfold get_task at 1.
  destruct (d_completion d) as [[s data]|]; [discriminate|].
  rewrite Ht1, Hbh. apply IH; try assumption. rewrite Ht1. exact Hbh.
Qed.

Lemma co_wait_loop_blocked (script : list dispatch) (fuel : nat) (w : World) :
  first_completion script = None ->
  context (w_client w) <> None ->
  bh_pending (w_task w) = false ->
  complete (w_task w) = 0 ->
  wait_loop qemu_coroutine_yield (S fuel) script w = Blocked.
Proof.
  intros Hfc Hctx Hbh Hc.
  destruct (context (w_client w)) as [c|] eqn:Hcx; [|congruence].
  destruct (nfs_set_events_ok w c Hcx) as (w1 & Hse & Ht1 & _ & Hcl1).
  simpl wait_loop. unfold bind at 1. unfold get_task at 1. rewrite Hc.
  change (0 =? 0) with true. cbv iota.
  unfold bind at 1. rewrite Hse. unfold bind at 1.
  rewrite qemu_coroutine_yield_blocked; try assumption; try reflexivity.
  - rewrite Hcl1. discriminate.
  - rewrite Ht1. exact Hbh.
Qed.

Lemma aio_wait_loop_blocked (script : list dispatch) :
  forall (fuel : nat) (w : World),
    first_completion script = None ->
    (List.length script < fuel)%nat ->
    context (w_client w) <> None ->
    complete (w_task w) = 0 ->
    wait_loop qemu_aio_wait fuel script w = Blocked.
Proof.
  induction script as [|d rest IH]; intros fuel w Hfc Hfuel Hctx Hc;
    (destruct fuel as [|fuel]; [simpl in Hfuel; lia|]);
    destruct (context (w_client w)) as [c|] eqn:Hcx; try congruence;
    destruct (nfs_set_events_ok w c Hcx) as (w1 & Hse & Ht1 & _ & Hcl1);
    simpl wait_loop; unfold bind at 1; unfold get_task at 1; rewrite Hc;
    change (0 =? 0) with true; cbv iota;
    unfold bind at 1; rewrite Hse; unfold bind at 1.
  - reflexivity.
  - simpl in Hfc, Hfuel.
    assert (Hctx1 : context (w_client w1) <> None) by (rewrite Hcl1; discriminate).
    destruct (run_handler_ok d w1 Hctx1) as (w2 & Hrun & Hctx2 & Ht2).
    unfold qemu_aio_wait, bind at 1. rewrite Hrun. unfold ret at 1.
    destruct (d_completion d) as [[s data]|]; [discriminate|].
    apply IH; try assumption; try lia.
    rewrite Ht2, Ht1. exact Hc.
Qed.

(** X3: No operation returns before the engine has delivered its completion:
    when the reactor's dispatches carry none, the read, the write, the flush
    and the allocated-size query stay suspended; there is no timeout. *)
Theorem no_completion_no_return (self : Coroutine) (eng : engine_run)
    (sector_num nb_sectors : Z) (qiov : QEMUIOVector) (st0 : stat) (w : World) :
  is_open (w_client w) ->
  run_submit_rc eng = 0 ->
  first_completion (run_script eng) = None ->
  nfs_co_readv self eng sector_num nb_sectors qiov w = Blocked /\
  nfs_co_writev self eng sector_num nb_sectors qiov w = Blocked /\
  nfs_co_flush self eng w = Blocked /\
  nfs_get_allocated_file_size st0 eng w = Blocked.
Proof.
  destruct w as [[[c|] [f|] ev hz] ts t tr]; intros [Hc Hf] Hrc Hfc;
    cbn in Hc, Hf; try congruence.
  destruct eng as [rc sev script]. cbn [run_submit_rc run_script] in Hrc, Hfc.
  subst rc.
  unfold nfs_co_readv, nfs_co_writev, nfs_co_flush, nfs_get_allocated_file_size,
    nfs_co_init_task.
  repeat split; mnorm; rewrite nfs_submit_world; cbn [run_submit_rc];
    change (0 =? 0) with true; mnorm; unfold loop_bound.
  1-3: rewrite co_wait_loop_blocked; try reflexivity; try assumption;
    discriminate.
  rewrite aio_wait_loop_blocked; try reflexivity; try assumption;
    try discriminate. lia.
Qed.

Lemma no_completion_no_return_witness :
  nfs_co_readv (Co 1) (mkrun 0 POLLIN [ex_quiet; ex_quiet]) 0 1 ex_vector
    ex_world = Blocked /\
  nfs_co_writev (Co 1) (mkrun 0 POLLIN [ex_quiet; ex_quiet]) 0 1 ex_vector
    ex_world = Blocked /\
  nfs_co_flush (Co 1) (mkrun 0 POLLIN [ex_quiet; ex_quiet]) ex_world = Blocked /\
  nfs_get_allocated_file_size ex_stack_stat (mkrun 0 POLLIN [ex_quiet; ex_quiet])
    ex_world = Blocked.
Proof.
  apply (no_completion_no_return (Co 1) (mkrun 0 POLLIN [ex_quiet; ex_quiet])
           0 1 ex_vector ex_stack_stat ex_world).
  - split; discriminate.
  - reflexivity.
  - reflexivity.
Defined.

(** *** What the callback reports and copies *)



Lemma qemu_iovec_from_buf_bytes (q : QEMUIOVector) (buf : list byte) (n : Z) :
  0 <= n <= size q -> n <= Z.of_nat (List.length buf) ->
  qiov_bytes (qemu_iovec_from_buf q 0 buf n) =
  firstn (Z.to_nat n) buf ++ skipn (Z.to_nat n) (qiov_bytes q).
Proof.
  unfold qemu_iovec_from_buf, size. cbn [qiov_bytes]. intros Hn Hbuf.
  rewrite Z.sub_0_r, Nat2Z.id. change (Z.to_nat 0) with 0%nat.
  cbn [firstn Nat.add app].
  rewrite firstn_firstn, Nat.min_r by lia.
  rewrite length_firstn, Nat.min_l by lia. reflexivity.
Qed.

Lemma qemu_iovec_memset_bytes (q : QEMUIOVector) (offset : Z) (c : byte) :
  0 <= offset <= size q ->
  qiov_bytes (qemu_iovec_memset q offset c (size q - offset)) =
  firstn (Z.to_nat offset) (qiov_bytes q)
  ++ repeat c (Z.to_nat (size q - offset)).
Proof.
  unfold qemu_iovec_memset, size. cbn [qiov_bytes]. intros Ho.
  rewrite Nat.min_id. rewrite skipn_all2 by lia. rewrite app_nil_r.
  reflexivity.
Qed.

(** X5: A read that the engine completes with [s] bytes, [s] at most the size of
    the vector, returns 0 and leaves in the vector exactly those [s] bytes
    followed by zeros up to its size. *)
Theorem nfs_co_readv_delivers_bytes (self : Coroutine) (eng : engine_run)
    (sector_num nb_sectors : Z) (qiov : QEMUIOVector) (w : World)
    (s : Z) (buf : list byte) :
  is_open (w_client w) ->
  run_submit_rc eng = 0 ->
  first_completion (run_script eng) = Some (s, DataBuf buf) ->
  0 <= s <= size qiov ->
  s <= Z.of_nat (List.length buf) ->
  size qiov < 2 ^ 64 ->
  exists w' q',
    nfs_co_readv self eng sector_num nb_sectors qiov w = Ret 0 w' /\
    iov (w_task w') = Some q' /\
    qiov_bytes q' =
      firstn (Z.to_nat s) buf ++ repeat x00 (Z.to_nat (size qiov - s)).
Proof.
  intros Hopen Hrc Hfc Hs Hbuf Hmax.
  unfold nfs_co_readv, nfs_co_init_task.
  unfold bind at 1. unfold task_store at 1.
  unfold bind at 1. unfold task_store at 1.
  set (w0 := mkworld _ _ _ _).
  match goal with
  | |- context [nfs_submit ?e eng] =>
      destruct (co_request_ok e eng w0
                  (mkrpc 0 0 (Some qiov) None (Some self) None) s (DataBuf buf))
        as (w1 & w2 & Hsub & Hloop & Hst & Hc & Hiov & _); try assumption;
        try reflexivity; try discriminate
  end.
  unfold bind at 1. rewrite Hsub. change (negb (0 =? 0)) with false. cbv iota.
  unfold bind at 1. rewrite Hloop.
  rewrite cb_task_status in Hst. rewrite cb_task_iov in Hiov.
  cbn [iov data_buf] in Hst, Hiov.
  destruct w2 as [cl2 ts2 [s2 c2 i2 st2 co2 bh2] tr2].
  cbn [w_task status complete iov] in Hst, Hc, Hiov. subst s2 c2 i2.
  unfold bind at 1. unfold get_task at 1. cbn [w_task status].
  rewrite (to_uint64_small s) by lia.
  destruct (Z.leb_spec s (size qiov)); [|lia].
  destruct (Z.ltb_spec 0 s) as [Hpos|Hzero].
  - destruct (Z.ltb_spec s 0); [lia|].
    mnorm. rewrite (to_uint64_small s) by lia.
    rewrite size_qemu_iovec_from_buf.
    destruct (Z.ltb_spec s (size qiov)) as [Hshort|Hfull]; mnorm.
    + rewrite to_uint64_small by lia.
      eexists; eexists; split; [reflexivity|]. cbn [w_task iov].
      split; [reflexivity|].
      rewrite <- (size_qemu_iovec_from_buf qiov buf s) at 1.
      rewrite qemu_iovec_memset_bytes
        by (rewrite size_qemu_iovec_from_buf; lia).
      rewrite size_qemu_iovec_from_buf, qemu_iovec_from_buf_bytes by lia.
      rewrite firstn_app, firstn_firstn, Nat.min_id.
      rewrite length_firstn, Nat.min_l by lia.
      rewrite Nat.sub_diag. cbn [firstn]. rewrite app_nil_r. reflexivity.
    + eexists; eexists; split; [reflexivity|]. cbn [w_task iov].
      split; [reflexivity|].
      assert (s = size qiov) by lia. subst s.
      rewrite qemu_iovec_from_buf_bytes by lia.
      rewrite Z.sub_diag. cbn [Z.to_nat repeat].
      rewrite skipn_all2 by (unfold size; lia). reflexivity.
  - assert (s = 0) by lia. subst s. change (0 <? 0) with false. cbv iota.
    mnorm. change (to_uint64 0) with 0. rewrite Z.sub_0_r.
    destruct (Z.ltb_spec 0 (size qiov)) as [Hshort|Hempty]; mnorm.
    + rewrite to_uint64_small by lia.
      eexists; eexists; split; [reflexivity|]. cbn [w_task iov].
      split; [reflexivity|].
      replace (size qiov) with (size qiov - 0) at 1 by lia.
      rewrite qemu_iovec_memset_bytes by lia. rewrite Z.sub_0_r. reflexivity.
    + eexists; eexists; split; [reflexivity|]. cbn [w_task iov].
      split; [reflexivity|].
      assert (Hz : size qiov = 0) by (pose proof (size_nonneg qiov); lia).
      rewrite Hz. cbn [Z.to_nat firstn repeat app].
      unfold size in Hz. destruct (qiov_bytes qiov); [reflexivity|].
      cbn [List.length] in Hz. lia.
Qed.

Lemma nfs_co_readv_delivers_bytes_witness :
  exists w' q',
    nfs_co_readv (Co 1) (ex_run 2 (DataBuf [xaa; xbb])) 0 1 ex_vector ex_world
      = Ret 0 w' /\
    iov (w_task w') = Some q' /\
    qiov_bytes q' =
      firstn (Z.to_nat 2) [xaa; xbb]
      ++ repeat x00 (Z.to_nat (size ex_vector - 2)).
Proof.
  apply (nfs_co_readv_delivers_bytes (Co 1) (ex_run 2 (DataBuf [xaa; xbb])) 0 1
           ex_vector ex_world 2 [xaa; xbb]).
  - split; discriminate.
  - reflexivity.
  - reflexivity.
  - vm_compute. split; discriminate.
  - vm_compute. discriminate.
  - vm_compute. reflexivity.
Defined.

(** *** The trace of a wait *)

Lemma filter_app_nil {A} (f : A -> bool) (l1 l2 : list A) :
  filter f l1 = [] -> filter f (l1 ++ l2) = filter f l2.
Proof. intros H. rewrite filter_app, H. reflexivity. Qed.

Lemma cb_trace_filters (s : Z) (data : cb_data) (t : NFSRPC) :
  filter is_enter (cb_trace s data t) = [] /\
  (co t = None -> filter is_bh_call (cb_trace s data t) = []).
Proof.
  destruct t as [s0 c0 i0 st0 co0 bh0].
  unfold cb_trace, cb_world, nfs_co_generic_cb.
  destruct i0 as [q|], st0 as [m|], co0 as [c|]; mcases;
    (split; [reflexivity | intros Hco; try discriminate Hco; reflexivity]).
Qed.

(** One dispatch, in full: the task changes by the completion delivered, the
    stored mask ends equal to the engine's, no coroutine is entered. *)
Lemma run_handler_full (d : dispatch) (w : World) :
  context (w_client w) <> None ->
  exists w' mid,
    run_handler d w = Ret tt w' /\
    w_task w' =
      match d_completion d with
      | Some (s, data) => cb_task s data (w_task w)
      | None => w_task w
      end /\
    in_sync (w_client w') /\
    fh (w_client w') = fh (w_client w) /\
    w_trace w' = w_trace w ++ mid /\
    filter is_enter mid = [] /\
    (co (w_task w) = None -> filter is_bh_call mid = []).
Proof.
  destruct w as [[[c|] f ev hz] ts t tr]; simpl; [intros _ | congruence].
  destruct c as [fd cev u g sy mo].
  destruct d as [[|] [[s data]|] ev'];
    unfold run_handler, nfs_process_read, nfs_process_write, nfs_service,
      nfs_set_events;
    mnorm; try rewrite nfs_co_generic_cb_frame; mcases;
    (eexists; eexists; split; [reflexivity|]);
    cbn [w_task w_client w_trace fh];
    (split; [reflexivity|]);
    (split; [eexists; split; reflexivity|]);
    (split; [reflexivity|]);
    (split; [repeat rewrite <- app_assoc; reflexivity|]);
    cbn [app filter is_enter is_bh_call];
    try (destruct (cb_trace_filters s data t) as [He Hb]);
    repeat rewrite filter_app; cbn [filter is_enter is_bh_call app];
    try rewrite He; (split; [reflexivity|]);
    intros Hco; try rewrite (Hb Hco); reflexivity.
Qed.

Lemma nfs_set_events_full (w : World) :
  context (w_client w) <> None ->
  exists w' mid,
    nfs_set_events w = Ret tt w' /\
    w_task w' = w_task w /\
    in_sync (w_client w') /\
    fh (w_client w') = fh (w_client w) /\
    w_trace w' = w_trace w ++ mid /\
    filter is_enter mid = [] /\
    filter is_bh_call mid = [].
Proof.
  destruct w as [[[c|] f ev hz] ts t tr]; simpl; [intros _ | congruence].
  destruct c as [fd cev u g sy mo].
  unfold nfs_set_events. mcases;
    (eexists; eexists; split; [reflexivity|]);
    cbn [w_task w_client w_trace fh];
    (split; [reflexivity|]); (split; [eexists; split; reflexivity|]);
    (split; [reflexivity|]);
    (split; [first [reflexivity | symmetry; apply app_nil_r]|]);
    split; reflexivity.
Qed.

Lemma in_sync_context (cl : NFSClient) : in_sync cl -> context cl <> None.
Proof. intros (c & Hc & _). congruence. Qed.

(** A suspension in [qemu_coroutine_yield], in full: the only coroutine
    entered is the one bound to the task, once. *)
Lemma qemu_coroutine_yield_full (script : list dispatch) :
  forall (w : World) (s : Z) (data : cb_data),
    first_completion script = Some (s, data) ->
    context (w_client w) <> None ->
    co (w_task w) <> None ->
    bh_pending (w_task w) = false ->
    exists rest w' mid,
      qemu_coroutine_yield script w = Ret rest w' /\
      in_sync (w_client w') /\
      fh (w_client w') = fh (w_client w) /\
      w_trace w' = w_trace w ++ mid /\
      filter is_enter mid = [E_qemu_coroutine_enter (co (w_task w))].
Proof.
  induction script as [|d rest IH]; intros w s data Hfc Hctx Hco Hbh.
  - discriminate.
  - simpl in Hfc. simpl qemu_coroutine_yield. unfold bind at 1.
    destruct (run_handler_full d w Hctx)
      as (w1 & mid1 & Hrun & Htask1 & Hsync1 & Hfh1 & Htr1 & Hent1 & _).
    rewrite Hrun. unfold bind at 1. unfold get_task at 1.
    destruct (d_completion d) as [[s1 data1]|] eqn:Hd.
    + inversion Hfc; subst s1 data1.
      rewrite Htask1, (bh_pending_cb_task s data _ Hco).
      assert (Hb : bh (w_task w1) = Some (mkbh fn_nfs_co_generic_bh_cb true false)).
      { rewrite Htask1, cb_task_bh. destruct (co (w_task w)); congruence. }
      destruct (nfs_co_generic_bh_cb_ok w1 _ Hb)
        as (w2 & Hbhcb & Hcl & _ & _ & _ & _ & Htr2).
      unfold bind. rewrite Hbhcb. unfold ret.
      eexists; exists w2; eexists. split; [reflexivity|].
      rewrite Hcl. split; [exact Hsync1|]. split; [exact Hfh1|].
      rewrite Htr2, Htr1, <- app_assoc. split; [reflexivity|].
      rewrite filter_app, Hent1. cbn [app filter is_enter bh_cb].
      rewrite Htask1, cb_task_co. reflexivity.
    + rewrite Htask1, Hbh.
      destruct (IH w1 s data Hfc (in_sync_context _ Hsync1))
        as (rest' & w2 & mid2 & Hy & Hsync2 & Hfh2 & Htr2 & Hent2);
        try (rewrite Htask1; assumption).
      exists rest', w2, (mid1 ++ mid2). split; [exact Hy|].
      split; [exact Hsync2|]. split; [congruence|].
      rewrite Htr2, Htr1, <- app_assoc. split; [reflexivity|].
      rewrite filter_app, Hent1, Hent2, Htask1. reflexivity.
Qed.

Lemma co_wait_loop_full (script : list dispatch) (fuel : nat) (w : World)
    (s : Z) (data : cb_data) :
  first_completion script = Some (s, data) ->
  context (w_client w) <> None ->
  co (w_task w) <> None ->
  bh_pending (w_task w) = false ->
  complete (w_task w) = 0 ->
  exists w' mid,
    wait_loop qemu_coroutine_yield (S fuel) script w = Ret tt w' /\
    in_sync (w_client w') /\
    fh (w_client w') = fh (w_client w) /\
    w_trace w' = w_trace w ++ mid /\
    filter is_enter mid = [E_qemu_coroutine_enter (co (w_task w))].
Proof.
  intros Hfc Hctx Hco Hbh Hc.
  destruct (nfs_set_events_full w Hctx)
    as (w1 & mid1 & Hse & Ht1 & Hsync1 & Hfh1 & Htr1 & Hent1 & _).
  destruct (qemu_coroutine_yield_full script w1 s data Hfc
              (in_sync_context _ Hsync1))
    as (rest & w2 & mid2 & Hy & Hsync2 & Hfh2 & Htr2 & Hent2);
    try (rewrite Ht1; assumption).
  destruct (co_wait_loop_ok script fuel w s data Hfc Hctx Hco Hbh Hc)
    as (w' & Hloop & _ & Hc' & _).
  assert (Hw : wait_loop qemu_coroutine_yield (S fuel) script w =
               wait_loop qemu_coroutine_yield fuel rest w2).
  { simpl wait_loop at 1. unfold bind at 1. unfold get_task at 1. rewrite Hc.
    change (0 =? 0) with true. cbv iota.
    unfold bind at 1. rewrite Hse. unfold bind at 1. rewrite Hy. reflexivity. }
  rewrite Hw in Hloop.
  assert (Hdone : wait_loop qemu_coroutine_yield fuel rest w2 = Ret tt w2).
  { destruct fuel; simpl wait_loop in *; unfold bind, get_task in *;
      destruct (complete (w_task w2) =? 0) eqn:Hz; try reflexivity;
      try discriminate Hloop.
    exfalso.
    destruct (nfs_set_events w2) as [[] w3| | |]; try discriminate Hloop.
    clear - Hloop Hc' Hz Hy Hfc Hsync1 Ht1 Hco Hbh.
    destruct (qemu_coroutine_yield_ok script w1 s data Hfc
                (in_sync_context _ Hsync1))
      as (r & wy & Hy' & _ & _ & Hcy & _); try (rewrite Ht1; assumption).
    rewrite Hy in Hy'. inversion Hy'; subst.
    rewrite Hcy in Hz. discriminate. }
  rewrite Hw, Hdone. exists w2, (mid1 ++ mid2). split; [reflexivity|].
  split; [exact Hsync2|]. split; [congruence|].
  rewrite Htr2, Htr1, <- app_assoc. split; [reflexivity|].
  rewrite filter_app, Hent1, Hent2, Ht1. reflexivity.
Qed.

Lemma aio_wait_loop_full (script : list dispatch) :
  forall (fuel : nat) (w : World) (s : Z) (data : cb_data),
    first_completion script = Some (s, data) ->
    (List.length script < fuel)%nat ->
    context (w_client w) <> None ->
    complete (w_task w) = 0 ->
    co (w_task w) = None ->
    exists w' mid,
      wait_loop qemu_aio_wait fuel script w = Ret tt w' /\
      in_sync (w_client w') /\
      fh (w_client w') = fh (w_client w) /\
      w_trace w' = w_trace w ++ mid /\
      filter is_enter mid = [] /\
      filter is_bh_call mid = [].
Proof.
  induction script as [|d rest IH]; intros fuel w s data Hfc Hfuel Hctx Hc Hco.
  - discriminate.
  - destruct fuel as [|fuel]; [simpl in Hfuel; lia|].
    simpl in Hfc, Hfuel.
    destruct (nfs_set_events_full w Hctx)
      as (w1 & mid1 & Hse & Ht1 & Hsync1 & Hfh1 & Htr1 & Hent1 & Hbh1).
    destruct (run_handler_full d w1 (in_sync_context _ Hsync1))
      as (w2 & mid2 & Hrun & Ht2 & Hsync2 & Hfh2 & Htr2 & Hent2 & Hbh2).
    rewrite Ht1 in Hbh2, Ht2. specialize (Hbh2 Hco).
    simpl wait_loop. unfold bind at 1. unfold get_task at 1. rewrite Hc.
    change (0 =? 0) with true. cbv iota.
    unfold bind at 1. rewrite Hse. unfold bind at 1.
    unfold qemu_aio_wait, bind at 1. rewrite Hrun. unfold ret at 1.
    destruct (d_completion d) as [[s1 data1]|] eqn:Hd.
    + inversion Hfc; subst s1 data1.
      exists w2, (mid1 ++ mid2).
      split.
      { destruct fuel; simpl wait_loop; unfold bind, get_task;
          rewrite Ht2, cb_task_complete; reflexivity. }
      split; [exact Hsync2|]. split; [congruence|].
      rewrite Htr2, Htr1, <- app_assoc. split; [reflexivity|].
      rewrite !filter_app, Hent1, Hent2, Hbh1, Hbh2. split; reflexivity.
    + destruct (IH fuel w2 s data Hfc) as
        (w3 & mid3 & Hw & Hsync3 & Hfh3 & Htr3 & Hent3 & Hbh3);
        try (rewrite Ht2; assumption); try lia.
      { exact (in_sync_context _ Hsync2). }
      exists w3, (mid1 ++ mid2 ++ mid3). split; [exact Hw|].
      split; [exact Hsync3|]. split; [congruence|].
      rewrite Htr3, Htr2, Htr1, <- !app_assoc. split; [reflexivity|].
      rewrite !filter_app, Hent1, Hent2, Hent3, Hbh1, Hbh2, Hbh3.
      split; reflexivity.
Qed.

(** The request of a coroutine operation, in full. *)
Lemma co_request_full (e : event) (eng : engine_run) (w : World) (t0 : NFSRPC)
    (s : Z) (data : cb_data) :
  is_open (w_client w) ->
  run_submit_rc eng = 0 ->
  first_completion (run_script eng) = Some (s, data) ->
  w_task w = t0 ->
  co t0 <> None -> bh t0 = None -> complete t0 = 0 ->
  exists w1 w2 mid,
    nfs_submit e eng w = Ret 0 w1 /\
    wait_loop qemu_coroutine_yield (loop_bound (run_script eng))
      (run_script eng) w1 = Ret tt w2 /\
    status (w_task w2) = status (cb_task s data t0) /\
    iov (w_task w2) = iov (cb_task s data t0) /\
    in_sync (w_client w2) /\
    fh (w_client w2) = fh (w_client w) /\
    w_trace w2 = w_trace w ++ e :: mid /\
    filter is_enter mid = [E_qemu_coroutine_enter (co t0)].
Proof.
  intros Hopen Hrc Hfc Ht Hco Hbh Hc.
  destruct (co_request_ok e eng w t0 s data Hopen Hrc Hfc Ht Hco Hbh Hc)
    as (w1 & w2 & Hsub & Hloop & Hst & _ & Hiov & _).
  destruct w as [[[c|] [f|] ev hz] ts t tr]; destruct Hopen as [Hcx Hfx];
    cbn in Hcx, Hfx; try congruence.
  cbn [w_task] in Ht. subst t.
  rewrite nfs_submit_world, Hrc in Hsub. inversion Hsub; subst w1. clear Hsub.
  match type of Hloop with
  | wait_loop _ _ _ ?W1 = _ =>
      destruct (co_wait_loop_full (run_script eng)
                  (List.length (run_script eng)) W1 s data Hfc)
        as (w2' & mid & Hloop' & Hsync & Hfh & Htr & Hent);
        try assumption; try discriminate
  end.
  { unfold bh_pending. cbn [w_task]. rewrite Hbh. reflexivity. }
  change (S (List.length (run_script eng))) with (loop_bound (run_script eng))
    in Hloop'.
  rewrite Hloop in Hloop'. inversion Hloop'; subst w2'.
  eexists; exists w2, mid. rewrite nfs_submit_world, Hrc.
  split; [reflexivity|]. split; [exact Hloop|].
  split; [exact Hst|]. split; [exact Hiov|]. split; [exact Hsync|].
  split; [exact Hfh|].
  cbn [w_trace w_task] in Htr, Hent. rewrite <- app_assoc in Htr.
  split; [exact Htr | exact Hent].
Qed.

(** X6: A coroutine operation whose request completes is resumed exactly once,
    and the coroutine entered is the one that issued it; when the operation
    returns, the mask stored in the client is the one the engine asks
    for. *)
Theorem coroutine_operation_resumed_once (self : Coroutine) (eng : engine_run)
    (sector_num nb_sectors : Z) (qiov : QEMUIOVector) (w : World)
    (s : Z) (data : cb_data) :
  is_open (w_client w) ->
  run_submit_rc eng = 0 ->
  first_completion (run_script eng) = Some (s, data) ->
  (exists r w' mid,
     nfs_co_readv self eng sector_num nb_sectors qiov w = Ret r w' /\
     w_trace w' = w_trace w ++ mid /\
     filter is_enter mid = [E_qemu_coroutine_enter (Some self)] /\
     in_sync (w_client w')) /\
  (exists r w' mid,
     nfs_co_writev self eng sector_num nb_sectors qiov w = Ret r w' /\
     w_trace w' = w_trace w ++ mid /\
     filter is_enter mid = [E_qemu_coroutine_enter (Some self)] /\
     in_sync (w_client w')) /\
  (exists r w' mid,
     nfs_co_flush self eng w = Ret r w' /\
     w_trace w' = w_trace w ++ mid /\
     filter is_enter mid = [E_qemu_coroutine_enter (Some self)] /\
     in_sync (w_client w')).
Proof.
  intros Hopen Hrc Hfc.
  split; [|split].
  - unfold nfs_co_readv, nfs_co_init_task.
    unfold bind at 1. unfold task_store at 1.
    unfold bind at 1. unfold task_store at 1.
    set (w0 := mkworld _ _ _ _).
    match goal with
    | |- context [nfs_submit ?e eng] =>
        destruct (co_request_full e eng w0
                    (mkrpc 0 0 (Some qiov) None (Some self) None) s data)
          as (w1 & w2 & mid & Hsub & Hloop & Hst & Hiov & Hsync & _ & Htr & Hent);
          try assumption; try reflexivity; try discriminate
    end.
    unfold bind at 1. rewrite Hsub. change (negb (0 =? 0)) with false. cbv iota.
    unfold bind at 1. rewrite Hloop.
    rewrite cb_task_iov in Hiov. cbn [iov] in Hiov.
    assert (Hq : exists q, iov (w_task w2) = Some q).
    { rewrite Hiov. destruct (0 <? s); [destruct (_ <=? _)|]; eexists; reflexivity. }
    destruct Hq as (q & Hq).
    destruct w2 as [cl2 ts2 [s2 c2 i2 st2 co2 bh2] tr2].
    cbn [w_task iov w_trace w_client w0] in Hq, Htr, Hsync. subst i2.
    rewrite <- !app_assoc in Htr. cbn [app] in Htr.
    mcases; (eexists; eexists; eexists; split; [reflexivity|]);
      cbn [w_trace w_client]; rewrite Htr;
      (split; [try rewrite <- app_assoc; cbn [app]; reflexivity|]);
      (split; [|exact Hsync]);
      cbn [filter is_enter]; try rewrite filter_app; rewrite Hent; reflexivity.
  - unfold nfs_co_writev, nfs_co_init_task.
    unfold bind at 1. unfold task_store at 1.
    unfold bind at 1. unfold emit at 1.
    set (w0 := mkworld _ _ _ _).
    match goal with
    | |- context [nfs_submit ?e eng] =>
        destruct (co_request_full e eng w0
                    (mkrpc 0 0 None None (Some self) None) s data)
          as (w1 & w2 & mid & Hsub & Hloop & _ & _ & Hsync & _ & Htr & Hent);
          try assumption; try reflexivity; try discriminate
    end.
    unfold bind at 1. rewrite Hsub. change (negb (0 =? 0)) with false. cbv iota.
    unfold bind at 1. rewrite Hloop.
    destruct w2 as [cl2 ts2 [s2 c2 i2 st2 co2 bh2] tr2].
    cbn [w_trace w_client w0] in Htr, Hsync.
    rewrite <- !app_assoc in Htr. cbn [app] in Htr.
    mcases; (eexists; eexists; eexists; split; [reflexivity|]);
      cbn [w_trace w_client]; rewrite Htr;
      (split; [rewrite <- app_assoc; cbn [app]; reflexivity|]);
      (split; [|exact Hsync]);
      cbn [filter is_enter]; rewrite filter_app, Hent; reflexivity.
  - unfold nfs_co_flush, nfs_co_init_task.
    unfold bind at 1. unfold task_store at 1.
    set (w0 := mkworld _ _ _ _).
    destruct (co_request_full E_nfs_fsync_async eng w0
                (mkrpc 0 0 None None (Some self) None) s data)
      as (w1 & w2 & mid & Hsub & Hloop & _ & _ & Hsync & _ & Htr & Hent);
      try assumption; try reflexivity; try discriminate.
    unfold bind at 1. rewrite Hsub. change (negb (0 =? 0)) with false. cbv iota.
    unfold bind at 1. rewrite Hloop.
    cbn [w_trace w_client w0] in Htr.
    rewrite <- !app_assoc in Htr. cbn [app] in Htr.
    unfold bind, get_task, ret.
    eexists; eexists; eexists; split; [reflexivity|].
    split; [exact Htr|]. split; [|exact Hsync].
    cbn [filter is_enter]. exact Hent.
Qed.

Lemma coroutine_operation_resumed_once_witness :
  exists r w' mid,
    nfs_co_flush (Co 1) (ex_run 0 DataNull) ex_world = Ret r w' /\
    w_trace w' = w_trace ex_world ++ mid /\
    filter is_enter mid = [E_qemu_coroutine_enter (Some (Co 1))] /\
    in_sync (w_client w').
Proof.
  apply (coroutine_operation_resumed_once (Co 1) (ex_run 0 DataNull) 0 1
           ex_vector ex_world 0 DataNull).
  - split; discriminate.
  - reflexivity.
  - reflexivity.
Defined.

(** X7: The allocated-size query runs outside coroutine context: it creates and
    schedules no bottom half and enters no coroutine, and when it returns the
    mask stored in the client is the one the engine asks for. *)
Theorem nfs_get_allocated_file_size_without_coroutine (st0 : stat)
    (eng : engine_run) (w : World) (s : Z) (data : cb_data) :
  is_open (w_client w) ->
  run_submit_rc eng = 0 ->
  first_completion (run_script eng) = Some (s, data) ->
  exists r w' mid,
    nfs_get_allocated_file_size st0 eng w = Ret r w' /\
    w_trace w' = w_trace w ++ mid /\
    filter is_enter mid = [] /\
    filter is_bh_call mid = [] /\
    in_sync (w_client w').
Proof.
  intros Hopen Hrc Hfc.
  destruct w as [[[c|] [f|] ev hz] ts t tr]; destruct Hopen as [Hcx Hfx];
    cbn in Hcx, Hfx; try congruence.
  unfold nfs_get_allocated_file_size.
  unfold bind at 1. unfold task_store at 1.
  unfold bind at 1. unfold task_store at 1.
  cbn [w_client w_total_sectors w_task w_trace apply_write].
  unfold bind at 1. rewrite nfs_submit_world, Hrc.
  change (negb (0 =? 0)) with false. cbv iota. unfold bind at 1.
  match goal with
  | |- context [wait_loop qemu_aio_wait _ _ ?W1] =>
      destruct (aio_wait_loop_full (run_script eng)
                  (loop_bound (run_script eng)) W1 s data Hfc)
        as (w2 & mid & Hloop & Hsync & _ & Htr & Hent & Hbh);
        try reflexivity; try discriminate; try (unfold loop_bound; lia);
      destruct (aio_wait_loop_ok (run_script eng)
                  (loop_bound (run_script eng)) W1 s data Hfc)
        as (w2' & Hloop' & Ht2);
        try reflexivity; try discriminate; try (unfold loop_bound; lia)
  end.
  rewrite Hloop in Hloop'. inversion Hloop'; subst w2'. clear Hloop'.
  rewrite Hloop.
  assert (Hst : exists m, st (w_task w2) = Some m).
  { rewrite Ht2, cb_task_st. cbn [w_task st].
    destruct (s =? 0); [destruct data|]; eexists; reflexivity. }
  destruct Hst as (m & Hm).
  unfold bind, get_task, deref, ret. rewrite Hm.
  eexists; eexists; eexists; split; [reflexivity|].
  cbn [w_trace] in Htr. rewrite <- !app_assoc in Htr. cbn [app] in Htr.
  split; [exact Htr|].
  cbn [filter is_enter is_bh_call].
  repeat split; assumption.
Qed.

Lemma nfs_get_allocated_file_size_without_coroutine_witness :
  exists r w' mid,
    nfs_get_allocated_file_size ex_stack_stat (ex_run 0 (DataStat ex_stat))
      ex_world = Ret r w' /\
    w_trace w' = w_trace ex_world ++ mid /\
    filter is_enter mid = [] /\
    filter is_bh_call mid = [] /\
    in_sync (w_client w').
Proof.
  apply (nfs_get_allocated_file_size_without_coroutine ex_stack_stat
           (ex_run 0 (DataStat ex_stat)) ex_world 0 (DataStat ex_stat)).
  - split; discriminate.
  - reflexivity.
  - reflexivity.
Defined.

(** *** The URL path and the query parameters *)

(** [strrchr] splits at the last occurrence: the two parts make up the
    string, the second starts with the character and has no other one. *)
Lemma strrchr_none (s : string) (c : ascii) :
  strrchr s c = None <-> has_char c s = false.
Proof.
  induction s as [|a r IH]; cbn [strrchr has_char]; [tauto|].
  destruct (strrchr r c) as [[b f]|].
  - split; [discriminate|]. intros H. apply orb_false_elim in H.
    destruct H as [_ H]. apply IH in H. discriminate.
  - destruct (Ascii.eqb a c); cbn [orb]; [split; discriminate|].
    split; intros _; [apply IH|]; reflexivity.
Qed.

Lemma strrchr_some (s : string) (c : ascii) (before from : string) :
  strrchr s c = Some (before, from) ->
  s = (before ++ from)%string /\
  exists rest, from = String c rest /\ has_char c rest = false.
Proof.
  revert before from. induction s as [|a r IH]; intros before from;
    cbn [strrchr]; [discriminate|].
  destruct (strrchr r c) as [[b f]|] eqn:Hr.
  - intros H. inversion H; subst. destruct (IH b from eq_refl) as [-> Hrest].
    split; [reflexivity | exact Hrest].
  - destruct (Ascii.eqb_spec a c) as [->|]; [|discriminate].
    intros H. inversion H; subst. split; [reflexivity|].
    exists r. split; [reflexivity|]. apply strrchr_none. exact Hr.
Qed.

(** The parameter loop, on any list: it only calls setters and reports
    errors, it changes nothing of the client but what the setters configure
    on the context, and it goes through exactly when no parameter is
    rejected, with one setter call per parameter in the order of the URL. *)
Lemma nfs_client_open_params_outcome (ps : list QueryParam) :
  forall (c : nfs_context) (f : option nfsfh) (ev : Z) (hz : bool) (ts : Z)
         (t : NFSRPC) (tr : list event),
  exists c' mid,
    nfs_client_open_params ps (mkworld (mkclient (Some c) f ev hz) ts t tr) =
    Ret (negb (existsb rejected ps))
      (mkworld (mkclient (Some c') f ev hz) ts t (tr ++ mid)) /\
    ctx_fd c' = ctx_fd c /\
    ctx_mounted c' = ctx_mounted c /\
    forallb is_param_event mid = true /\
    (existsb rejected ps = false -> mid = flat_map setter_calls ps).
Proof.
  induction ps as [|p rest IH]; intros c f ev hz ts t tr.
  - exists c, []. cbn. rewrite app_nil_r. repeat split.
  - destruct c as [fd cev u g sy mo].
    cbn [nfs_client_open_params existsb flat_map].
    set (R := existsb rejected rest). set (F := flat_map setter_calls rest).
    unfold rejected, accepted_name, setter_calls.
    destruct (value p) as [v|].
    + destruct (strncmp (name p) "uid" 3 =? 0) eqn:Huid;
        [|destruct (strncmp (name p) "gid" 3 =? 0) eqn:Hgid;
          [|destruct (strncmp (name p) "tcp-syncnt" 10 =? 0) eqn:Hsyn]];
        cbn [orb negb].
      1-3: unfold nfs_set_uid, nfs_set_gid, nfs_set_tcp_syncnt; gnorm;
        match goal with
        | |- context [nfs_client_open_params ?r
                        (mkworld (mkclient (Some ?c1) _ _ _) _ _ ?tr1)] =>
            destruct (IH c1 f ev hz ts t tr1)
              as (c' & mid & Hrun & Hfd & Hmo & Hall & Hmid)
        end;
        rewrite Hrun; rewrite <- app_assoc; subst R F;
        eexists; eexists; (split; [reflexivity|]);
        (split; [exact Hfd|]); (split; [exact Hmo|]);
        (split; [cbn [app forallb is_param_event andb]; exact Hall|]);
        intros Hrej; rewrite (Hmid Hrej); reflexivity.
      gnorm. eexists; eexists; split; [reflexivity|].
      repeat split. discriminate.
    + gnorm. eexists; eexists; split; [reflexivity|].
      repeat split. discriminate.
Qed.

(** *** Open, create *)

(** Every way [nfs_client_open] can end.  It returns, unless it follows a
    NULL path of the URL or a NULL handle after a successful open.  Either it
    has failed, with a negative result, the all-zero client and the context
    it had created destroyed; or the client is open on a mounted context and
    nothing was destroyed.  It creates a file only when asked to, and never
    truncates one. *)
Lemma nfs_client_open_outcome (env : open_env) (filename : string) (flags : Z)
    (w : World) :
  match nfs_client_open env filename flags w with
  | Ret r w' =>
      exists mid,
        w_trace w' = w_trace w ++ mid /\
        w_task w' = w_task w /\
        w_total_sectors w' = w_total_sectors w /\
        (forall f m, In (E_nfs_creat f m) mid ->
           Z.land flags O_CREAT <> 0 /\ m = 384) /\
        (forall f fl, In (E_nfs_open f fl) mid ->
           Z.land flags O_CREAT = 0 /\ fl = flags) /\
        (forall n, ~ In (E_nfs_ftruncate n) mid) /\
        ((r < 0 /\ w_client w' = NFSClient_zero /\
          (In E_nfs_init_context mid -> env_nfs_init_context env <> None ->
           In E_nfs_destroy_context mid))
         \/
         (is_open (w_client w') /\
          (exists c, context (w_client w') = Some c /\ ctx_mounted c <> None) /\
          r = to_int (DIV_ROUND_UP (st_size (snd (env_nfs_fstat env)))
                        BDRV_SECTOR_SIZE) /\
          has_zero_init (w_client w') = S_ISREG (st_mode (snd (env_nfs_fstat env))) /\
          ~ In E_nfs_destroy_context mid))
  | Fault => True
  | Blocked | OutOfFuel => False
  end.
Proof.
  destruct env as [up qpp ic ge mnt [cr crf] [op opf] [fsr fss] ft].
  destruct w as [[cx f ev hz] ts t tr].
  unfold nfs_client_open, nfs_client_open_body, goto_fail, nfs_client_close.
  gnorm.
  destruct (up filename) as [[srv [p|] q]|]; gnorm;
    [ | exact I | destruct cx as [cx0|], f as [f0|]; gnorm; open_branch ].
  destruct (strrchr p "/") as [[dir file]|]; gnorm;
    [ | destruct cx as [cx0|], f as [f0|]; gnorm; open_branch ].
  destruct ic as [c|]; gnorm;
    [ | destruct f as [f0|]; gnorm; open_branch ].
  destruct (nfs_client_open_params_outcome (qpp q) c f ev hz ts t
              (tr ++ [E_nfs_init_context]))
    as (c' & pm & Hrun & Hfd & Hmo & Hall & _).
  rewrite Hrun. clear Hrun.
  destruct (existsb rejected (qpp q)); gnorm;
    [ destruct f as [f0|]; gnorm; open_branch | ].
  unfold nfs_mount, nfs_creat, nfs_open, nfs_client_open_stat, nfs_fstat,
    goto_fail.
  destruct c' as [fd' cev' u' g' sy' mo'].
  destruct crf as [crh|], opf as [oph|], f as [f0|]; gcases; open_branch.
Qed.

(** X8: An open is all or nothing.  When [nfs_client_open] returns, either it has
    failed: the result is negative, the client is all-zero and the context it
    had created has been destroyed; or the client is open on a mounted
    context, the result is the sector count of the file as an [int], the
    zero-init flag says whether the file is regular, and nothing has been
    destroyed. *)
Theorem nfs_client_open_all_or_nothing (env : open_env) (filename : string)
    (flags : Z) (w : World) :
  match nfs_client_open env filename flags w with
  | Ret r w' =>
      exists mid,
        w_trace w' = w_trace w ++ mid /\
        ((r < 0 /\ w_client w' = NFSClient_zero /\
          (In E_nfs_init_context mid -> env_nfs_init_context env <> None ->
           In E_nfs_destroy_context mid))
         \/
         (is_open (w_client w') /\
          (exists c, context (w_client w') = Some c /\ ctx_mounted c <> None) /\
          r = to_int (DIV_ROUND_UP (st_size (snd (env_nfs_fstat env)))
                        BDRV_SECTOR_SIZE) /\
          has_zero_init (w_client w') = S_ISREG (st_mode (snd (env_nfs_fstat env))) /\
          ~ In E_nfs_destroy_context mid))
  | Fault => True
  | Blocked | OutOfFuel => False
  end.
Proof.
  pose proof (nfs_client_open_outcome env filename flags w) as H.
  destruct (nfs_client_open env filename flags w) as [r w'| | |];
    try exact H.
  destruct H as (mid & Htr & _ & _ & _ & _ & _ & Hcases).
  exists mid. split; assumption.
Qed.

(** X9: [nfs_file_open] opens an existing file: it never creates or truncates
    one, and the file is opened read-write exactly when [BDRV_O_RDWR] (bit 1)
    is in the flags, read-only otherwise.  When the options cannot be
    absorbed it returns [-EINVAL] without calling the engine or touching the
    client. *)
Theorem nfs_file_open_opens_existing (env : open_env) (absorb_error : bool)
    (filename : string) (flags : Z) (w : World) :
  match nfs_file_open env absorb_error filename flags w with
  | Ret r w' =>
      exists mid,
        w_trace w' = w_trace w ++ mid /\
        (forall f m, ~ In (E_nfs_creat f m) mid) /\
        (forall n, ~ In (E_nfs_ftruncate n) mid) /\
        (forall f fl, In (E_nfs_open f fl) mid ->
           fl = if Z.testbit flags 1 then O_RDWR else O_RDONLY) /\
        (absorb_error = true ->
         r = - EINVAL /\ w_client w' = w_client w /\
         w_total_sectors w' = w_total_sectors w /\
         mid = [E_qerror_report_err])
  | Fault => True
  | Blocked | OutOfFuel => False
  end.
Proof.
  unfold nfs_file_open. destruct absorb_error.
  - destruct w as [cl ts t tr]. gnorm. eexists. split; [reflexivity|].
    split; [no_event|]. split; [no_event|]. split; [from_event|].
    intros _. repeat split.
  - change BDRV_O_RDWR with (2 ^ 1). rewrite land_pow2_testbit by lia.
    set (fl := if negb (Z.testbit flags 1) then O_RDONLY else O_RDWR).
    assert (Hfl : Z.land fl O_CREAT = 0 /\
                  fl = if Z.testbit flags 1 then O_RDWR else O_RDONLY)
      by (unfold fl; destruct (Z.testbit flags 1); split; reflexivity).
    destruct Hfl as [Hland Hfl].
    pose proof (nfs_client_open_outcome env filename fl w) as H.
    unfold bind at 1.
    destruct (nfs_client_open env filename fl w) as [r w'| | |];
      try exact H.
    destruct H as (mid & Htr & _ & _ & Hcreat & Hopen & Htrunc & _).
    destruct w' as [cl' ts' t' tr'].
    gcases; (exists mid; split; [exact Htr|]);
      (split; [intros f m Hin; apply Hcreat in Hin; tauto|]);
      (split; [exact Htrunc|]);
      (split; [intros f fl' Hin; apply Hopen in Hin; destruct Hin; congruence|]);
      discriminate.
Qed.

(** X10: [nfs_file_create] always closes what it opened: when it returns the
    client is all-zero, and a context that was created has been destroyed.
    It never opens an existing file, and it truncates at most once, to the
    size read out of the options; its result is then what the truncation
    returned. *)
Theorem nfs_file_create_always_closes (env : open_env) (url : string)
    (options : list QEMUOptionParameter) (w : World) :
  match nfs_file_create env url options w with
  | Ret r w' =>
      w_client w' = NFSClient_zero /\
      exists mid,
        w_trace w' = w_trace w ++ mid /\
        (forall f fl, ~ In (E_nfs_open f fl) mid) /\
        (forall n, In (E_nfs_ftruncate n) mid ->
           n = read_out_options options 0 /\ r = env_nfs_ftruncate env) /\
        (In E_nfs_init_context mid -> env_nfs_init_context env <> None ->
         In E_nfs_destroy_context mid)
  | Fault => True
  | Blocked | OutOfFuel => False
  end.
Proof.
  unfold nfs_file_create.
  unfold bind at 1. unfold put_client at 1. unfold bind at 1.
  match goal with
  | |- context [nfs_client_open env url O_CREAT ?W0] =>
      pose proof (nfs_client_open_outcome env url O_CREAT W0) as H;
      destruct (nfs_client_open env url O_CREAT W0) as [r0 w0| | |];
        try exact H
  end.
  destruct H as (mid & Htr & _ & _ & _ & Hopen & Htrunc & Hcases).
  cbn [w_trace] in Htr.
  assert (Hnoopen : forall f fl, ~ In (E_nfs_open f fl) mid).
  { intros f fl Hin. apply Hopen in Hin. destruct Hin as [Hz _].
    vm_compute in Hz. discriminate. }
  destruct w0 as [[cx0 f0 ev0 hz0] ts0 t0 tr0]. cbn [w_trace] in Htr. subst tr0.
  unfold nfs_ftruncate, nfs_client_close.
  destruct Hcases as [(Hneg & Hzero & Hdestroy) | (Hopened & _ & _ & _ & Hnd)].
  - cbn [w_client] in Hzero. inversion Hzero; subst.
    gcases; try exact I;
      (split; [reflexivity|]); eexists;
      (split; [repeat rewrite <- app_assoc; cbn [app]; reflexivity|]);
      (split; [intros f fl Hin; split_in Hin;
               first [discriminate Hin | contradiction
                     | exact (Hnoopen f fl Hin)]|]);
      (split; [intros n Hin; split_in Hin;
               first [discriminate Hin | contradiction
                     | exfalso; exact (Htrunc n Hin)]|]);
      intros Hin Hinit; rewrite in_app_iff; left; split_in Hin;
      first [discriminate Hin | contradiction | exact (Hdestroy Hin Hinit)].
  - destruct Hopened as [Hc Hf]. cbn [w_client context fh] in Hc, Hf.
    destruct cx0 as [c0|], f0 as [h0|]; try congruence.
    gcases;
      (split; [reflexivity|]); eexists;
      (split; [repeat rewrite <- app_assoc; cbn [app]; reflexivity|]);
      (split; [intros f fl Hin; split_in Hin;
               first [discriminate Hin | contradiction
                     | exact (Hnoopen f fl Hin)]|]);
      (split; [intros n Hin; split_in Hin;
               first [discriminate Hin | contradiction
                     | exfalso; exact (Htrunc n Hin)
                     | inversion Hin; split; reflexivity]|]);
      intros _ _; rewrite in_app_iff; right; in_event.
Qed.

(** X11: A successful open, call by call.  The URL path is split at its last
    slash: the share that is mounted is what precedes it, the file that is
    opened or created is the rest, starting with that slash.  Each accepted
    parameter is forwarded by one setter call, in the order of the URL, before
    the mount; the file is created with mode 0600 when [O_CREAT] is in the
    flags and opened with the flags otherwise.  The client ends with the
    mounted context, the handle the engine stored and the zero-init flag of
    the file. *)
Theorem nfs_client_open_success (env : open_env) (filename : string)
    (flags : Z) (w : World) (uri : URI) (p dir file : string)
    (c : nfs_context) (rc : Z) (h : nfsfh) :
  env_uri_parse env filename = Some uri ->
  path uri = Some p ->
  strrchr p "/" = Some (dir, file) ->
  env_nfs_init_context env = Some c ->
  existsb rejected (env_query_params_parse env (query uri)) = false ->
  0 <= env_nfs_mount env ->
  (if Z.land flags O_CREAT =? 0 then env_nfs_open env else env_nfs_creat env)
    = (rc, Some h) ->
  0 <= rc ->
  0 <= fst (env_nfs_fstat env) ->
  exists w' c',
    nfs_client_open env filename flags w =
      Ret (to_int (DIV_ROUND_UP (st_size (snd (env_nfs_fstat env)))
                     BDRV_SECTOR_SIZE)) w' /\
    w_client w' =
      mkclient (Some c') (Some h) (events (w_client w))
        (S_ISREG (st_mode (snd (env_nfs_fstat env)))) /\
    ctx_mounted c' = Some (server uri, dir) /\
    ctx_fd c' = ctx_fd c /\
    w_trace w' =
      w_trace w ++
      E_nfs_init_context
      :: flat_map setter_calls (env_query_params_parse env (query uri))
      ++ [E_nfs_mount (server uri) dir;
          if Z.land flags O_CREAT =? 0
          then E_nfs_open file flags else E_nfs_creat file 384;
          E_nfs_fstat; E_query_params_free; E_uri_free; E_g_free] /\
    p = (dir ++ file)%string /\
    exists base, file = String "/" base /\ has_char "/" base = false.
Proof.
  destruct env as [up qpp ic ge mnt [cr crf] [op opf] [fsr fss] ft].
  destruct w as [[cx f ev hz] ts t tr].
  destruct uri as [srv pth q].
  cbn [env_uri_parse env_query_params_parse env_nfs_init_context env_nfs_mount
       env_nfs_creat env_nfs_open env_nfs_fstat path query server fst snd
       w_client w_trace events].
  intros Hup Hpath Hslash Hic Hrej Hmnt Hfile Hrc Hfs.
  subst pth ic.
  destruct (strrchr_some p "/" dir file Hslash) as [Hp Hbase].
  unfold nfs_client_open, nfs_client_open_body, goto_fail, nfs_client_close.
  gnorm. rewrite Hup. gnorm. rewrite Hslash. gnorm.
  destruct (nfs_client_open_params_outcome (qpp q) c f ev hz ts t
              (tr ++ [E_nfs_init_context]))
    as (c' & pm & Hrun & Hfd & Hmo & Hall & Hpm).
  rewrite Hrun. clear Hrun. rewrite Hrej. specialize (Hpm Hrej). subst pm.
  gnorm.
  unfold nfs_mount, nfs_creat, nfs_open, nfs_client_open_stat, nfs_fstat,
    goto_fail.
  destruct c' as [fd' cev' u' g' sy' mo']. cbn [ctx_fd] in Hfd.
  apply Z.leb_le in Hmnt. apply Z.ltb_ge in Hrc. apply Z.ltb_ge in Hfs.
  assert (Hmnt' : (mnt <? 0) = false) by (apply Z.ltb_ge; apply Z.leb_le; exact Hmnt).
  destruct (Z.land flags O_CREAT =? 0); inversion Hfile; subst;
    gnorm; rewrite Hmnt, Hmnt'; gnorm; rewrite Hrc; gnorm; rewrite Hfs; gnorm;
    (eexists; eexists; split; [reflexivity|]);
    cbn [w_client w_trace ctx_mounted ctx_fd];
    (split; [reflexivity|]); (split; [reflexivity|]);
    (split; [first [reflexivity | assumption]|]);
    (split; [repeat rewrite <- app_assoc; reflexivity|]);
    (split; [first [reflexivity | assumption] | exact Hbase]).
Qed.

Lemma nfs_client_open_success_witness :
  exists w' c',
    nfs_client_open
      (ex_open_env (Some "uid=7&gid=8"%string)
         [mkqp "uid" (Some "7"%string); mkqp "gid" (Some "8"%string)] 1025)
      "nfs://srv/share/file?uid=7&gid=8" O_RDWR ex_closed_world =
      Ret (to_int (DIV_ROUND_UP 1025 BDRV_SECTOR_SIZE)) w' /\
    w_client w' = mkclient (Some c') (Some (NfsFh 3)) 0 (S_ISREG S_IFREG) /\
    ctx_mounted c' = Some ("srv"%string, "/share"%string) /\
    ctx_fd c' = 7 /\
    w_trace w' =
      [] ++
      E_nfs_init_context
      :: flat_map setter_calls
           [mkqp "uid" (Some "7"%string); mkqp "gid" (Some "8"%string)]
      ++ [E_nfs_mount "srv" "/share";
          if Z.land O_RDWR O_CREAT =? 0
          then E_nfs_open "/file" O_RDWR else E_nfs_creat "/file" 384;
          E_nfs_fstat; E_query_params_free; E_uri_free; E_g_free] /\
    "/share/file"%string = ("/share" ++ "/file")%string /\
    exists base, "/file"%string = String "/" base /\ has_char "/" base = false.
Proof.
  apply (nfs_client_open_success
           (ex_open_env (Some "uid=7&gid=8"%string)
              [mkqp "uid" (Some "7"%string); mkqp "gid" (Some "8"%string)] 1025)
           "nfs://srv/share/file?uid=7&gid=8" O_RDWR ex_closed_world
           (mkuri "srv" (Some "/share/file"%string) (Some "uid=7&gid=8"%string))
           "/share/file" "/share" "/file" ex_ctx 0 (NfsFh 3)).
  - reflexivity.
  - reflexivity.
  - reflexivity.
  - reflexivity.
  - reflexivity.
  - vm_compute. discriminate.
  - reflexivity.
  - lia.
  - vm_compute. discriminate.
Defined.

(** X12: The option loop of [nfs_file_create] keeps the value of the last option
    named [size]; without one the size stays what it was. *)
Theorem read_out_options_last_size (before after : list QEMUOptionParameter)
    (n total_size : Z) :
  forallb (fun o => negb (strcmp (opt_name o) "size" =? 0)) after = true ->
  read_out_options (before ++ mkopt "size" n :: after) total_size = n /\
  read_out_options after total_size = total_size.
Proof.
  intros Hafter.
  assert (Hkeep : forall acc, read_out_options after acc = acc).
  { induction after as [|o rest IH]; intros acc; [reflexivity|].
    cbn [forallb] in Hafter. apply andb_true_iff in Hafter.
    destruct Hafter as [Ho Hrest]. cbn [read_out_options].
    destruct (strcmp (opt_name o) "size" =? 0); [discriminate|].
    apply IH. exact Hrest. }
  split; [|apply Hkeep].
  revert total_size. induction before as [|o rest IH]; intros total_size.
  - cbn [app read_out_options opt_name opt_value_n].
    change (strcmp "size" "size" =? 0) with true. cbv iota. apply Hkeep.
  - cbn [app read_out_options]. apply IH.
Qed.

Lemma read_out_options_last_size_witness :
  read_out_options ([mkopt "size" 1; mkopt "fmt" 9] ++ mkopt "size" 4096
                    :: [mkopt "cluster" 2]) 0 = 4096 /\
  read_out_options [mkopt "cluster" 2] 0 = 0.
Proof.
  apply (read_out_options_last_size [mkopt "size" 1; mkopt "fmt" 9]
           [mkopt "cluster" 2] 4096 0).
  reflexivity.
Defined.

(** *** One request per operation *)

Lemma cb_trace_wait_events (s : Z) (data : cb_data) (t : NFSRPC) :
  forallb is_wait_event (cb_trace s data t) = true.
Proof.
  destruct t as [s0 c0 i0 st0 co0 bh0].
  unfold cb_trace, cb_world, nfs_co_generic_cb.
  destruct i0 as [q|], st0 as [m|], co0 as [c|]; mcases; reflexivity.
Qed.

Lemma forallb_app_true {A} (f : A -> bool) (l1 l2 : list A) :
  forallb f l1 = true -> forallb f l2 = true -> forallb f (l1 ++ l2) = true.
Proof. intros H1 H2. rewrite forallb_app, H1, H2. reflexivity. Qed.

Lemma nfs_set_events_events (w w' : World) :
  nfs_set_events w = Ret tt w' ->
  exists mid, w_trace w' = w_trace w ++ mid /\ forallb is_wait_event mid = true.
Proof.
  destruct w as [[[c|] f ev hz] ts t tr]; [|discriminate].
  destruct c as [fd cev u g sy mo].
  unfold nfs_set_events. gcases; intros H; inversion H; subst; cbn [w_trace].
  - exists []. rewrite app_nil_r. split; reflexivity.
  - eexists. split; reflexivity.
  - eexists. split; reflexivity.
  - eexists. split; reflexivity.
  - eexists. split; reflexivity.
Qed.

Lemma run_handler_events (d : dispatch) (w w' : World) :
  run_handler d w = Ret tt w' ->
  exists mid, w_trace w' = w_trace w ++ mid /\ forallb is_wait_event mid = true.
Proof.
  destruct w as [[[c|] f ev hz] ts t tr];
    [|destruct d as [[|] [[s data]|] ev']; discriminate].
  destruct c as [fd cev u g sy mo].
  destruct d as [[|] [[s data]|] ev'];
    unfold run_handler, nfs_process_read, nfs_process_write, nfs_service,
      nfs_set_events;
    gnorm; try rewrite nfs_co_generic_cb_frame; gcases;
    intros H; inversion H; subst; cbn [w_trace];
    repeat rewrite <- app_assoc; eexists; (split; [reflexivity|]);
    cbn [app forallb is_wait_event andb];
    first [ reflexivity
          | apply cb_trace_wait_events
          | apply forallb_app_true; [apply cb_trace_wait_events | reflexivity] ].
Qed.

Lemma qemu_coroutine_yield_events (script : list dispatch) :
  forall (w : World) (rest : list dispatch) (w' : World),
    qemu_coroutine_yield script w = Ret rest w' ->
    exists mid, w_trace w' = w_trace w ++ mid /\ forallb is_wait_event mid = true.
Proof.
  induction script as [|d tl IH]; intros w rest w' H; [discriminate|].
  simpl qemu_coroutine_yield in H. unfold bind at 1 in H.
  destruct (run_handler d w) as [[] w1| | |] eqn:Hrun; try discriminate.
  destruct (run_handler_events d w w1 Hrun) as (mid1 & Htr1 & Hw1).
  unfold bind at 1 in H. unfold get_task at 1 in H.
  destruct (bh_pending (w_task w1)).
  - unfold bind in H.
    destruct (nfs_co_generic_bh_cb w1) as [[] w2| | |] eqn:Hbh;
      try discriminate.
    unfold ret in H. inversion H; subst.
    destruct (bh (w_task w1)) as [b|] eqn:Hb.
    + destruct (nfs_co_generic_bh_cb_ok w1 b Hb)
        as (w2 & Hbh' & _ & _ & _ & _ & _ & Htr2).
      rewrite Hbh in Hbh'. inversion Hbh'; subst w2.
      exists (mid1 ++ [E_qemu_bh_delete;
                       E_task (W_bh (Some (mkbh (bh_cb b) false true)));
                       E_qemu_coroutine_enter (co (w_task w1))]).
      rewrite Htr2, Htr1, <- app_assoc. split; [reflexivity|].
      apply forallb_app_true; [exact Hw1 | reflexivity].
    + unfold nfs_co_generic_bh_cb, bind, get_task, deref in Hbh.
      rewrite Hb in Hbh. discriminate.
  - destruct (IH w1 rest w' H) as (mid2 & Htr2 & Hw2).
    exists (mid1 ++ mid2). rewrite Htr2, Htr1, <- app_assoc.
    split; [reflexivity|]. apply forallb_app_true; assumption.
Qed.

Lemma qemu_aio_wait_events (script : list dispatch) (w : World)
    (rest : list dispatch) (w' : World) :
  qemu_aio_wait script w = Ret rest w' ->
  exists mid, w_trace w' = w_trace w ++ mid /\ forallb is_wait_event mid = true.
Proof.
  destruct script as [|d tl]; [discriminate|].
  unfold qemu_aio_wait, bind, ret.
  destruct (run_handler d w) as [[] w1| | |] eqn:Hrun; try discriminate.
  intros H. inversion H; subst. exact (run_handler_events d w w' Hrun).
Qed.

(** Whatever a wait loop does before it ends is a wait event. *)
Lemma wait_loop_events (suspend : list dispatch -> M (list dispatch)) :
  (forall script w rest w',
      suspend script w = Ret rest w' ->
      exists mid,
        w_trace w' = w_trace w ++ mid /\ forallb is_wait_event mid = true) ->
  forall (fuel : nat) (script : list dispatch) (w w' : World),
    wait_loop suspend fuel script w = Ret tt w' ->
    exists mid, w_trace w' = w_trace w ++ mid /\ forallb is_wait_event mid = true.
Proof.
  intros Hs. induction fuel as [|fuel IH]; intros script w w' H;
    simpl wait_loop in H; unfold bind at 1 in H; unfold get_task at 1 in H;
    destruct (complete (w_task w) =? 0).
  - discriminate.
  - inversion H; subst. exists []. rewrite app_nil_r. split; reflexivity.
  - unfold bind at 1 in H.
    destruct (nfs_set_events w) as [[] w1| | |] eqn:Hse; try discriminate.
    destruct (nfs_set_events_events w w1 Hse) as (mid1 & Htr1 & Hw1).
    unfold bind at 1 in H.
    destruct (suspend script w1) as [rest w2| | |] eqn:Hsus; try discriminate.
    destruct (Hs script w1 rest w2 Hsus) as (mid2 & Htr2 & Hw2).
    destruct (IH rest w2 w' H) as (mid3 & Htr3 & Hw3).
    exists (mid1 ++ mid2 ++ mid3).
    rewrite Htr3, Htr2, Htr1, <- !app_assoc. split; [reflexivity|].
    repeat apply forallb_app_true; assumption.
  - inversion H; subst. exists []. rewrite app_nil_r. split; reflexivity.
Qed.

(** X13: A transfer is one request to the engine, addressed in bytes: sector
    [sector_num] for [nb_sectors] sectors is offset
    [sector_num * BDRV_SECTOR_SIZE] for [nb_sectors * BDRV_SECTOR_SIZE] bytes.
    Whatever else a completed read does is a wait event.  A completed write
    allocates its bounce buffer once, fills it with the first bytes of the
    vector, and frees it once, after the wait. *)
Theorem transfer_is_one_request (self : Coroutine) (eng : engine_run)
    (sector_num nb_sectors : Z) (qiov : QEMUIOVector) (w : World)
    (s : Z) (data : cb_data) :
  is_open (w_client w) ->
  run_submit_rc eng = 0 ->
  first_completion (run_script eng) = Some (s, data) ->
  0 <= sector_num < 2 ^ 54 ->
  0 <= nb_sectors <= INT_MAX ->
  (exists r w' mid,
     nfs_co_readv self eng sector_num nb_sectors qiov w = Ret r w' /\
     w_trace w' =
       w_trace w ++
       [E_task (W_init (Some self)); E_task (W_iov_ptr qiov);
        E_nfs_pread_async (sector_num * BDRV_SECTOR_SIZE)
          (nb_sectors * BDRV_SECTOR_SIZE)] ++ mid /\
     forallb is_wait_event mid = true) /\
  (exists r w' mid,
     nfs_co_writev self eng sector_num nb_sectors qiov w = Ret r w' /\
     w_trace w' =
       w_trace w ++
       [E_task (W_init (Some self));
        E_g_malloc (nb_sectors * BDRV_SECTOR_SIZE);
        E_nfs_pwrite_async (sector_num * BDRV_SECTOR_SIZE)
          (nb_sectors * BDRV_SECTOR_SIZE)
          (firstn (Z.to_nat (nb_sectors * BDRV_SECTOR_SIZE)) (qiov_bytes qiov))]
       ++ mid ++ [E_g_free] /\
     forallb is_wait_event mid = true).
Proof.
  intros Hopen Hrc Hfc Hsec Hnb.
  assert (Hoff : to_uint64 (sector_num * BDRV_SECTOR_SIZE)
                 = sector_num * BDRV_SECTOR_SIZE).
  { apply to_uint64_small. change BDRV_SECTOR_SIZE with 512.
    change (2 ^ 64) with (2 ^ 54 * 1024). lia. }
  assert (Hcnt : to_uint64 (nb_sectors * BDRV_SECTOR_SIZE)
                 = nb_sectors * BDRV_SECTOR_SIZE).
  { apply to_uint64_small. change BDRV_SECTOR_SIZE with 512.
    unfold INT_MAX in Hnb. lia. }
  split.
  - unfold nfs_co_readv, nfs_co_init_task.
    unfold bind at 1. unfold task_store at 1.
    unfold bind at 1. unfold task_store at 1.
    set (w0 := mkworld _ _ _ _).
    rewrite Hoff, Hcnt.
    match goal with
    | |- context [nfs_submit ?e eng] =>
        destruct (co_request_full e eng w0
                    (mkrpc 0 0 (Some qiov) None (Some self) None) s data)
          as (w1 & w2 & mid0 & Hsub & Hloop & _ & Hiov & _ & _ & Htr & _);
          try assumption; try reflexivity; try discriminate
    end.
    destruct (wait_loop_events qemu_coroutine_yield qemu_coroutine_yield_events
                _ _ _ _ Hloop) as (mid & Htr' & Hwait).
    unfold bind at 1. rewrite Hsub. change (negb (0 =? 0)) with false. cbv iota.
    unfold bind at 1. rewrite Hloop.
    rewrite cb_task_iov in Hiov. cbn [iov] in Hiov.
    assert (Hq : exists q, iov (w_task w2) = Some q).
    { rewrite Hiov. destruct (0 <? s); [destruct (_ <=? _)|]; eexists; reflexivity. }
    destruct Hq as (q & Hq).
    assert (Hw1 : w_trace w1 = w_trace w0 ++
                  [E_nfs_pread_async (sector_num * BDRV_SECTOR_SIZE)
                     (nb_sectors * BDRV_SECTOR_SIZE)]).
    { clear - Hsub Hopen. subst w0.
      destruct w as [[[c|] [f|] ev hz] ts t tr]; destruct Hopen as [Hc Hf];
        cbn in Hc, Hf; try congruence.
      cbn [w_client w_total_sectors w_task w_trace apply_write] in Hsub.
      rewrite nfs_submit_world in Hsub. inversion Hsub. reflexivity. }
    rewrite Hw1 in Htr'. cbn [w0 w_trace] in Htr'.
    rewrite <- !app_assoc in Htr'. cbn [app] in Htr'.
    destruct w2 as [cl2 ts2 [s2 c2 i2 st2 co2 bh2] tr2].
    cbn [w_task iov w_trace] in Hq, Htr'. subst i2.
    gcases; (eexists; eexists; eexists; split; [reflexivity|]);
      cbn [w_trace app]; rewrite Htr';
      first
        [ split; [reflexivity | exact Hwait]
        | split;
          [ rewrite <- app_assoc; cbn [app]; reflexivity
          | apply forallb_app_true; [exact Hwait | reflexivity] ] ].
  - unfold nfs_co_writev, nfs_co_init_task.
    unfold bind at 1. unfold task_store at 1.
    unfold bind at 1. unfold emit at 1.
    set (w0 := mkworld _ _ _ _).
    rewrite Hoff.
    match goal with
    | |- context [nfs_submit ?e eng] =>
        destruct (co_request_full e eng w0
                    (mkrpc 0 0 None None (Some self) None) s data)
          as (w1 & w2 & mid0 & Hsub & Hloop & _ & _ & _ & _ & Htr & _);
          try assumption; try reflexivity; try discriminate
    end.
    destruct (wait_loop_events qemu_coroutine_yield qemu_coroutine_yield_events
                _ _ _ _ Hloop) as (mid & Htr' & Hwait).
    unfold bind at 1. rewrite Hsub. change (negb (0 =? 0)) with false. cbv iota.
    unfold bind at 1. rewrite Hloop.
    match type of Hsub with
    | nfs_submit ?e eng w0 = _ =>
        assert (Hw1 : w_trace w1 = w_trace w0 ++ [e])
    end.
    { clear - Hsub Hopen. subst w0.
      destruct w as [[[c|] [f|] ev hz] ts t tr]; destruct Hopen as [Hc Hf];
        cbn in Hc, Hf; try congruence.
      cbn [w_client w_total_sectors w_task w_trace apply_write] in Hsub.
      rewrite nfs_submit_world in Hsub. inversion Hsub. reflexivity. }
    rewrite Hw1 in Htr'. cbn [w0 w_trace] in Htr'.
    rewrite Hcnt in Htr'. unfold qemu_iovec_to_buf in Htr'.
    change (Z.to_nat 0) with 0%nat in Htr'. cbn [skipn] in Htr'.
    rewrite <- !app_assoc in Htr'. cbn [app] in Htr'.
    destruct w2 as [cl2 ts2 [s2 c2 i2 st2 co2 bh2] tr2].
    cbn [w_trace] in Htr'.
    gcases; (eexists; eexists; eexists; split; [reflexivity|]);
      cbn [w_trace app]; rewrite Htr';
      (split; [rewrite <- app_assoc; cbn [app]; reflexivity | exact Hwait]).
Qed.

Lemma transfer_is_one_request_witness :
  exists r w' mid,
    nfs_co_readv (Co 1) (ex_run 2 (DataBuf [xaa; xbb])) 3 1 ex_vector ex_world
      = Ret r w' /\
    w_trace w' =
      w_trace ex_world ++
      [E_task (W_init (Some (Co 1))); E_task (W_iov_ptr ex_vector);
       E_nfs_pread_async (3 * BDRV_SECTOR_SIZE) (1 * BDRV_SECTOR_SIZE)] ++ mid /\
    forallb is_wait_event mid = true.
Proof.
  apply (transfer_is_one_request (Co 1) (ex_run 2 (DataBuf [xaa; xbb])) 3 1
           ex_vector ex_world 2 (DataBuf [xaa; xbb])).
  - split; discriminate.
  - reflexivity.
  - reflexivity.
  - lia.
  - unfold INT_MAX. lia.
Defined.

(* ================================================================== *)
(** ** Properties of the i440FX/PIIX machine types *)

Lemma gigabyte_mask (x : Z) :
  0 <= x -> (Z.land x (Z.shiftl 1 30 - 1) =? 0) = (x mod 2 ^ 30 =? 0).
Proof.
  intros Hx. change (Z.shiftl 1 30 - 1) with (Z.ones 30).
  rewrite Z.land_ones by lia. reflexivity.
Qed.

(** X14: The RAM split of [pc_init1] loses nothing: for a RAM size and a
    limit [max_ram_below_4g] that are 64-bit unsigned values, the sizes below
    and above 4G add up to the RAM size, the size below 4G is at most the
    limit and at most [0xe0000000], and memory is put above 4G only when the
    part below is full, that is, equal to the limit or to the boundary
    ([0xc0000000] with [gigabyte_align], [0xe0000000] without). *)
Theorem pc_init1_ram_split_conserves (st : PcState) (ram_size max_ram_below_4g : Z) :
  0 <= ram_size < 2 ^ 64 ->
  0 <= max_ram_below_4g < 2 ^ 64 ->
  below_4g_mem_size st ram_size max_ram_below_4g
    + above_4g_mem_size st ram_size max_ram_below_4g = ram_size /\
  0 <= below_4g_mem_size st ram_size max_ram_below_4g <= max_ram_below_4g /\
  below_4g_mem_size st ram_size max_ram_below_4g <= 0xe0000000 /\
  0 <= above_4g_mem_size st ram_size max_ram_below_4g /\
  (0 < above_4g_mem_size st ram_size max_ram_below_4g ->
   below_4g_mem_size st ram_size max_ram_below_4g = max_ram_below_4g
   \/ below_4g_mem_size st ram_size max_ram_below_4g
      = (if gigabyte_align st then 0xc0000000 else 0xe0000000)).
Proof.
  intros Hram Hmax.
  split_ram;
    try rewrite to_uint64_small by lia;
    repeat split; try lia.
Qed.

Lemma pc_init1_ram_split_conserves_witness :
  below_4g_mem_size ex_pc_state 0x200000000 0x100000000
    + above_4g_mem_size ex_pc_state 0x200000000 0x100000000 = 0x200000000 /\
  0 <= below_4g_mem_size ex_pc_state 0x200000000 0x100000000 <= 0x100000000 /\
  below_4g_mem_size ex_pc_state 0x200000000 0x100000000 <= 0xe0000000 /\
  0 <= above_4g_mem_size ex_pc_state 0x200000000 0x100000000 /\
  (0 < above_4g_mem_size ex_pc_state 0x200000000 0x100000000 ->
   below_4g_mem_size ex_pc_state 0x200000000 0x100000000 = 0x100000000
   \/ below_4g_mem_size ex_pc_state 0x200000000 0x100000000
      = (if gigabyte_align ex_pc_state then 0xc0000000 else 0xe0000000)).
Proof.
  apply (pc_init1_ram_split_conserves ex_pc_state 0x200000000 0x100000000); lia.
Defined.

(** X15: What [gigabyte_align] is for: with the flag set and a limit
    [max_ram_below_4g] that is a multiple of 1G, whenever memory is put above
    4G the part below 4G is a multiple of 1G, so addresses above 4G keep
    their alignment to 1G. *)
Theorem pc_init1_gigabyte_aligned (st : PcState) (ram_size max_ram_below_4g : Z) :
  gigabyte_align st = true ->
  0 <= ram_size < 2 ^ 64 ->
  0 <= max_ram_below_4g < 2 ^ 64 ->
  max_ram_below_4g mod 2 ^ 30 = 0 ->
  0 < above_4g_mem_size st ram_size max_ram_below_4g ->
  below_4g_mem_size st ram_size max_ram_below_4g mod 2 ^ 30 = 0.
Proof.
  intros Hg Hram Hmax Hmul.
  unfold below_4g_mem_size, above_4g_mem_size, pc_init1_ram_split.
  rewrite Hg. cbv zeta.
  repeat match goal with
  | |- context [if ?b then _ else _] =>
      lazymatch b with
      | context [if _ then _ else _] => fail
      | _ => destruct b eqn:?
      end
  end;
  cbn [fst snd] in *; intros Habove; bool_hyps;
  first [exact Hmul | lia | reflexivity].
Qed.

Lemma pc_init1_gigabyte_aligned_witness :
  below_4g_mem_size ex_pc_state 0x200000000 0x80000000 mod 2 ^ 30 = 0.
Proof.
  apply (pc_init1_gigabyte_aligned ex_pc_state 0x200000000 0x80000000).
  - reflexivity.
  - lia.
  - lia.
  - reflexivity.
  - vm_compute. reflexivity.
Defined.

(** X16: When the warning about [max_ram_below_4g] is reported.  It is
    reported exactly when the limit is below the boundary, is not a multiple
    of 1G, and the unsigned difference [ram_size - max_ram_below_4g] exceeds
    the limit: that is the case when more than twice the limit is installed,
    but, the subtraction being unsigned, also whenever the RAM is smaller
    than the limit, where nothing is put above 4G. *)
Theorem pc_init1_warning_condition (st : PcState) (ram_size max_ram_below_4g : Z) :
  0 <= ram_size < 2 ^ 64 ->
  0 <= max_ram_below_4g < 2 ^ 64 ->
  (ram_split_warning st ram_size max_ram_below_4g = true <->
   max_ram_below_4g
     < (if (0xe0000000 <=? ram_size) && gigabyte_align st
        then 0xc0000000 else 0xe0000000) /\
   max_ram_below_4g mod 2 ^ 30 <> 0 /\
   (ram_size < max_ram_below_4g \/ 2 * max_ram_below_4g < ram_size)) /\
  (ram_size < max_ram_below_4g ->
   ram_split_warning st ram_size max_ram_below_4g = true ->
   above_4g_mem_size st ram_size max_ram_below_4g = 0).
Proof.
  intros Hram Hmax. split.
  - set (boundary := if (0xe0000000 <=? ram_size) && gigabyte_align st
                     then 0xc0000000 else 0xe0000000).
    assert (Hb : boundary <= 0xe0000000).
    { subst boundary.
      destruct ((0xe0000000 <=? ram_size) && gigabyte_align st); lia. }
    assert (Hw : ram_split_warning st ram_size max_ram_below_4g
                 = (max_ram_below_4g <? boundary)
                   && ((max_ram_below_4g <? to_uint64 (ram_size - max_ram_below_4g))
                       && negb (max_ram_below_4g mod 2 ^ 30 =? 0))).
    { unfold ram_split_warning, pc_init1_ram_split. cbv zeta.
      rewrite gigabyte_mask by lia. subst boundary.
      destruct (0xe0000000 <=? ram_size); destruct (gigabyte_align st);
        cbn [andb];
        match goal with
        | |- context [max_ram_below_4g <? ?b] =>
            destruct (max_ram_below_4g <? b)
        end;
        cbn [fst snd andb];
        match goal with
        | |- context [if ?c then _ else _] => destruct c
        end; reflexivity. }
    rewrite Hw.
    rewrite !Bool.andb_true_iff, Bool.negb_true_iff, Z.eqb_neq, !Z.ltb_lt.
    destruct (Z.lt_ge_cases max_ram_below_4g boundary) as [Hlow | Hhigh];
      [| lia].
    destruct (Z.lt_ge_cases ram_size max_ram_below_4g) as [Hlt | Hge].
    + replace (to_uint64 (ram_size - max_ram_below_4g))
        with (ram_size - max_ram_below_4g + 2 ^ 64);
        [lia |].
      unfold to_uint64, wrap_unsigned.
      apply Z.mod_unique with (q := -1); lia.
    + rewrite to_uint64_small by lia. lia.
  - intros Hsmall. split_ram; intros Hwarn; first [lia | discriminate | reflexivity].
Qed.

Lemma pc_init1_warning_condition_witness :
  (ram_split_warning ex_pc_state 0x8000000 0xc800000 = true <->
   0xc800000
     < (if (0xe0000000 <=? 0x8000000) && gigabyte_align ex_pc_state
        then 0xc0000000 else 0xe0000000) /\
   0xc800000 mod 2 ^ 30 <> 0 /\
   (0x8000000 < 0xc800000 \/ 2 * 0xc800000 < 0x8000000)) /\
  (0x8000000 < 0xc800000 ->
   ram_split_warning ex_pc_state 0x8000000 0xc800000 = true ->
   above_4g_mem_size ex_pc_state 0x8000000 0xc800000 = 0).
Proof.
  apply (pc_init1_warning_condition ex_pc_state 0x8000000 0xc800000); lia.
Defined.

(** X17: The boundary of each machine type.  Starting from the static flags
    as the file initialises them, with at least [0xe0000000] bytes of RAM and
    a limit [max_ram_below_4g] of at least [0xe0000000], the machine types
    2.0 and newer put [0xc0000000] bytes below 4G, and the types 1.7 and
    older, like the ISA machine, keep the historical [0xe0000000]. *)
Theorem machine_type_ram_boundary
    (mt : i440fx_machine) (kvm : bool) (st : PcState)
    (ram_size max_ram_below_4g : Z) :
  0xe0000000 <= ram_size < 2 ^ 64 ->
  0xe0000000 <= max_ram_below_4g < 2 ^ 64 ->
  below_4g_mem_size (pc_init_suffix mt kvm (statics_initial st))
      ram_size max_ram_below_4g
    = (if (age mt <=? 4)%nat then 0xc0000000 else 0xe0000000) /\
  below_4g_mem_size (pc_init_isa (statics_initial st))
      ram_size max_ram_below_4g = 0xe0000000.
Proof.
  intros Hram Hmax.
  assert (Hsplit : forall s,
            below_4g_mem_size s ram_size max_ram_below_4g
            = if gigabyte_align s then 0xc0000000 else 0xe0000000).
  { intros s. split_ram; try lia; reflexivity. }
  rewrite !Hsplit. split.
  - destruct mt; destruct kvm; reflexivity.
  - destruct (cpu_model st) eqn:Hm; unfold pc_init_isa; cbn; rewrite ?Hm; reflexivity.
Qed.

Lemma machine_type_ram_boundary_witness :
  below_4g_mem_size (pc_init_suffix v1_7 true (statics_initial ex_pc_state))
      0x200000000 0x100000000
    = (if (age v1_7 <=? 4)%nat then 0xc0000000 else 0xe0000000) /\
  below_4g_mem_size (pc_init_isa (statics_initial ex_pc_state))
      0x200000000 0x100000000 = 0xe0000000.
Proof.
  apply (machine_type_ram_boundary v1_7 true ex_pc_state 0x200000000 0x100000000);
    lia.
Defined.

(** X18: A machine type never gains a feature with age.  For each of the
    static flags that start as true, from any state: if the flag is still set
    after the compatibility function of a machine type, it is set after that
    of every newer type.  In the other direction, the legacy settings
    ([smbios_legacy_mode], [option_rom_has_mr], [suppress_vmdesc]) of a type
    are those of every older type too, and an older type makes all the calls
    of a newer one, in the same order, before its own. *)
Theorem pc_compat_monotone
    (newer older : i440fx_machine) (kvm : bool) (st : PcState) :
  (age newer <= age older)%nat ->
  (forall f, In f modern_features ->
     f (pc_init_suffix older kvm st) = true ->
     f (pc_init_suffix newer kvm st) = true) /\
  (forall f, In f [smbios_legacy_mode; option_rom_has_mr; suppress_vmdesc] ->
     f (pc_init_suffix newer kvm st) = true ->
     f (pc_init_suffix older kvm st) = true) /\
  (exists more,
     pc_calls (pc_init_suffix older kvm st)
       = pc_calls (pc_init_suffix newer kvm st) ++ more).
Proof.
  intros Hage.
  split; [|split].
  - intros f Hf. cbn [modern_features In] in Hf.
    repeat (destruct Hf as [<- | Hf]; [|]); try contradiction;
      destruct newer, older; cbv [age] in Hage; try lia;
      destruct kvm; cbn; intros H; first [exact H | discriminate | reflexivity].
  - intros f Hf. cbn [In] in Hf.
    repeat (destruct Hf as [<- | Hf]; [|]); try contradiction;
      destruct newer, older; cbv [age] in Hage; try lia;
      destruct kvm; cbn; intros H; first [exact H | discriminate | reflexivity].
  - destruct newer, older; cbv [age] in Hage; try lia;
      destruct kvm; cbn;
      first [ exists []; symmetry; apply app_nil_r
            | eexists; rewrite <- ?app_assoc; cbn [app]; reflexivity ].
Qed.

Lemma pc_compat_monotone_witness :
  (forall f, In f modern_features ->
     f (pc_init_suffix v1_6 true ex_pc_state) = true ->
     f (pc_init_suffix v2_1 true ex_pc_state) = true) /\
  (forall f, In f [smbios_legacy_mode; option_rom_has_mr; suppress_vmdesc] ->
     f (pc_init_suffix v2_1 true ex_pc_state) = true ->
     f (pc_init_suffix v1_6 true ex_pc_state) = true) /\
  (exists more,
     pc_calls (pc_init_suffix v1_6 true ex_pc_state)
       = pc_calls (pc_init_suffix v2_1 true ex_pc_state) ++ more).
Proof.
  apply (pc_compat_monotone v2_1 v1_6 true ex_pc_state).
  cbv [age]. lia.
Defined.

(** X19: The compatibility functions touch [smm] only under KVM: for every
    machine type but 2.4 it is switched off when KVM is enabled, and in every
    other case it is what it was.  They never change [pci_enabled] or the CPU
    model, and [legacy_acpi_table_size] is 6414 for the types 1.7 and older,
    6652 for 2.0 and untouched for the newer ones. *)
Theorem pc_compat_settings (mt : i440fx_machine) (kvm : bool) (st : PcState) :
  smm (pc_init_suffix mt kvm st)
    = (if kvm && (1 <=? age mt)%nat then ON_OFF_AUTO_OFF else smm st) /\
  pci_enabled (pc_init_suffix mt kvm st) = pci_enabled st /\
  cpu_model (pc_init_suffix mt kvm st) = cpu_model st /\
  legacy_acpi_table_size (pc_init_suffix mt kvm st)
    = (if (5 <=? age mt)%nat then 6414
       else if (4 <=? age mt)%nat then 6652
       else legacy_acpi_table_size st).
Proof.
  destruct mt; destruct kvm; repeat split.
Qed.

(** X20: Exactly one default machine.  Provided [SET_MACHINE_COMPAT] stores
    its list and writes no other member, and whatever
    [pc_default_machine_options] does: the class of 2.4 is the default and
    has the alias [pc], every other i440FX class is not the default and has
    no alias; CPU hot-add is offered by the types 1.5 and newer only; the
    firmware option [firmware=bios-256k.bin] is kept by 2.0 and newer and
    the display [std] by 2.2 and newer. *)
Theorem i440fx_machine_options_fields
    (x : pc_headers) (mt : i440fx_machine) (m : MachineClass) :
  stores_compat_props x ->
  is_default (optionfn mt x m) = (if (age mt =? 0)%nat then 1 else 0) /\
  alias (optionfn mt x m)
    = (if (age mt =? 0)%nat then Some "pc"%string else None) /\
  hot_add_cpu (optionfn mt x m)
    = (if (age mt <=? 7)%nat then Some pc_hot_add_cpu else None) /\
  default_machine_opts (optionfn mt x m)
    = (if (age mt <=? 4)%nat then Some "firmware=bios-256k.bin"%string
       else None) /\
  default_display (optionfn mt x m)
    = (if (age mt <=? 2)%nat then Some "std"%string else None) /\
  family (optionfn mt x m) = Some "pc_piix"%string.
Proof.
  intros Hset.
  destruct mt;
    cbv [optionfn
         pc_i440fx_0_10_machine_options pc_i440fx_0_11_machine_options
         pc_i440fx_0_12_machine_options pc_i440fx_0_13_machine_options
         pc_i440fx_0_14_machine_options pc_i440fx_0_15_machine_options
         pc_i440fx_1_0_machine_options pc_i440fx_1_1_machine_options
         pc_i440fx_1_2_machine_options pc_i440fx_1_3_machine_options
         pc_i440fx_1_4_machine_options pc_i440fx_1_5_machine_options
         pc_i440fx_1_6_machine_options pc_i440fx_1_7_machine_options
         pc_i440fx_2_0_machine_options pc_i440fx_2_1_machine_options
         pc_i440fx_2_2_machine_options pc_i440fx_2_3_machine_options
         pc_i440fx_2_4_machine_options pc_i440fx_machine_options];
    rewrite ?Hset; repeat split.
Qed.

Lemma i440fx_machine_options_fields_witness :
  stores_compat_props ex_headers /\
  is_default (optionfn v1_4 ex_headers ex_machine_class)
    = (if (age v1_4 =? 0)%nat then 1 else 0) /\
  alias (optionfn v1_4 ex_headers ex_machine_class)
    = (if (age v1_4 =? 0)%nat then Some "pc"%string else None) /\
  hot_add_cpu (optionfn v1_4 ex_headers ex_machine_class)
    = (if (age v1_4 <=? 7)%nat then Some pc_hot_add_cpu else None) /\
  default_machine_opts (optionfn v1_4 ex_headers ex_machine_class)
    = (if (age v1_4 <=? 4)%nat then Some "firmware=bios-256k.bin"%string
       else None) /\
  default_display (optionfn v1_4 ex_headers ex_machine_class)
    = (if (age v1_4 <=? 2)%nat then Some "std"%string else None) /\
  family (optionfn v1_4 ex_headers ex_machine_class) = Some "pc_piix"%string.
Proof.
  split.
  - intros m l. reflexivity.
  - apply (i440fx_machine_options_fields ex_headers v1_4 ex_machine_class).
    intros m l. reflexivity.
Defined.


